(** * aibaton/progress.py: activity extraction, item summaries and the
      terminal progress printer

    A shallow embedding of [src/aibaton/progress.py].

    - Python [str] objects are lists of Unicode code points ([list N]), so
      that [len], slicing and the glyphs the printer writes count the way
      Python counts them.
    - JSON-like payloads are the inductive type [value]; a [dict] is an
      association list in insertion order.
    - A Python call that can raise returns a [result]; the methods of
      [ProgressPrinter] run in a state-and-exception monad over the printer
      object, the writes made on the two output streams, the clock and the
      schedule of the ticker thread.
    - Three things are taken from the environment: [repr] of a [str]
      (a table of the Unicode database), the text that the elapsed time is
      rendered to (floating point), and the moments the ticker thread gets
      the lock (the thread scheduler). *)

From Stdlib Require Import String Ascii DecimalString.
From Stdlib Require Import List ZArith NArith Lia Bool.
Import ListNotations.
Local Open Scope string_scope.
Local Open Scope list_scope.
Local Open Scope Z_scope.

(** ** Python strings *)

Definition char := N.
Definition str := list char.

(** An ASCII literal of the source, as a [str]. *)
Definition lit (s : string) : str :=
  map N_of_ascii (list_ascii_of_string s).

(** The characters the source names: line feed, full stop, slash, double
    quote and single quote. *)
Definition chr_nl : char := 10%N.
Definition chr_dot : char := 46%N.
Definition chr_slash : char := 47%N.
Definition chr_dquote : char := 34%N.
Definition chr_squote : char := 39%N.

Definition str_eqb (a b : str) : bool :=
  if list_eq_dec N.eq_dec a b then true else false.

(** [len(s)] *)
Definition py_len {A} (s : list A) : Z := Z.of_nat (length s).

(** [s[:n]], for any Python int [n]: a negative bound counts from the end. *)
Definition slice_to {A} (s : list A) (n : Z) : list A :=
  if 0 <=? n then firstn (Z.to_nat n) s
  else firstn (Z.to_nat (py_len s + n)) s.

(** [s[n:]] *)
Definition slice_from {A} (s : list A) (n : Z) : list A :=
  if 0 <=? n then skipn (Z.to_nat n) s
  else skipn (Z.to_nat (py_len s + n)) s.

(** [s.startswith(p)] *)
Fixpoint startswith (s p : str) : bool :=
  match p, s with
  | [], _ => true
  | _ :: _, [] => false
  | c :: p', d :: s' => N.eqb c d && startswith s' p'
  end.

(** [s.endswith(p)] *)
Definition endswith (s p : str) : bool :=
  startswith (rev s) (rev p).

(** [sub in s] *)
Fixpoint contains (sub s : str) : bool :=
  startswith s sub ||
  match s with
  | [] => false
  | _ :: s' => contains sub s'
  end.

(** [s.find(sub)]: the lowest index of [sub] in [s], or -1. *)
Fixpoint find (sub s : str) : Z :=
  if startswith s sub then 0
  else match s with
       | [] => -1
       | _ :: s' => let i := find sub s' in if i <? 0 then -1 else i + 1
       end.

(** [s.split(sep)] for a one-character separator (the source only splits
    on a line feed, a full stop and a slash). *)
Fixpoint split (sep : char) (s : str) : list str :=
  match s with
  | [] => [[]]
  | c :: s' =>
      if N.eqb c sep then [] :: split sep s'
      else match split sep s' with
           | [] => [[c]]
           | w :: ws => (c :: w) :: ws
           end
  end.

(** [s.split(sep, 1)] as the pair the source unpacks; [None] when [sep]
    does not occur (the result then has one element). *)
Fixpoint split1 (sep : char) (s : str) : option (str * str) :=
  match s with
  | [] => None
  | c :: s' =>
      if N.eqb c sep then Some ([], s')
      else match split1 sep s' with
           | Some (a, b) => Some (c :: a, b)
           | None => None
           end
  end.

(** [s.rsplit(sep, 1)[-1]]: what follows the last [sep], or all of [s]. *)
Definition rsplit1_last (sep : char) (s : str) : str :=
  match split1 sep (rev s) with
  | Some (a, _) => rev a
  | None => s
  end.

(** The code points for which [str.isspace] holds. *)
Definition isspace (c : char) : bool :=
  ((9 <=? c) && (c <=? 13) || (28 <=? c) && (c <=? 32) ||
   (c =? 133) || (c =? 160) || (c =? 5760) ||
   (8192 <=? c) && (c <=? 8202) || (c =? 8232) || (c =? 8233) ||
   (c =? 8239) || (c =? 8287) || (c =? 12288))%N.

Fixpoint lstrip_by (f : char -> bool) (s : str) : str :=
  match s with
  | [] => []
  | c :: s' => if f c then lstrip_by f s' else s
  end.

Definition strip_by (f : char -> bool) (s : str) : str :=
  rev (lstrip_by f (rev (lstrip_by f s))).

(** [s.strip()] *)
Definition strip (s : str) : str := strip_by isspace s.

(** [s.strip(chars)] *)
Definition strip_chars (chars : str) (s : str) : str :=
  strip_by (fun c => existsb (N.eqb c) chars) s.

(** [s.replace(old, new)] for a non-empty [old]: occurrences are replaced
    left to right without overlap; [skip] counts the characters of a
    match still to be dropped. *)
Fixpoint replace_from (old new : str) (skip : nat) (s : str) : str :=
  match s with
  | [] => []
  | c :: s' =>
      match skip with
      | S k => replace_from old new k s'
      | O => if startswith s old
             then new ++ replace_from old new (length old - 1) s'
             else c :: replace_from old new 0 s'
      end
  end.

Definition replace (old new s : str) : str := replace_from old new 0 s.

(** [sep.join(parts)] *)
Fixpoint join (sep : str) (parts : list str) : str :=
  match parts with
  | [] => []
  | [p] => p
  | p :: ps => p ++ sep ++ join sep ps
  end.

(** [len(s.split())]: the number of maximal runs of non-space characters.
    [inword] tells whether the previous character belonged to a word. *)
Fixpoint count_words (inword : bool) (s : str) : Z :=
  match s with
  | [] => 0
  | c :: s' =>
      if isspace c then count_words false s'
      else (if inword then 0 else 1) + count_words true s'
  end.

(** [str(z)] for an int. *)
Definition str_of_Z (z : Z) : str :=
  lit (NilZero.string_of_int (Z.to_int z)).

(** ** Python values and exceptions *)

(** A float is observed by the source only through its truth value and
    through [str()]; both are carried by the model. *)
Record pyfloat := { float_truthy : bool; float_str : str }.

(** The JSON-like objects an event carries. *)
#[warnings="-register-all"]
Inductive value :=
| VNone
| VBool (b : bool)
| VInt (z : Z)
| VFloat (f : pyfloat)
| VStr (s : str)
| VList (l : list value)
| VDict (d : list (str * value)).

(** A [dict] with [str] keys, in insertion order. The keys of a dict are
    distinct; on a list that repeats a key, a lookup sees the first
    binding. *)
Definition dict := list (str * value).

Inductive exn := TypeError | AttributeError.

Inductive result (A : Type) :=
| Ok (a : A)
| Raise (e : exn).
Arguments Ok {A} a.
Arguments Raise {A} e.

Definition rbind {A B} (m : result A) (k : A -> result B) : result B :=
  match m with
  | Ok a => k a
  | Raise e => Raise e
  end.

Notation "'try' x ':=' m 'in' k" := (rbind m (fun x => k))
  (at level 10, x name, m at level 100, k at level 200).

Fixpoint lookup (k : str) (d : dict) : option value :=
  match d with
  | [] => None
  | (k', v) :: d' => if str_eqb k k' then Some v else lookup k d'
  end.

(** [d.get(k, dflt)] and [d.get(k)] on a dict. *)
Definition get_or (d : dict) (k : string) (dflt : value) : value :=
  match lookup (lit k) d with
  | Some v => v
  | None => dflt
  end.

Definition get (d : dict) (k : string) : value := get_or d k VNone.

(** Truth value of an object. *)
Definition truthy (v : value) : bool :=
  match v with
  | VNone => false
  | VBool b => b
  | VInt z => negb (z =? 0)
  | VFloat f => float_truthy f
  | VStr s => negb (str_eqb s [])
  | VList l => match l with [] => false | _ => true end
  | VDict d => match d with [] => false | _ => true end
  end.

(** [a or b] *)
Definition py_or (a b : value) : value := if truthy a then a else b.

(** [v == "s"] for a string literal: only a [str] equals a [str]. *)
Definition eq_lit (v : value) (s : string) : bool :=
  match v with
  | VStr t => str_eqb t (lit s)
  | _ => false
  end.

(** [v in ("a", "b", ...)] *)
Definition in_lits (v : value) (l : list string) : bool :=
  existsb (eq_lit v) l.

(** [v.get(k, dflt)] on any object: only a dict has the method. *)
Definition m_get_or (v : value) (k : string) (dflt : value) : result value :=
  match v with
  | VDict d => Ok (get_or d k dflt)
  | _ => Raise AttributeError
  end.

Definition m_get (v : value) (k : string) : result value := m_get_or v k VNone.

(** [v.rsplit(sep, 1)[-1]] on any object: only a [str] has the method. *)
Definition m_rsplit_last (v : value) : result str :=
  match v with
  | VStr s => Ok (rsplit1_last chr_slash s)
  | _ => Raise AttributeError
  end.

(** [v.split(sep)[0]] on any object. *)
Definition split_first (sep : char) (s : str) : str :=
  hd [] (split sep s).

(** [" ".join(l)] where [l] holds arbitrary objects: [str.join] raises
    [TypeError] at the first element that is not a [str]. *)
Fixpoint strs_of (l : list value) : result (list str) :=
  match l with
  | [] => Ok []
  | VStr s :: l' => try r := strs_of l' in Ok (s :: r)
  | _ :: _ => Raise TypeError
  end.

(** [(v[:limit] + "...") if len(v) > limit else v] on any object.
    [len] exists for [str], [list] and [dict]; adding a [str] to a list
    raises [TypeError], and so does slicing a dict (a [KeyError] from
    Python 3.12 on, modelled as [TypeError] too). *)
Definition ellipsize_str (s : str) (limit : Z) : str :=
  if py_len s >? limit then slice_to s limit ++ lit "..." else s.

Definition ellipsize (v : value) (limit : Z) : result value :=
  match v with
  | VStr s => Ok (VStr (ellipsize_str s limit))
  | VList l => if py_len l >? limit then Raise TypeError else Ok v
  | VDict d => if py_len d >? limit then Raise TypeError else Ok v
  | _ => Raise TypeError
  end.

Section Python.

(** [repr] of a [str] object. It escapes by [str.isprintable], a table of
    the Unicode database, and is taken as given. *)
Variable repr_str : str -> str.

(** [repr(v)] and [str(v)]; an f-string field [{v}] formats as [str(v)]. *)
Fixpoint py_repr (v : value) : str :=
  match v with
  | VNone => lit "None"
  | VBool true => lit "True"
  | VBool false => lit "False"
  | VInt z => str_of_Z z
  | VFloat f => float_str f
  | VStr s => repr_str s
  | VList l => lit "[" ++ join (lit ", ") (map py_repr l) ++ lit "]"
  | VDict d =>
      lit "{" ++
      join (lit ", ")
        (map (fun kv : str * value => let (k, x) := kv in
                        repr_str k ++ lit ": " ++ py_repr x) d) ++
      lit "}"
  end.

Definition py_str (v : value) : str :=
  match v with
  | VStr s => s
  | _ => py_repr v
  end.

(** ** [_extract_activity] *)

Definition _extract_activity (raw : dict) : result (option str) :=
  let etype := py_or (get raw "type") (py_or (get raw "event") (VStr [])) in
  (* Codex reasoning/thinking *)
  if eq_lit etype "reasoning" then Ok (Some (lit "thinking..."))
  else if in_lits etype ["thinking"; "thought"] then
    Ok (Some (lit "thinking..."))
  (* Tool/function calls *)
  else if in_lits etype ["tool_call"; "function_call"; "tool_use"] then
    let name := py_or (get raw "name") (py_or (get raw "tool") (VStr [])) in
    if truthy name
    then Ok (Some (lit "calling " ++ py_str name ++ lit "..."))
    else Ok (Some (lit "calling tool..."))
  (* Codex exec events *)
  else if eq_lit etype "exec.spawn" then
    let cmd := py_or (get raw "command") (py_or (get raw "cmd") (VStr [])) in
    try cmd := match cmd with
               | VList l =>
                   try parts := strs_of (slice_to l 3) in
                   Ok (VStr (join (lit " ") parts))
               | _ => Ok cmd
               end in
    if truthy cmd then
      try short := ellipsize cmd 40 in
      Ok (Some (lit "running: " ++ py_str short))
    else Ok (Some (lit "running command..."))
  else if eq_lit etype "exec.output" then Ok (Some (lit "command output..."))
  (* File operations *)
  else if in_lits etype ["file.write"; "file.create"; "write_file"] then
    let path := py_or (get raw "path") (py_or (get raw "file") (VStr [])) in
    if truthy path then
      try fname := m_rsplit_last path in
      Ok (Some (lit "writing " ++ fname ++ lit "..."))
    else Ok (Some (lit "writing file..."))
  else if in_lits etype ["file.read"; "read_file"] then
    let path := py_or (get raw "path") (py_or (get raw "file") (VStr [])) in
    if truthy path then
      try fname := m_rsplit_last path in
      Ok (Some (lit "reading " ++ fname ++ lit "..."))
    else Ok (Some (lit "reading file..."))
  else if in_lits etype ["patch.apply"; "edit"; "apply_patch"] then
    let path := py_or (get raw "path") (py_or (get raw "file") (VStr [])) in
    if truthy path then
      try fname := m_rsplit_last path in
      Ok (Some (lit "editing " ++ fname ++ lit "..."))
    else Ok (Some (lit "editing file..."))
  else
    (* Item events (codex): a branch that does not return falls through *)
    let from_item : option str :=
      match get raw "item" with
      | VDict item =>
          let item_type := py_or (get item "type") (VStr []) in
          if eq_lit item_type "reasoning" then Some (lit "thinking...")
          else if in_lits item_type ["tool_call"; "function_call"] then
            let name := py_or (get item "name") (VStr []) in
            if truthy name
            then Some (lit "calling " ++ py_str name ++ lit "...")
            else Some (lit "calling tool...")
          else if in_lits item_type
                    ["agent_message"; "assistant_message"; "message"]
          then Some (lit "responding...")
          else None
      | _ => None
      end in
    match from_item with
    | Some a => Ok (Some a)
    | None =>
      (* Turn/thread events *)
      if eq_lit etype "thread.started" then Ok (Some (lit "started..."))
      else if eq_lit etype "turn.started" then Ok (Some (lit "processing..."))
      else if eq_lit etype "turn.completed" then Ok (Some (lit "turn done"))
      else if eq_lit etype "item.started" then Ok (Some (lit "working..."))
      else if eq_lit etype "item.completed" then Ok (Some (lit "item done"))
      (* Claude specific *)
      else if eq_lit etype "content_block_start" then
        let cb := get_or raw "content_block" (VDict []) in
        try ty := m_get cb "type" in
        if eq_lit ty "tool_use" then
          try n := m_get cb "name" in
          let name := py_or n (VStr []) in
          if truthy name
          then Ok (Some (lit "calling " ++ py_str name ++ lit "..."))
          else Ok (Some (lit "calling tool..."))
        else Ok (Some (lit "generating..."))
      else if eq_lit etype "content_block_delta" then
        Ok (Some (lit "streaming..."))
      else if eq_lit etype "message_start" then Ok (Some (lit "responding..."))
      else if eq_lit etype "message_delta" then
        try stop := m_get (get_or raw "delta" (VDict [])) "stop_reason" in
        if truthy stop then Ok (Some (lit "stopped: " ++ py_str stop))
        else Ok None
      else Ok None
    end.

(** ** [ProgressPrinter._get_item_summary] *)

(** The local helper [truncate(s, limit)]. *)
Definition truncate (s : value) (limit : Z) : result value :=
  ellipsize s limit.

(** [truncate] on a [str] argument, where it cannot raise. *)
Definition truncate_str (s : str) (limit : Z) : str := ellipsize_str s limit.

(** [" ".join(str(v) for v in l)] *)
Definition join_str_of (l : list value) : str :=
  join (lit " ") (map py_str l).

(** [sub in v] on any object: substring of a [str], element of a list, key
    of a dict; the other objects are not iterable. *)
Definition py_in (sub : str) (v : value) : result bool :=
  match v with
  | VStr s => Ok (contains sub s)
  | VList l => Ok (existsb (fun x => match x with
                                     | VStr t => str_eqb t sub
                                     | _ => false
                                     end) l)
  | VDict d => Ok (match lookup sub d with Some _ => true | None => false end)
  | _ => Raise TypeError
  end.

(** [v.find(sub)] on any object: only a [str] has the method. *)
Definition m_find (v : value) (sub : str) : result Z :=
  match v with
  | VStr s => Ok (find sub s)
  | _ => Raise AttributeError
  end.

(** [v.split(sep)[0]] on any object: only a [str] has the method. *)
Definition m_split_first (v : value) (sep : char) : result str :=
  match v with
  | VStr s => Ok (split_first sep s)
  | _ => Raise AttributeError
  end.

(** The first key of [keys] that is in [d], with its value: the loop
    [for key in keys: if key in d: ... break]. *)
Fixpoint first_present (keys : list string) (d : dict) : option value :=
  match keys with
  | [] => None
  | k :: keys' =>
      match lookup (lit k) d with
      | Some v => Some v
      | None => first_present keys' d
      end
  end.

(** The first loop of [find_detail]: the first key whose value is a
    non-empty [str] or a non-empty list decides. *)
Fixpoint scan_keys (keys : list string) (d : dict) : option str :=
  match keys with
  | [] => None
  | k :: keys' =>
      match get d k with
      | VStr (c :: s) => Some (truncate_str (c :: s) 45)
      | VList (x :: l) =>
          Some (truncate_str (join_str_of (slice_to (x :: l) 3)) 45)
      | _ => scan_keys keys' d
      end
  end.

(** [find_detail(d, depth)], by recursion on the levels that remain below
    the cap, [3 - depth]: at [depth > 2] the answer is the empty string. *)
Fixpoint find_detail_levels (levels : nat) (d : dict) : str :=
  match levels with
  | O => []
  | S levels' =>
      match scan_keys
              ["command"; "cmd"; "cmdline"; "path"; "file"; "name"; "input"] d
      with
      | Some r => r
      | None =>
          (fix values (l : dict) : str :=
             match l with
             | [] => []
             | (_, VDict v) :: l' =>
                 match find_detail_levels levels' v with
                 | [] => values l'
                 | r => r
                 end
             | _ :: l' => values l'
             end) d
      end
  end.

Definition find_detail (d : dict) (depth : nat) : str :=
  find_detail_levels (3 - depth) d.

Definition _get_item_summary (item : dict) (max_len : Z) : result value :=
  let item_type := get_or item "type" (VStr []) in
  (* Tool call / function call - show name and key arguments *)
  if in_lits item_type ["tool_call"; "function_call"; "tool_use"] then
    let name := py_or (get item "name")
                  (py_or (get item "tool") (VStr (lit "tool"))) in
    let args := py_or (get item "arguments")
                  (py_or (get item "input")
                     (py_or (get item "args") (VDict []))) in
    let detail : str :=
      match args with
      | VDict a =>
          match first_present
                  ["path"; "file"; "command"; "cmd"; "query"; "url"; "pattern"]
                  a
          with
          | Some val =>
              let val := match val with
                         | VList l => VStr (join_str_of (slice_to l 3))
                         | _ => val
                         end in
              truncate_str (py_str val) 35
          | None => []
          end
      | _ => []
      end in
    if negb (str_eqb detail []) then
      Ok (VStr (truncate_str
                  (py_str name ++ lit "(" ++ detail ++ lit ")") max_len))
    else Ok name
  (* Reasoning - try to extract summary or text *)
  else if in_lits item_type ["reasoning"; "thinking"] then
    let summary := py_or (get item "summary") (VStr []) in
    if truthy summary then
      try t := truncate summary 50 in
      Ok (VStr (lit "thinking: " ++ py_str t))
    else
      let text := py_or (get item "text") (VStr []) in
      if truthy text then
        try line := m_split_first text chr_nl in
        let first := strip (split_first chr_dot line) in
        let first :=
          if startswith first (lit "**") &&
             contains (lit "**") (slice_from first 2)
          then replace (lit "**") [] first
          else first in
        Ok (VStr (lit "thinking: " ++ truncate_str first 50))
      else Ok (VStr (lit "reasoning"))
  (* Message - show brief content preview *)
  else if in_lits item_type ["agent_message"; "assistant_message"; "message"]
  then
    let text := py_or (get item "text") (VStr []) in
    let text :=
      if negb (truthy text) then
        match get item "content" with
        | VList (VDict first :: _) => get_or first "text" (VStr [])
        | VList (VStr first :: _) => VStr first
        | _ => text
        end
      else text in
    if truthy text then
      try line := m_split_first text chr_nl in
      let first_line := strip line in
      Ok (VStr (lit "message: " ++ truncate_str first_line 50))
    else Ok (VStr (lit "message"))
  (* Exec - show command *)
  else if eq_lit item_type "exec" then
    let cmd := py_or (get item "command") (py_or (get item "cmd") (VStr [])) in
    let cmd := match cmd with
               | VList l => VStr (join_str_of (slice_to l 4))
               | _ => cmd
               end in
    if truthy cmd
    then Ok (VStr (lit "exec: " ++ truncate_str (py_str cmd) 50))
    else Ok (VStr (lit "exec"))
  (* File operations *)
  else if in_lits item_type ["file_read"; "read_file"] then
    let path := py_or (get item "path") (py_or (get item "file") (VStr [])) in
    try fname := (if truthy path then m_rsplit_last path else Ok []) in
    if negb (str_eqb fname [])
    then Ok (VStr (lit "read: " ++ fname))
    else Ok (VStr (lit "read_file"))
  else if in_lits item_type ["file_write"; "write_file"; "patch"; "apply_patch"]
  then
    let path := py_or (get item "path") (py_or (get item "file") (VStr [])) in
    try fname := (if truthy path then m_rsplit_last path else Ok []) in
    if negb (str_eqb fname [])
    then Ok (VStr (lit "write: " ++ fname))
    else Ok (VStr (lit "write_file"))
  (* Shell/command execution (including codex command_execution) *)
  else if in_lits item_type
            ["shell"; "bash"; "command"; "command_execution";
             "local_shell_call"]
  then
    let cmd := py_or (get item "command")
                 (py_or (get item "cmd")
                    (py_or (get item "input") (VStr []))) in
    let cmd := match cmd with
               | VList l => VStr (join_str_of (slice_to l 3))
               | _ => cmd
               end in
    if truthy cmd then
      (* Extract the actual command from the bash -lc wrapper *)
      try has_flag := py_in (lit "-lc") cmd in
      try has_quote := (if has_flag then py_in [chr_dquote] cmd
                        else Ok false) in
      try cmd :=
        (if has_flag && has_quote then
           try start := m_find cmd (lit "-lc") in
           if start >=? 0 then
             let rest :=
               strip_chars [chr_squote]
                 (strip_chars [chr_dquote]
                    (strip (slice_from (py_str cmd) (start + 3)))) in
             Ok (VStr rest)
           else Ok cmd
         else Ok cmd) in
      Ok (VStr (lit "$ " ++ truncate_str (py_str cmd) 55))
    else Ok item_type
  else
    (* Fallback: search for command/path/file in any nested dict *)
    let detail := find_detail item 0 in
    if negb (str_eqb detail []) then
      if truthy item_type
      then Ok (VStr (py_str item_type ++ lit ": " ++ detail))
      else Ok (VStr detail)
    else Ok (py_or item_type (VStr (lit "item"))).

End Python.

(** ** The printer object, its output and its environment *)

(** The fields of a [ProgressPrinter]. [_spinner_thread] tells whether the
    ticker thread exists; [_start_time] and [_lock] are part of the
    environment below. *)
Record printer := mkPrinter {
  stream_tokens : bool;
  _label : str;
  _status : str;
  _activity : str;
  _spinner_idx : Z;
  _token_count : Z;
  _event_count : Z;
  _running : bool;
  _spinner_thread : bool;
  _is_tty : bool;
  _current_line : str;
  _has_content : bool;
  _recent_activities : list str;
  _item_line_open : bool
}.

(** Field updates. *)
Definition with_label (x : str) (p : printer) : printer :=
  mkPrinter (stream_tokens p) x (_status p) (_activity p) (_spinner_idx p)
    (_token_count p) (_event_count p) (_running p) (_spinner_thread p)
    (_is_tty p) (_current_line p) (_has_content p) (_recent_activities p)
    (_item_line_open p).
Definition with_status (x : str) (p : printer) : printer :=
  mkPrinter (stream_tokens p) (_label p) x (_activity p) (_spinner_idx p)
    (_token_count p) (_event_count p) (_running p) (_spinner_thread p)
    (_is_tty p) (_current_line p) (_has_content p) (_recent_activities p)
    (_item_line_open p).
Definition with_activity (x : str) (p : printer) : printer :=
  mkPrinter (stream_tokens p) (_label p) (_status p) x (_spinner_idx p)
    (_token_count p) (_event_count p) (_running p) (_spinner_thread p)
    (_is_tty p) (_current_line p) (_has_content p) (_recent_activities p)
    (_item_line_open p).
Definition with_spinner_idx (x : Z) (p : printer) : printer :=
  mkPrinter (stream_tokens p) (_label p) (_status p) (_activity p) x
    (_token_count p) (_event_count p) (_running p) (_spinner_thread p)
    (_is_tty p) (_current_line p) (_has_content p) (_recent_activities p)
    (_item_line_open p).
Definition with_token_count (x : Z) (p : printer) : printer :=
  mkPrinter (stream_tokens p) (_label p) (_status p) (_activity p)
    (_spinner_idx p) x (_event_count p) (_running p) (_spinner_thread p)
    (_is_tty p) (_current_line p) (_has_content p) (_recent_activities p)
    (_item_line_open p).
Definition with_event_count (x : Z) (p : printer) : printer :=
  mkPrinter (stream_tokens p) (_label p) (_status p) (_activity p)
    (_spinner_idx p) (_token_count p) x (_running p) (_spinner_thread p)
    (_is_tty p) (_current_line p) (_has_content p) (_recent_activities p)
    (_item_line_open p).
Definition with_running (x : bool) (p : printer) : printer :=
  mkPrinter (stream_tokens p) (_label p) (_status p) (_activity p)
    (_spinner_idx p) (_token_count p) (_event_count p) x (_spinner_thread p)
    (_is_tty p) (_current_line p) (_has_content p) (_recent_activities p)
    (_item_line_open p).
Definition with_spinner_thread (x : bool) (p : printer) : printer :=
  mkPrinter (stream_tokens p) (_label p) (_status p) (_activity p)
    (_spinner_idx p) (_token_count p) (_event_count p) (_running p) x
    (_is_tty p) (_current_line p) (_has_content p) (_recent_activities p)
    (_item_line_open p).
Definition with_current_line (x : str) (p : printer) : printer :=
  mkPrinter (stream_tokens p) (_label p) (_status p) (_activity p)
    (_spinner_idx p) (_token_count p) (_event_count p) (_running p)
    (_spinner_thread p) (_is_tty p) x (_has_content p) (_recent_activities p)
    (_item_line_open p).
Definition with_has_content (x : bool) (p : printer) : printer :=
  mkPrinter (stream_tokens p) (_label p) (_status p) (_activity p)
    (_spinner_idx p) (_token_count p) (_event_count p) (_running p)
    (_spinner_thread p) (_is_tty p) (_current_line p) x
    (_recent_activities p) (_item_line_open p).
Definition with_recent_activities (x : list str) (p : printer) : printer :=
  mkPrinter (stream_tokens p) (_label p) (_status p) (_activity p)
    (_spinner_idx p) (_token_count p) (_event_count p) (_running p)
    (_spinner_thread p) (_is_tty p) (_current_line p) (_has_content p) x
    (_item_line_open p).
Definition with_item_line_open (x : bool) (p : printer) : printer :=
  mkPrinter (stream_tokens p) (_label p) (_status p) (_activity p)
    (_spinner_idx p) (_token_count p) (_event_count p) (_running p)
    (_spinner_thread p) (_is_tty p) (_current_line p) (_has_content p)
    (_recent_activities p) x.

(** [ProgressPrinter(stream_tokens)]; [tty] is what [sys.stderr.isatty()]
    answers. *)
Definition __init__ (stream_tokens tty : bool) : printer :=
  mkPrinter stream_tokens [] [] [] 0 0 0 false false tty [] false [] false.

Inductive stream := Stdout | Stderr.

(** The place of the source that performs a write. *)
Inductive role :=
| Status        (* _write_status_line *)
| Clear         (* the bare clear-line sequence of _flush_line and done *)
| Content       (* the text of _flush_line *)
| ContentEnd    (* the line feed _flush_line adds *)
| Banner        (* the non-terminal line of start *)
| ItemBreak     (* the line feed that closes an item line left open *)
| ItemOpen      (* the opening of an item line *)
| ItemClose     (* the completion appended to an open item line *)
| ItemAlone     (* the standalone completed line *)
| Turn          (* a turn marker *)
| Brief         (* a line of _log_event_brief *)
| Final.        (* the summary line of done *)

(** One [write] call on a stream ([print] counts as one write of the text
    and its line feed). *)
Record entry := mkEntry { e_stream : stream; e_role : role; e_text : str }.

(** The printer together with what surrounds it: the writes made so far in
    order, the number of clock readings taken, and the ticker schedule: how
    many times the ticker thread gets the lock at each successive point
    where the event thread waits for it. *)
Record world := mkWorld {
  obj : printer;
  out : list entry;
  clock : nat;
  sched : list nat
}.

(** Computations on the world that may raise; what was done before a raise
    stays done. *)
Definition M (A : Type) : Type := world -> result A * world.

Definition ret {A} (a : A) : M A := fun w => (Ok a, w).

Definition bind {A B} (m : M A) (k : A -> M B) : M B :=
  fun w => match m w with
           | (Ok a, w') => k a w'
           | (Raise e, w') => (Raise e, w')
           end.

Notation "x <- m ;; k" := (bind m (fun x => k))
  (at level 61, m at next level, right associativity).
Notation "m ;; k" := (bind m (fun _ => k))
  (at level 61, right associativity).

(** A pure call that may raise. *)
Definition lift {A} (r : result A) : M A := fun w => (r, w).

Definition self : M printer := fun w => (Ok (obj w), w).

Definition update (f : printer -> printer) : M unit :=
  fun w => (Ok tt, mkWorld (f (obj w)) (out w) (clock w) (sched w)).

Definition write (s : stream) (r : role) (text : str) : M unit :=
  fun w => (Ok tt,
            mkWorld (obj w) (out w ++ [mkEntry s r text]) (clock w) (sched w)).

Definition when (b : bool) (m : M unit) : M unit := if b then m else ret tt.

(** Glyphs and control sequences of the source. *)
Definition SPINNER_FRAMES : list str :=
  [[10251]; [10265]; [10297]; [10296]; [10300];
   [10292]; [10278]; [10279]; [10247]; [10255]]%N.
Definition glyph_play : str := [9654%N].
Definition glyph_check : str := [10003%N].
Definition glyph_cross : str := [10007%N].
Definition glyph_clock : str := [9719%N].
Definition glyph_rule4 : str := [9472; 9472; 9472; 9472]%N.
Definition clear_line : str := [13; 27; 91; 75]%N.
Definition nl : str := [chr_nl].

Definition nonempty (s : str) : bool := negb (str_eqb s []).

(** [(line[:max_width - 3] + "...") if len(line) > max_width else line],
    the cut of [_write_status_line] with [max_width = 80]. *)
Definition clip_status (line : str) : str :=
  let max_width := 80 in
  if py_len line >? max_width
  then slice_to line (max_width - 3) ++ lit "..."
  else line.

(** The first truthy value among [d.get(key)] for [key] in [keys]. *)
Fixpoint first_truthy (keys : list string) (d : dict) : option value :=
  match keys with
  | [] => None
  | k :: keys' =>
      if truthy (get d k) then Some (get d k) else first_truthy keys' d
  end.

(** [hash(v)] succeeds: lists and dicts are unhashable. *)
Definition hashable (v : value) : bool :=
  match v with
  | VList _ | VDict _ => false
  | _ => true
  end.

(** [v.startswith(p)] on any object: only a [str] has the method. *)
Definition m_startswith (v : value) (p : str) : result bool :=
  match v with
  | VStr s => Ok (startswith s p)
  | _ => Raise AttributeError
  end.

Section Printer.

Variable repr_str : str -> str.

(** The text [_format_elapsed] returns at each successive reading of the
    clock. It renders a difference of [time.monotonic()] floats and is
    taken as given. *)
Variable elapsed_at : nat -> str.

Definition _format_elapsed : M str :=
  fun w => (Ok (elapsed_at (clock w)),
            mkWorld (obj w) (out w) (S (clock w)) (sched w)).

Definition _format_status_line : M str :=
  p <- self ;;
  let spinner :=
    nth (Z.to_nat (_spinner_idx p mod py_len SPINNER_FRAMES))
        SPINNER_FRAMES [] in
  elapsed <- _format_elapsed ;;
  let parts :=
    [spinner ++ lit " " ++ _label p] ++
    (if nonempty (_activity p) then [_activity p]
     else if nonempty (_status p) then [_status p] else []) ++
    [lit "[" ++ elapsed ++ lit "]"] ++
    (if _token_count p >? 0
     then [str_of_Z (_token_count p) ++ lit " tok"] else []) ++
    (if _event_count p >? 0
     then [str_of_Z (_event_count p) ++ lit " ev"] else []) in
  ret (join (lit " ") parts).

Definition _write_status_line : M unit :=
  p <- self ;;
  if negb (_is_tty p) then ret tt
  (* Don't overwrite when an item line is open waiting for completion *)
  else if _item_line_open p then ret tt
  else
    line <- _format_status_line ;;
    write Stderr Status (clear_line ++ clip_status line).

(** One turn of [_spinner_loop] that gets the lock. The loop runs while the
    thread exists and [_running] holds. *)
Definition tick : M unit :=
  p <- self ;;
  when (_spinner_thread p && _running p)
    (update (fun p => with_spinner_idx (_spinner_idx p + 1) p) ;;
     _write_status_line).

Fixpoint ticks (k : nat) : M unit :=
  match k with
  | O => ret tt
  | S k' => tick ;; ticks k'
  end.

(** A point where the ticker may take turns, as many as the schedule says.
    The ticker works under the lock, so its turns fall between the locked
    regions of the event thread: the model lets it in where the event
    thread waits for the lock and before the event thread changes, outside
    the lock, a counter that the status line shows. Between two such
    points the event thread changes nothing the ticker reads. *)
Definition yield : M unit :=
  fun w => match sched w with
           | [] => (Ok tt, w)
           | k :: rest => ticks k (mkWorld (obj w) (out w) (clock w) rest)
           end.

(** [with self._lock: m] *)
Definition locked {A} (m : M A) : M A := yield ;; m.

Definition _flush_line (text : str) (is_error : bool) : M unit :=
  locked
    (p <- self ;;
     if _is_tty p then
       (* Clear current status, print text line, then redraw status *)
       write Stderr Clear clear_line ;;
       write Stderr Content text ;;
       when (negb (endswith text nl)) (write Stderr ContentEnd nl) ;;
       update (with_has_content true) ;;
       p <- self ;;
       when (_running p) _write_status_line
     else
       let stream := if is_error then Stderr else Stdout in
       write stream Content text ;;
       when (negb (endswith text nl)) (write stream ContentEnd nl)).

(** The loop of [_update_streaming]; every turn removes a line feed from
    the buffer, so [fuel] above the buffer's length is never used up. *)
Fixpoint flush_complete_lines (fuel : nat) : M unit :=
  match fuel with
  | O => ret tt
  | S fuel' =>
      p <- self ;;
      match split1 chr_nl (_current_line p) with
      | None => ret tt
      | Some (line, rest) =>
          update (with_current_line rest) ;;
          when (nonempty line) (_flush_line line false) ;;
          flush_complete_lines fuel'
      end
  end.

Definition _update_streaming (text : str) : M unit :=
  update (fun p => with_current_line (_current_line p ++ text) p) ;;
  yield ;;
  update (fun p => with_token_count
                     (_token_count p + count_words false text) p) ;;
  (* Check for complete lines *)
  p <- self ;;
  flush_complete_lines (S (length (_current_line p))).

Definition start (label : str) : M unit :=
  update (fun p =>
            mkPrinter (stream_tokens p) label (lit "starting...") [] 0 0 0
                      true (_spinner_thread p) (_is_tty p) [] false []
                      false) ;;
  p <- self ;;
  if _is_tty p then
    _write_status_line ;;
    update (with_spinner_thread true)
  else write Stderr Banner (lit "[agent] " ++ label ++ nl).

Definition set_status (status : str) : M unit :=
  locked
    (update (with_status status) ;;
     p <- self ;;
     when (_is_tty p && _running p) _write_status_line).

Definition set_activity (activity : str) : M unit :=
  locked
    (update (with_activity activity) ;;
     (* Keep track of recent activities *)
     p <- self ;;
     when (nonempty activity &&
           match _recent_activities p with
           | [] => true
           | ra => negb (str_eqb (last ra []) activity)
           end)
       (update (fun p => with_recent_activities
                           (_recent_activities p ++ [activity]) p) ;;
        p <- self ;;
        when (py_len (_recent_activities p) >? 10)
          (update (fun p => with_recent_activities
                              (tl (_recent_activities p)) p))) ;;
     p <- self ;;
     when (_is_tty p && _running p) _write_status_line).

(** [self._get_item_summary(item) if isinstance(item, dict) else "item"] *)
Definition summary_of (item : value) : M value :=
  match item with
  | VDict i => lift (_get_item_summary repr_str i 60)
  | _ => ret (VStr (lit "item"))
  end.

(** Close previous item line if still open. *)
Definition close_open_line : M unit :=
  p <- self ;;
  when (_item_line_open p)
    (write Stderr ItemBreak nl ;;
     update (with_item_line_open false)).

Definition tty_prefix (p : printer) : str :=
  if _is_tty p then clear_line else [].

Definition _log_item_started (payload : dict) : M unit :=
  elapsed <- _format_elapsed ;;
  let item := get_or payload "item" (VDict []) in
  summary <- summary_of item ;;
  locked
    (close_open_line ;;
     p <- self ;;
     write Stderr ItemOpen
       (tty_prefix p ++ lit "[" ++ elapsed ++ lit "] " ++ glyph_play ++
        lit " " ++ py_str repr_str summary ++ lit " ") ;;
     update (with_item_line_open true) ;;
     update (with_has_content true)).

Definition _log_item_completed (payload : dict) : M unit :=
  elapsed <- _format_elapsed ;;
  let item := get_or payload "item" (VDict []) in
  summary <- summary_of item ;;
  locked
    (p <- self ;;
     if _item_line_open p then
       (* Append completion to current line *)
       write Stderr ItemClose
         (glyph_check ++ lit " (" ++ elapsed ++ lit ")" ++ nl) ;;
       update (with_item_line_open false)
     else
       (* No open line, print full line *)
       write Stderr ItemAlone
         (tty_prefix p ++ lit "[" ++ elapsed ++ lit "] " ++ glyph_check ++
          lit " " ++ py_str repr_str summary ++ nl)).

Definition _log_turn_event (etype : value) : M unit :=
  elapsed <- _format_elapsed ;;
  locked
    (close_open_line ;;
     let marker :=
       if eq_lit etype "turn.started"
       then glyph_rule4 ++ lit " turn started " ++ glyph_rule4
       else glyph_rule4 ++ lit " turn completed " ++ glyph_rule4 in
     p <- self ;;
     write Stderr Turn
       (tty_prefix p ++ lit "[" ++ elapsed ++ lit "] " ++ marker ++ nl) ;;
     update (with_has_content true)).

(** The loop of [_log_claude_tool_use] over [message.content]. *)
Fixpoint tool_use_items (content : list value) : M unit :=
  match content with
  | [] => ret tt
  | VDict item :: content' =>
      (if negb (eq_lit (get item "type") "tool_use") then ret tt
       else
         elapsed <- _format_elapsed ;;
         let name := get_or item "name" (VStr (lit "tool")) in
         let inp := get_or item "input" (VDict []) in
         (* Extract detail based on tool type *)
         let detail : str :=
           match inp with
           | VDict i =>
               match first_truthy
                       ["command"; "pattern"; "file_path"; "path"; "glob";
                        "description"] i
               with
               | Some val =>
                   slice_to (py_str repr_str val) 45 ++
                   (if py_len (py_str repr_str val) >? 45
                    then lit "..." else [])
               | None => []
               end
           | _ => []
           end in
         locked
           (close_open_line ;;
            let line :=
              if nonempty detail
              then lit "[" ++ elapsed ++ lit "] " ++ glyph_play ++ lit " " ++
                   py_str repr_str name ++ lit ": " ++ detail
              else lit "[" ++ elapsed ++ lit "] " ++ glyph_play ++ lit " " ++
                   py_str repr_str name in
            p <- self ;;
            write Stderr ItemOpen (tty_prefix p ++ line ++ lit " ") ;;
            update (with_item_line_open true) ;;
            update (with_has_content true))) ;;
      tool_use_items content'
  | _ :: content' => tool_use_items content'
  end.

Definition _log_claude_tool_use (payload : dict) : M unit :=
  let message := get_or payload "message" (VDict []) in
  content <- lift (m_get_or message "content" (VList [])) ;;
  match content with
  | VList l => tool_use_items l
  | _ => ret tt
  end.

Definition is_tool_result (item : value) : bool :=
  match item with
  | VDict d => eq_lit (get d "type") "tool_result"
  | _ => false
  end.

Definition is_error_item (item : value) : bool :=
  match item with
  | VDict d => truthy (get d "is_error")
  | _ => false
  end.

Definition _log_claude_tool_result (payload : dict) : M unit :=
  let message := get_or payload "message" (VDict []) in
  content <- lift (m_get_or message "content" (VList [])) ;;
  match content with
  | VList l =>
      let has_result := existsb is_tool_result l in
      if negb has_result then ret tt
      else
        elapsed <- _format_elapsed ;;
        (* Check if error *)
        let is_error := existsb is_error_item l in
        locked
          (p <- self ;;
           when (_item_line_open p)
             (let mark := if is_error then glyph_cross else glyph_check in
              write Stderr ItemClose
                (mark ++ lit " (" ++ elapsed ++ lit ")" ++ nl) ;;
              update (with_item_line_open false)))
  | _ => ret tt
  end.

Definition _log_event_brief (etype payload : value) (activity : option str)
  : M unit :=
  (* Skip noisy/unimportant events: membership in a set hashes [etype] *)
  if negb (hashable etype) then lift (Raise TypeError)
  else if in_lits etype ["message"; "content_block_delta"; "message_delta"]
  then ret tt
  (* item/turn events and claude events are handled separately *)
  else if in_lits etype
            ["item.started"; "item.completed"; "turn.started";
             "turn.completed"; "assistant"; "user"]
  then ret tt
  else
    elapsed <- _format_elapsed ;;
    (* Use activity if available, otherwise format based on event type *)
    match activity with
    | Some (c :: a) =>
        write Stderr Brief
          (lit "[" ++ elapsed ++ lit "] " ++ (c :: a) ++ nl)
    | _ =>
      if in_lits etype ["exec.spawn"; "tool_call"; "function_call"] then
        n1 <- lift (m_get payload "name") ;;
        n2 <- (if truthy n1 then ret n1 else lift (m_get payload "command")) ;;
        n3 <- (if truthy n2 then ret n2 else lift (m_get payload "tool")) ;;
        let name := py_or n3 (VStr []) in
        name <- lift (match name with
                      | VList l =>
                          try parts := strs_of (slice_to l 2) in
                          Ok (VStr (join (lit " ") parts))
                      | _ => Ok name
                      end) ;;
        short <- lift (if py_len (py_str repr_str name) >? 30
                       then match name with
                            | VStr s => Ok (VStr (slice_to s 30 ++ lit "..."))
                            | _ => Raise TypeError
                            end
                       else Ok name) ;;
        write Stderr Brief
          (lit "[" ++ elapsed ++ lit "] " ++ py_str repr_str etype ++
           lit ": " ++ py_str repr_str short ++ nl)
      else
        is_file <- lift (m_startswith etype (lit "file.")) ;;
        if is_file || in_lits etype ["read_file"; "write_file"; "apply_patch"]
        then
          p1 <- lift (m_get payload "path") ;;
          p2 <- (if truthy p1 then ret p1 else lift (m_get payload "file")) ;;
          let path := py_or p2 (VStr []) in
          fname <- lift (if truthy path then m_rsplit_last path else Ok []) ;;
          write Stderr Brief
            (lit "[" ++ elapsed ++ lit "] " ++ py_str repr_str etype ++
             lit ": " ++ fname ++ nl)
        else ret tt
    end.

Definition is_dict (v : value) : bool :=
  match v with
  | VDict _ => true
  | _ => false
  end.

Definition on_event (event : dict) : M unit :=
  yield ;;
  update (fun p => with_event_count (_event_count p + 1) p) ;;
  let etype := get event "type" in
  let payload := get_or event "payload" (VDict []) in
  (* Extract detailed activity from payload *)
  activity <- match payload with
              | VDict pl =>
                  activity <- lift (_extract_activity repr_str pl) ;;
                  match activity with
                  | Some (c :: a) => set_activity (c :: a)
                  | _ => ret tt
                  end ;;
                  ret activity
              | _ => ret None
              end ;;
  (* Log item/turn events as persistent lines (both TTY and non-TTY) *)
  p <- self ;;
  match payload with
  | VDict pl =>
      if eq_lit etype "item.started" then _log_item_started pl
      else if eq_lit etype "item.completed" then _log_item_completed pl
      else if in_lits etype ["turn.started"; "turn.completed"]
      then _log_turn_event etype
      else if eq_lit etype "assistant" then _log_claude_tool_use pl
      else if eq_lit etype "user" then _log_claude_tool_result pl
      else if negb (_is_tty p) && truthy etype
      then _log_event_brief etype payload activity
      else ret tt
  | _ =>
      if in_lits etype ["turn.started"; "turn.completed"]
      then _log_turn_event etype
      else if negb (_is_tty p) && truthy etype
      then _log_event_brief etype payload activity
      else ret tt
  end ;;
  (if eq_lit etype "error" then
     m1 <- lift (m_get payload "message") ;;
     m2 <- (if truthy m1 then ret m1 else lift (m_get payload "error")) ;;
     let msg := if truthy m2 then m2 else VStr (py_str repr_str payload) in
     _flush_line (lit "[error] " ++ py_str repr_str msg) true ;;
     set_status (lit "error") ;;
     set_activity []
   else
     p <- self ;;
     match payload with
     | VDict pl =>
         when (stream_tokens p)
           match get pl "text" with
           | VStr (c :: text) =>
               _update_streaming (c :: text) ;;
               p <- self ;;
               (* don't override detailed activity *)
               when (negb (nonempty (_activity p)))
                 (set_status (lit "streaming..."))
           | _ => ret tt
           end
     | _ => ret tt
     end) ;;
  (* Update status based on event type (fallback if no activity) *)
  p <- self ;;
  when (negb (nonempty (_activity p)))
    (if in_lits etype ["thread.started"; "turn.started"]
     then set_status (lit "processing...")
     else if eq_lit etype "turn.completed"
     then set_status (lit "turn completed")
     else if eq_lit etype "item.completed"
     then set_status (lit "item completed")
     else ret tt).

(** [done(status, elapsed_ms)]; [elapsed_s] is the text of
    [elapsed_ms / 1000] rendered with one decimal, a float rendering taken
    as given. *)
Definition done (status elapsed_s : str) : M unit :=
  update (with_running false) ;;
  update (with_spinner_thread false) ;;
  (* Close any open item line *)
  locked close_open_line ;;
  (* Flush any remaining content *)
  p <- self ;;
  when (nonempty (_current_line p))
    (_flush_line (_current_line p) false ;;
     update (with_current_line [])) ;;
  (* Clear status line *)
  p <- self ;;
  when (_is_tty p) (write Stderr Clear clear_line) ;;
  (* Print final status *)
  let icon :=
    if str_eqb status (lit "success") then glyph_check
    else if str_eqb status (lit "error") then glyph_cross
    else glyph_clock in
  let final_msg :=
    icon ++ lit " " ++ _label p ++ lit " " ++ status ++ lit " (" ++
    elapsed_s ++ lit "s)" in
  if _has_content p || negb (_is_tty p)
  then write Stderr Final (final_msg ++ nl)
  else write Stderr Final (nl ++ final_msg ++ nl).

End Printer.

(** ** Inputs and predicates the properties speak of *)

(** [repr] of a [str] made of printable characters with no quote and no
    backslash: the text between single quotes. *)
Definition repr_plain (s : str) : str := [chr_squote] ++ s ++ [chr_squote].

(** A clock that always reads the same text. *)
Definition clock_fixed (n : nat) : str := lit "0.0s".

(** The item type names of the shell branch of the summarizer. *)
Definition shell_types : list string :=
  ["shell"; "bash"; "command"; "command_execution"; "local_shell_call"].

Definition shell_item (ty : string) (cmd : value) : dict :=
  [(lit "type", VStr (lit ty)); (lit "command", cmd)].

(** The list [bash, -lc, echo hi] and the text [bash -lc] followed by
    [echo hi] between double quotes. *)
Definition cmd_as_list : value :=
  VList [VStr (lit "bash"); VStr (lit "-lc"); VStr (lit "echo hi")].

Definition cmd_as_text : value :=
  VStr (lit "bash -lc " ++ [chr_dquote] ++ lit "echo hi" ++ [chr_dquote]).

(** The event type the extractor dispatches on. *)
Definition etype_of (raw : dict) : value :=
  py_or (get raw "type") (py_or (get raw "event") (VStr [])).

(** Every type literal the extractor compares the event type with, and
    every literal it compares a nested item's type with. *)
Definition etype_markers : list string :=
  ["reasoning"; "thinking"; "thought"; "tool_call"; "function_call";
   "tool_use"; "exec.spawn"; "exec.output"; "file.write"; "file.create";
   "write_file"; "file.read"; "read_file"; "patch.apply"; "edit";
   "apply_patch"; "thread.started"; "turn.started"; "turn.completed";
   "item.started"; "item.completed"; "content_block_start";
   "content_block_delta"; "message_start"; "message_delta"].

Definition item_markers : list string :=
  ["reasoning"; "tool_call"; "function_call"; "agent_message";
   "assistant_message"; "message"].

Definition recognized (raw : dict) : bool :=
  in_lits (etype_of raw) etype_markers ||
  match get raw "item" with
  | VDict item => in_lits (py_or (get item "type") (VStr [])) item_markers
  | _ => false
  end.

(** A field read as text: a [str], or a falsy object, which the source
    replaces by a default. *)
Definition str_or_falsy (v : value) : bool :=
  match v with
  | VStr _ => true
  | _ => negb (truthy v)
  end.

Definition is_str (v : value) : bool :=
  match v with
  | VStr _ => true
  | _ => false
  end.

(** A command field as the extractor reads it: a [str], a list whose first
    three elements are [str], or a falsy object. *)
Definition strs_or_falsy (v : value) : bool :=
  match v with
  | VStr _ => true
  | VList l => forallb is_str (slice_to l 3)
  | _ => negb (truthy v)
  end.

(** The fields the extractor reads have the types it reads them as. *)
Definition payload_typed (raw : dict) : bool :=
  str_or_falsy (get raw "path") && str_or_falsy (get raw "file") &&
  strs_or_falsy (get raw "command") && strs_or_falsy (get raw "cmd") &&
  is_dict (get_or raw "content_block" (VDict [])) &&
  is_dict (get_or raw "delta" (VDict [])).

(** A command field as the summarizer reads it: a [str], a list of any
    objects, or a falsy object. *)
Definition cmd_like (v : value) : bool :=
  match v with
  | VStr _ | VList _ => true
  | _ => negb (truthy v)
  end.

(** The fields the summarizer reads have the types it reads them as;
    [input] is a command only for the shell types. *)
Definition item_typed (item : dict) : bool :=
  str_or_falsy (get_or item "type" (VStr [])) &&
  str_or_falsy (get item "name") && str_or_falsy (get item "tool") &&
  str_or_falsy (get item "summary") && str_or_falsy (get item "text") &&
  str_or_falsy (get item "path") && str_or_falsy (get item "file") &&
  cmd_like (get item "command") && cmd_like (get item "cmd") &&
  (negb (in_lits (get_or item "type" (VStr [])) shell_types) ||
   cmd_like (get item "input")) &&
  match get item "content" with
  | VList (VDict first :: _) => str_or_falsy (get_or first "text" (VStr []))
  | _ => true
  end.

(** The permanent output: every write but the redraws of the status
    line, which the terminal overwrites. *)
Definition is_status (e : entry) : bool :=
  match e_role e with
  | Status => true
  | _ => false
  end.

Definition permanent (o : list entry) : list entry :=
  filter (fun e => negb (is_status e)) o.

(** Replaying the output. The state is [Some b] while the item-line
    discipline holds, [b] telling whether an item line is open, and [None]
    once it is broken: by a status draw, an item opening, a standalone
    completed line, a turn marker or the final summary written while an
    item line is open, or by a completion or forced line feed written while
    none is. *)
Definition observe (st : option bool) (e : entry) : option bool :=
  match st with
  | None => None
  | Some open =>
      match e_role e with
      | Status => if open then None else Some false
      | ItemOpen => if open then None else Some true
      | ItemClose | ItemBreak => if open then Some false else None
      | ItemAlone | Turn | Final => if open then None else Some false
      | Clear | Content | ContentEnd | Banner | Brief => Some open
      end
  end.

Definition scan (o : list entry) : option bool :=
  fold_left observe o (Some false).

(** No two neighbours of the list are equal. *)
Fixpoint no_repeat (l : list str) : Prop :=
  match l with
  | a :: (b :: _) as l' => a <> b /\ no_repeat l'
  | _ => True
  end.

Definition recent_ok (l : list str) : Prop :=
  py_len l <= 10 /\ no_repeat l.

(** The world of a printer just constructed, with the ticker schedule of
    the run to come. *)
Definition fresh (stream_tokens tty : bool) (schedule : list nat) : world :=
  mkWorld (__init__ stream_tokens tty) [] 0 schedule.

(** The runs of the printer: [start], then events, status and activity
    updates and ticks in any order, then [done]; a printer that is done may
    be started again. *)
Inductive phase := Idle | Running.

Section Runs.

Variable repr_str : str -> str.
Variable elapsed_at : nat -> str.

Inductive reach : phase -> world -> Prop :=
| reach_fresh st tty schedule :
    reach Idle (fresh st tty schedule)
| reach_start w label :
    reach Idle w ->
    reach Running (snd (start elapsed_at label w))
| reach_event w event :
    reach Running w ->
    reach Running (snd (on_event repr_str elapsed_at event w))
| reach_set_status ph w status :
    reach ph w ->
    reach ph (snd (set_status elapsed_at status w))
| reach_set_activity ph w activity :
    reach ph w ->
    reach ph (snd (set_activity elapsed_at activity w))
| reach_tick ph w :
    reach ph w ->
    reach ph (snd (tick elapsed_at w))
| reach_done w status elapsed_s :
    reach Running w ->
    reach Idle (snd (done elapsed_at status elapsed_s w)).

End Runs.

(** The invariant of the runs: the output obeys the item-line discipline
    and the flag [_item_line_open] tells what the output tells, and the
    history of activities is short and free of repeats. *)
Definition Inv (w : world) : Prop :=
  scan (out w) = Some (_item_line_open (obj w)) /\
  recent_ok (_recent_activities (obj w)).

(** The invariant between runs and in the last steps of [done] adds that
    no item line is open. *)
Definition InvF (closed : bool) (w : world) : Prop :=
  Inv w /\ (closed = true -> _item_line_open (obj w) = false).

(** A computation keeps the invariant, whether it returns or raises. *)
Definition keeps {A} (closed : bool) (m : M A) : Prop :=
  forall w, InvF closed w -> InvF closed (snd (m w)).

(** The world after a turn of the ticker or a redraw: the same but for
    the spinner index, the clock, the schedule and status-line draws. *)
Definition redrawn (w w' : world) : Prop :=
  (exists i, obj w' = with_spinner_idx i (obj w)) /\
  permanent (out w') = permanent (out w).

(** What [set_activity] makes of the history. *)
Definition track (activity : str) (ra : list str) : list str :=
  if nonempty activity &&
     match ra with
     | [] => true
     | _ => negb (str_eqb (last ra []) activity)
     end
  then if py_len (ra ++ [activity]) >? 10
       then tl (ra ++ [activity])
       else ra ++ [activity]
  else ra.

(** Between runs no item line is open. *)
Definition closed_in (ph : phase) : bool :=
  match ph with
  | Idle => true
  | Running => false
  end.

(** The summary an item event shows:
    [self._get_item_summary(item) if isinstance(item, dict) else "item"]
    for [item = payload.get("item", {})]. *)
Definition item_summary (repr_str : str -> str) (payload : dict)
  : result value :=
  match get_or payload "item" (VDict []) with
  | VDict i => _get_item_summary repr_str i 60
  | _ => Ok (VStr (lit "item"))
  end.

(** [payload.get("message", {}).get("content", [])] *)
Definition message_content (payload : dict) : result value :=
  m_get_or (get_or payload "message" (VDict [])) "content" (VList []).

(** The writes of one [_flush_line(text, is_error)]. *)
Definition flushed (tty is_error : bool) (text : str) : list entry :=
  if tty then
    [mkEntry Stderr Clear clear_line; mkEntry Stderr Content text] ++
    (if endswith text nl then [] else [mkEntry Stderr ContentEnd nl])
  else
    let stream := if is_error then Stderr else Stdout in
    [mkEntry stream Content text] ++
    (if endswith text nl then [] else [mkEntry stream ContentEnd nl]).

(** The content lines of the output: the texts [_flush_line] was given,
    with the stream each went to. *)
Definition is_content (e : entry) : bool :=
  match e_role e with
  | Content => true
  | _ => false
  end.

Definition content_entries (o : list entry) : list entry :=
  filter is_content o.

(** Sample events: an item of type tool_call that reads a file, its start
    and its completion, an error, and a tool result. *)
Definition ex_item : value :=
  VDict [(lit "type", VStr (lit "tool_call"));
         (lit "name", VStr (lit "read_file"));
         (lit "arguments", VDict [(lit "path", VStr (lit "/a/b/main.go"))])].

Definition ex_started_payload : dict := [(lit "item", ex_item)].


Definition ex_started : dict :=
  [(lit "type", VStr (lit "item.started"));
   (lit "payload", VDict ex_started_payload)].

Definition ex_error_payload : dict :=
  [(lit "message", VStr (lit "disk full"))].

Definition ex_error : dict :=
  [(lit "type", VStr (lit "error")); (lit "payload", VDict ex_error_payload)].

Definition ex_tool_result_payload : dict :=
  [(lit "message",
    VDict [(lit "content",
            VList [VDict [(lit "type", VStr (lit "tool_result"))]])])].

(** The roles that neither open nor close an item line and may be written
    at any time. *)
Definition neutral (r : role) : bool :=
  match r with
  | Clear | Content | ContentEnd | Banner | Brief => true
  | _ => false
  end.

(** ** Further inputs and predicates *)

(** The event types of the file branches of the extractor, and the verb
    each is reported with. *)
Definition file_types : list string :=
  ["file.write"; "file.create"; "write_file"; "file.read"; "read_file";
   "patch.apply"; "edit"; "apply_patch"].

Definition file_verb (ty : string) : str :=
  if existsb (String.eqb ty) ["file.write"; "file.create"; "write_file"]
  then lit "writing "
  else if existsb (String.eqb ty) ["file.read"; "read_file"]
  then lit "reading "
  else lit "editing ".

(** The item types the summarizer shows a clipped text for. *)
Definition text_types : list string :=
  ["reasoning"; "thinking"; "agent_message"; "assistant_message"; "message";
   "exec"; "shell"; "bash"; "command"; "command_execution";
   "local_shell_call"].

(** Every item type the summarizer has a branch for. *)
Definition summary_types : list string :=
  ["tool_call"; "function_call"; "tool_use"; "reasoning"; "thinking";
   "agent_message"; "assistant_message"; "message"; "exec"; "file_read";
   "read_file"; "file_write"; "write_file"; "patch"; "apply_patch"; "shell";
   "bash"; "command"; "command_execution"; "local_shell_call"].

(** A computation preserves a property of the world, whether it returns or
    raises. *)
Definition holds {A} (P : world -> Prop) (m : M A) : Prop :=
  forall w, P w -> P (snd (m w)).

(** A property of the world that does not read the clock or the ticker
    schedule. *)
Definition env_free (P : world -> Prop) : Prop :=
  forall w c s, P w -> P (mkWorld (obj w) (out w) c s).

Definition is_stderr (s : stream) : bool :=
  match s with
  | Stderr => true
  | Stdout => false
  end.

(** Where a write may go and what it may carry, on a terminal ([tty]) and
    off one: the status line and the clear sequence are for terminals only,
    a status draw is four control characters and at most 80 columns, the
    banner and the brief lines are for non-terminals only, only content
    lines may go to standard output and only off a terminal, and a
    persistent line starts with the clear sequence exactly on a terminal. *)
Definition entry_ok (tty : bool) (e : entry) : bool :=
  match e_role e with
  | Status => tty && is_stderr (e_stream e) && (py_len (e_text e) <=? 84)
  | Clear => tty && is_stderr (e_stream e)
  | Content | ContentEnd => negb tty || is_stderr (e_stream e)
  | Banner | Brief => negb tty && is_stderr (e_stream e)
  | ItemOpen | ItemAlone | Turn =>
      is_stderr (e_stream e) && Bool.eqb (startswith (e_text e) clear_line) tty
  | ItemBreak | ItemClose | Final => is_stderr (e_stream e)
  end.

Definition routed (tty : bool) (w : world) : Prop :=
  _is_tty (obj w) = tty /\ forallb (entry_ok tty) (out w) = true.

(** A sample event that carries a line of text. *)
Definition ex_text : dict :=
  [(lit "type", VStr (lit "message"));
   (lit "payload", VDict [(lit "text", VStr (lit "hi" ++ nl))])].

(** The fields that tell which run the printer is in: the mode, the label,
    the kind of device and the two flags of the ticker. *)
Definition run_fields (p : printer) : bool * str * bool * bool * bool :=
  (stream_tokens p, _label p, _is_tty p, _running p, _spinner_thread p).

Definition run_flag (ph : phase) : bool :=
  match ph with
  | Running => true
  | Idle => false
  end.

(** The current activity, when there is one, is the newest entry of the
    history. *)
Definition activity_linked (w : world) : Prop :=
  _activity (obj w) = [] \/
  last (_recent_activities (obj w)) [] = _activity (obj w).





(** A tool use in the content of a message. *)
Definition is_tool_use (item : value) : bool :=
  match item with
  | VDict d => eq_lit (get d "type") "tool_use"
  | _ => false
  end.

Definition is_list (v : value) : bool :=
  match v with
  | VList _ => true
  | _ => false
  end.

(** The number of writes of a role in an output. *)
Definition role_count (f : role -> bool) (o : list entry) : nat :=
  length (filter (fun e => f (e_role e)) o).

Definition is_open_role (r : role) : bool :=
  match r with
  | ItemOpen => true
  | _ => false
  end.

Definition is_break_role (r : role) : bool :=
  match r with
  | ItemBreak => true
  | _ => false
  end.

(** The event types [_log_event_brief] passes over in silence. *)
Definition brief_skipped : list string :=
  ["message"; "content_block_delta"; "message_delta"; "item.started";
   "item.completed"; "turn.started"; "turn.completed"; "assistant"; "user"].


(** A sample assistant message with two tool uses around a text block. *)
Definition ex_tool_use_payload : dict :=
  [(lit "message",
    VDict [(lit "content",
            VList [VDict [(lit "type", VStr (lit "tool_use"));
                          (lit "name", VStr (lit "Bash"));
                          (lit "input",
                           VDict [(lit "command", VStr (lit "ls -l"))])];
                   VDict [(lit "type", VStr (lit "text"));
                          (lit "text", VStr (lit "ok"))];
                   VDict [(lit "type", VStr (lit "tool_use"));
                          (lit "name", VStr (lit "Read"))]])])].



(** The event types [on_event] does something for besides counting. *)
Definition handled_types : list string :=
  ["item.started"; "item.completed"; "turn.started"; "turn.completed";
   "assistant"; "user"; "error"; "thread.started"].

(** A non-empty [str]: the text streaming accumulates. *)
Definition is_text (v : value) : bool :=
  match v with
  | VStr (_ :: _) => true
  | _ => false
  end.


(** * Properties *)

Lemma str_eqb_eq (a b : str) : str_eqb a b = true <-> a = b.
Proof.
  unfold str_eqb. destruct (list_eq_dec N.eq_dec a b); split; congruence.
Qed.

Lemma str_eqb_refl (a : str) : str_eqb a a = true.
Proof. now apply str_eqb_eq. Qed.

(** ** Truncation *)

Lemma ellipsize_str_long (s : str) (n : Z) :
  py_len s > n -> ellipsize_str s n = slice_to s n ++ lit "...".
Proof.
  intros H. unfold ellipsize_str.
  destruct (py_len s >? n) eqn:E; [reflexivity|].
  rewrite Z.gtb_ltb, Z.ltb_ge in E. lia.
Qed.

Lemma ellipsize_str_short (s : str) (n : Z) :
  py_len s <= n -> ellipsize_str s n = s.
Proof.
  intros H. unfold ellipsize_str.
  destruct (py_len s >? n) eqn:E; [|reflexivity].
  rewrite Z.gtb_ltb, Z.ltb_lt in E. lia.
Qed.

Lemma slice_to_length {A} (s : list A) (n : Z) :
  0 <= n -> n <= py_len s -> py_len (slice_to s n) = n.
Proof.
  intros H0 H. unfold slice_to, py_len in *.
  rewrite (proj2 (Z.leb_le 0 n) H0), firstn_length_le; lia.
Qed.

Lemma slice_to_app {A} (a b : list A) (n : Z) :
  0 <= n -> py_len a = n -> slice_to (a ++ b) n = a.
Proof.
  intros H0 H. unfold slice_to, py_len in *.
  rewrite (proj2 (Z.leb_le 0 n) H0), firstn_app.
  rewrite firstn_all2 by lia.
  replace (Z.to_nat n - length a)%nat with 0%nat by lia.
  apply app_nil_r.
Qed.

Lemma py_len_app {A} (a b : list A) : py_len (a ++ b) = py_len a + py_len b.
Proof. unfold py_len. rewrite length_app. lia. Qed.

(** The cut result is as long as the limit and the marker together, and a
    second cut at the same limit gives it back. *)
Lemma ellipsize_str_spec (s : str) (n : Z) :
  0 <= n -> py_len s > n ->
  py_len (ellipsize_str s n) = n + py_len (lit "...") /\
  ellipsize_str (ellipsize_str s n) n = ellipsize_str s n.
Proof.
  intros H0 H.
  assert (L : py_len (slice_to s n) = n) by (apply slice_to_length; lia).
  rewrite (ellipsize_str_long s n H), py_len_app, L. split; [reflexivity|].
  rewrite ellipsize_str_long.
  - now rewrite slice_to_app.
  - rewrite py_len_app, L. unfold py_len. simpl. lia.
Qed.

Lemma clip_status_spec (line : str) :
  py_len line > 80 ->
  py_len (clip_status line) = 80 /\
  clip_status (clip_status line) = clip_status line.
Proof.
  intros H. unfold clip_status. cbv zeta.
  assert (E : (py_len line >? 80) = true)
    by (rewrite Z.gtb_ltb, Z.ltb_lt; lia).
  rewrite E.
  assert (L : py_len (slice_to line (80 - 3)) = 77)
    by (apply slice_to_length; lia).
  assert (L' : py_len (slice_to line (80 - 3) ++ lit "...") = 80)
    by (rewrite py_len_app, L; reflexivity).
  split; [exact L'|].
  rewrite L'. reflexivity.
Qed.

(** C2 (as amended). For every string [s] and every limit [n] that is not
    negative, if [len(s) > n] then [truncate(s, n)] returns a string of
    length [n] plus the length of the marker, and truncating that result
    again at [n] returns it unchanged. The cut of the status line at 80
    columns keeps 77 characters before the marker: a longer line becomes
    exactly 80 characters long and a second cut leaves it unchanged. *)
Theorem truncate_length_and_idempotence (s : str) (n : Z) :
  0 <= n -> py_len s > n ->
  (exists r,
      truncate (VStr s) n = Ok (VStr r) /\
      py_len r = n + py_len (lit "...") /\
      truncate (VStr r) n = Ok (VStr r)) /\
  (py_len s > 80 ->
   py_len (clip_status s) = 80 /\
   clip_status (clip_status s) = clip_status s).
Proof.
  intros H0 H. split.
  - exists (ellipsize_str s n). unfold truncate, ellipsize.
    destruct (ellipsize_str_spec s n H0 H) as [L I].
    now rewrite I.
  - apply clip_status_spec.
Qed.

Lemma truncate_length_and_idempotence_witness :
  let s := repeat 97%N 81 in
  (exists r,
      truncate (VStr s) 80 = Ok (VStr r) /\
      py_len r = 80 + py_len (lit "...") /\
      truncate (VStr r) 80 = Ok (VStr r)) /\
  py_len (clip_status s) = 80 /\
  clip_status (clip_status s) = clip_status s.
Proof.
  intro s.
  assert (H0 : 0 <= 80) by lia.
  assert (H1 : py_len s > 80) by reflexivity.
  split.
  - apply (truncate_length_and_idempotence s 80 H0 H1).
  - apply (truncate_length_and_idempotence s 80 H0 H1). exact H1.
Defined.

(** C2 (as stated) fails in two places. At a negative limit, [truncate]
    of a six-letter string at -2 drops the last two letters: the result is
    seven characters long, not -2 + 3, and a second cut changes it. And the
    cut of the status line at 80 columns turns a line of 81 characters
    into one of 80, not of 80 plus the length of the marker. *)
Lemma truncate_counterexample :
  ~ (forall (s : str) (n : Z),
        py_len s > n ->
        exists r,
          truncate (VStr s) n = Ok (VStr r) /\
          py_len r = n + py_len (lit "...") /\
          truncate (VStr r) n = Ok (VStr r)) /\
  ~ (forall line : str,
        py_len line > 80 ->
        py_len (clip_status line) = 80 + py_len (lit "...")).
Proof.
  split.
  - intros H.
    destruct (H (lit "abcdef") (-2)) as [r [H1 [H2 _]]]; [reflexivity|].
    vm_compute in H1. injection H1 as <-. vm_compute in H2. discriminate.
  - intros H. specialize (H (repeat 97%N 81) eq_refl).
    vm_compute in H. discriminate.
Qed.

(** ** Literal tests, truth values and defaults *)

Lemma in_lits_false_eq (v : value) (l : list string) (s : string) :
  in_lits v l = false -> existsb (String.eqb s) l = true ->
  eq_lit v s = false.
Proof.
  unfold in_lits. intros H E.
  apply existsb_exists in E. destruct E as [t [Ht E]].
  apply String.eqb_eq in E. subst t.
  destruct (eq_lit v s) eqn:Q; [|reflexivity].
  rewrite <- H. symmetry. apply existsb_exists. now exists s.
Qed.

Lemma in_lits_false_sub (v : value) (l l' : list string) :
  in_lits v l = false ->
  forallb (fun s => existsb (String.eqb s) l) l' = true ->
  in_lits v l' = false.
Proof.
  intros H E. unfold in_lits.
  destruct (existsb (eq_lit v) l') eqn:Q; [|reflexivity].
  apply existsb_exists in Q. destruct Q as [s [Hs Q]].
  rewrite forallb_forall in E.
  now rewrite (in_lits_false_eq v l s H (E s Hs)) in Q.
Qed.

Lemma in_lits_is_str (v : value) (l : list string) :
  in_lits v l = true -> exists s, v = VStr s.
Proof.
  unfold in_lits. intros H. apply existsb_exists in H.
  destruct H as [t [_ H]].
  destruct v as [| | | |s| |]; try discriminate. now exists s.
Qed.

Lemma eq_lit_is_str (v : value) (t : string) :
  eq_lit v t = true -> exists s, v = VStr s.
Proof. destruct v as [| | | |s| |]; try discriminate. now exists s. Qed.

Lemma str_or_falsy_or (a b : value) :
  str_or_falsy a = true -> str_or_falsy b = true ->
  str_or_falsy (py_or a b) = true.
Proof. unfold py_or. now destruct (truthy a). Qed.

Lemma str_or_falsy_truthy (v : value) :
  str_or_falsy v = true -> truthy v = true -> exists s, v = VStr s.
Proof.
  destruct v as [|b|z|f|s|l|d]; simpl; intros H T;
    try discriminate; try (rewrite T in H; discriminate).
  now exists s.
Qed.

Lemma py_or_truthy (a b : value) :
  truthy b = true -> truthy (py_or a b) = true.
Proof. unfold py_or. now destruct (truthy a) eqn:E. Qed.

Lemma strs_of_ok (l : list value) :
  forallb is_str l = true -> exists r, strs_of l = Ok r.
Proof.
  induction l as [|v l IH]; simpl; intros H.
  - now exists [].
  - apply andb_prop in H. destruct H as [Hv Hl].
    destruct v; try discriminate.
    destruct (IH Hl) as [r ->]. simpl. now eexists.
Qed.

Lemma strs_or_falsy_or (a b : value) :
  strs_or_falsy a = true -> strs_or_falsy b = true ->
  strs_or_falsy (py_or a b) = true.
Proof. unfold py_or. now destruct (truthy a). Qed.

Lemma cmd_like_or (a b : value) :
  cmd_like a = true -> cmd_like b = true -> cmd_like (py_or a b) = true.
Proof. unfold py_or. now destruct (truthy a). Qed.

(** ** The activity extractor *)

(** Side conditions on literals are closed by evaluation. *)
Ltac lits_off H :=
  repeat match goal with
         | |- context [eq_lit ?v ?s] =>
             rewrite (in_lits_false_eq v _ s H) by reflexivity
         | |- context [in_lits ?v ?l] =>
             rewrite (in_lits_false_sub v _ l H) by reflexivity
         end.

Lemma extract_unrecognized (repr_str : str -> str) (raw : dict) :
  recognized raw = false -> _extract_activity repr_str raw = Ok None.
Proof.
  unfold recognized. intros H. apply orb_false_elim in H.
  destruct H as [He Hi]. unfold _extract_activity.
  change (py_or (get raw "type") (py_or (get raw "event") (VStr [])))
    with (etype_of raw).
  cbv zeta. lits_off He.
  destruct (get raw "item") as [| | | | |l|item]; try reflexivity.
  lits_off Hi. reflexivity.
Qed.

(** A file branch of the extractor returns when its path is text. *)
Lemma path_branch_ok (path : value) (f : str -> str) (g : str) :
  str_or_falsy path = true ->
  exists r,
    (if truthy path
     then try fname := m_rsplit_last path in Ok (Some (f fname))
     else Ok (Some g)) = Ok r.
Proof.
  intros H. destruct (truthy path) eqn:T; [|now eexists].
  destruct (str_or_falsy_truthy path H T) as [s ->]. simpl. now eexists.
Qed.

(** The exec.spawn branch returns when its command is text or a list of
    texts. *)
Lemma spawn_branch_ok (cmd : value) (f : value -> str) (g : str) :
  strs_or_falsy cmd = true ->
  exists r,
    (try cmd := match cmd with
                | VList l =>
                    try parts := strs_of (slice_to l 3) in
                    Ok (VStr (join (lit " ") parts))
                | _ => Ok cmd
                end in
     if truthy cmd
     then try short := ellipsize cmd 40 in Ok (Some (f short))
     else Ok (Some g)) = Ok r.
Proof.
  intros H. destruct cmd as [|b|z|fl|s|l|d]; simpl in H.
  - now eexists.
  - destruct b; [discriminate|now eexists].
  - simpl. destruct (z =? 0); [now eexists|discriminate].
  - simpl. destruct (float_truthy fl); [discriminate|now eexists].
  - cbn [rbind ellipsize]. destruct (truthy (VStr s)); now eexists.
  - destruct (strs_of_ok _ H) as [r ->]. cbn [rbind ellipsize].
    destruct (truthy _); now eexists.
  - destruct d; [now eexists|discriminate].
Qed.

Lemma extract_typed (repr_str : str -> str) (raw : dict) :
  payload_typed raw = true -> exists r, _extract_activity repr_str raw = Ok r.
Proof.
  unfold payload_typed. intros H.
  repeat (apply andb_prop in H; destruct H as [H ?]).
  assert (Hpath : str_or_falsy
                    (py_or (get raw "path")
                       (py_or (get raw "file") (VStr []))) = true)
    by (repeat apply str_or_falsy_or; auto).
  unfold _extract_activity.
  change (py_or (get raw "type") (py_or (get raw "event") (VStr [])))
    with (etype_of raw).
  cbv zeta.
  destruct (eq_lit (etype_of raw) "reasoning"); [now eexists|].
  destruct (in_lits (etype_of raw) ["thinking"; "thought"]); [now eexists|].
  destruct (in_lits (etype_of raw) ["tool_call"; "function_call"; "tool_use"]).
  { destruct (truthy _); now eexists. }
  destruct (eq_lit (etype_of raw) "exec.spawn").
  { apply spawn_branch_ok. repeat apply strs_or_falsy_or; auto. }
  destruct (eq_lit (etype_of raw) "exec.output"); [now eexists|].
  destruct (in_lits (etype_of raw) ["file.write"; "file.create"; "write_file"]).
  { now apply (path_branch_ok _ (fun n => lit "writing " ++ n ++ lit "...")). }
  destruct (in_lits (etype_of raw) ["file.read"; "read_file"]).
  { now apply (path_branch_ok _ (fun n => lit "reading " ++ n ++ lit "...")). }
  destruct (in_lits (etype_of raw) ["patch.apply"; "edit"; "apply_patch"]).
  { now apply (path_branch_ok _ (fun n => lit "editing " ++ n ++ lit "...")). }
  match goal with
  | |- exists r, match ?m with Some a => _ | None => _ end = _ =>
      destruct m; [now eexists|]
  end.
  destruct (eq_lit (etype_of raw) "thread.started"); [now eexists|].
  destruct (eq_lit (etype_of raw) "turn.started"); [now eexists|].
  destruct (eq_lit (etype_of raw) "turn.completed"); [now eexists|].
  destruct (eq_lit (etype_of raw) "item.started"); [now eexists|].
  destruct (eq_lit (etype_of raw) "item.completed"); [now eexists|].
  destruct (eq_lit (etype_of raw) "content_block_start").
  { destruct (get_or raw "content_block" (VDict [])); try discriminate.
    simpl rbind. destruct (eq_lit _ "tool_use"); [|now eexists].
    destruct (truthy _); now eexists. }
  destruct (eq_lit (etype_of raw) "content_block_delta"); [now eexists|].
  destruct (eq_lit (etype_of raw) "message_start"); [now eexists|].
  destruct (eq_lit (etype_of raw) "message_delta"); [|now eexists].
  destruct (get_or raw "delta" (VDict [])); try discriminate.
  simpl rbind. destruct (truthy _); now eexists.
Qed.

(** C5 (as amended). The activity extractor returns, without raising, on
    every payload in which [path] and [file] are each a string, or absent
    or falsy; [command] and [cmd] are each a string, a list whose first
    three elements are strings, or absent or falsy; and [content_block] and
    [delta] are each a mapping, or absent. For the last two only a missing
    key counts as absent, since the source substitutes its default in
    [get] and not with [or]: a value that is present and is not a mapping,
    [None] included, is outside the claim, and the extractor raises on it.
    Every other field may have any type. And on every payload, whatever the
    types of its fields, that matches none of the markers the extractor
    recognizes, it returns [None]. *)
Theorem extract_activity_total_on_typed_payloads
        (repr_str : str -> str) (raw : dict) :
  (payload_typed raw = true ->
   exists r, _extract_activity repr_str raw = Ok r) /\
  (recognized raw = false -> _extract_activity repr_str raw = Ok None).
Proof.
  split.
  - apply extract_typed.
  - apply extract_unrecognized.
Qed.

Lemma extract_activity_total_on_typed_payloads_witness :
  (exists r,
      _extract_activity repr_plain
        [(lit "type", VStr (lit "exec.spawn"));
         (lit "command", VList [VStr (lit "ls"); VStr (lit "-l")])] = Ok r) /\
  _extract_activity repr_plain
    [(lit "kind", VStr (lit "exec.spawn")); (lit "command", VInt 5)] = Ok None.
Proof.
  split.
  - apply (proj1 (extract_activity_total_on_typed_payloads repr_plain _)).
    reflexivity.
  - apply (proj2 (extract_activity_total_on_typed_payloads repr_plain _)).
    reflexivity.
Defined.

(** C5 (as stated) fails: on the payload with type exec.spawn and command
    the integer 5 the extractor calls [len] on the integer and raises
    [TypeError]. *)
Lemma extract_activity_raises_counterexample :
  ~ (forall (repr_str : str -> str) (raw : dict),
        exists r, _extract_activity repr_str raw = Ok r).
Proof.
  intros H.
  destruct (H repr_plain
              [(lit "type", VStr (lit "exec.spawn"));
               (lit "command", VInt 5)]) as [r Hr].
  vm_compute in Hr. discriminate.
Qed.

(** ** The item summarizer *)

(** C1 (as amended). Summarizing a shell-type item whose command is the
    text [bash -lc] followed by [echo hi] between double quotes returns
    exactly [$ echo hi]: what precedes the payload and the quotes around it
    are stripped. When the command is the list [bash, -lc, echo hi], the
    joined text holds no double quote, the test for one fails, and the
    summary is [$ bash -lc echo hi]. *)
Theorem shell_summary_strips_quoted_payload
        (repr_str : str -> str) (ty : string) :
  In ty shell_types ->
  _get_item_summary repr_str (shell_item ty cmd_as_text) 60
    = Ok (VStr (lit "$ echo hi")) /\
  _get_item_summary repr_str (shell_item ty cmd_as_list) 60
    = Ok (VStr (lit "$ bash -lc echo hi")).
Proof.
  intros H. unfold shell_types in H. simpl in H.
  repeat (destruct H as [<-|H]; [split; vm_compute; reflexivity|]).
  contradiction.
Qed.

Lemma shell_summary_strips_quoted_payload_witness :
  _get_item_summary repr_plain (shell_item "shell" cmd_as_text) 60
    = Ok (VStr (lit "$ echo hi")) /\
  _get_item_summary repr_plain (shell_item "shell" cmd_as_list) 60
    = Ok (VStr (lit "$ bash -lc echo hi")).
Proof.
  apply (shell_summary_strips_quoted_payload repr_plain "shell").
  simpl. auto.
Defined.

(** C1 (as stated) fails: for the command list [bash, -lc, echo hi] the
    summary is not [$ echo hi], whatever [repr] is. *)
Lemma shell_summary_list_counterexample :
  ~ (exists repr_str : str -> str,
        _get_item_summary repr_str (shell_item "shell" cmd_as_list) 60
        = Ok (VStr (lit "$ echo hi"))).
Proof.
  intros [repr_str H]. vm_compute in H. discriminate.
Qed.

Lemma summary_typed (repr_str : str -> str) (item : dict) (max_len : Z) :
  item_typed item = true ->
  exists s, _get_item_summary repr_str item max_len = Ok (VStr s).
Proof.
  unfold item_typed. intros H. rewrite !andb_true_iff in H.
  destruct H as [[[[[[[[[[Hty Hname] Htool] Hsum] Htext] Hpath] Hfile]
                      Hcmd] Hcmd'] Hinput] Hcontent].
  assert (Hp : str_or_falsy
                 (py_or (get item "path")
                    (py_or (get item "file") (VStr []))) = true)
    by (repeat apply str_or_falsy_or; auto).
  unfold _get_item_summary.
  set (item_type := get_or item "type" (VStr [])) in *.
  cbv zeta.
  (* tool calls *)
  destruct (in_lits item_type ["tool_call"; "function_call"; "tool_use"]).
  { destruct (negb (str_eqb _ [])); [now eexists|].
    destruct (str_or_falsy_truthy
                (py_or (get item "name")
                   (py_or (get item "tool") (VStr (lit "tool")))))
      as [s ->]; [| |now eexists].
    - repeat apply str_or_falsy_or; auto.
    - repeat apply py_or_truthy. reflexivity. }
  (* reasoning *)
  destruct (in_lits item_type ["reasoning"; "thinking"]).
  { destruct (truthy (py_or (get item "summary") (VStr []))) eqn:T.
    - destruct (str_or_falsy_truthy _
                  (str_or_falsy_or _ (VStr []) Hsum eq_refl) T) as [s ->].
      cbn [truncate ellipsize rbind]. now eexists.
    - destruct (truthy (py_or (get item "text") (VStr []))) eqn:T';
        [|now eexists].
      destruct (str_or_falsy_truthy _
                  (str_or_falsy_or _ (VStr []) Htext eq_refl) T') as [s ->].
      cbn [m_split_first rbind]. now eexists. }
  (* messages *)
  destruct (in_lits item_type
              ["agent_message"; "assistant_message"; "message"]).
  { match goal with
    | |- exists s, (if truthy ?t then _ else _) = _ =>
        assert (Ht : str_or_falsy t = true)
    end.
    { destruct (negb (truthy (py_or (get item "text") (VStr [])))).
      - destruct (get item "content") as [| | | | |l|];
          try (now apply str_or_falsy_or).
        destruct l as [|[| | | | | |first] l];
          try (now apply str_or_falsy_or); auto.
      - now apply str_or_falsy_or. }
    match goal with
    | |- exists s, (if truthy ?t then _ else _) = _ =>
        destruct (truthy t) eqn:T; [|now eexists];
        destruct (str_or_falsy_truthy t Ht T) as [s ->]
    end.
    cbn [m_split_first rbind]. now eexists. }
  (* exec *)
  destruct (eq_lit item_type "exec").
  { destruct (truthy _); now eexists. }
  (* file operations *)
  destruct (in_lits item_type ["file_read"; "read_file"]).
  { destruct (truthy _) eqn:T.
    - destruct (str_or_falsy_truthy _ Hp T) as [s ->].
      cbn [m_rsplit_last rbind]. destruct (negb (str_eqb _ [])); now eexists.
    - cbn [rbind]. destruct (negb (str_eqb _ [])); now eexists. }
  destruct (in_lits item_type
              ["file_write"; "write_file"; "patch"; "apply_patch"]).
  { destruct (truthy _) eqn:T.
    - destruct (str_or_falsy_truthy _ Hp T) as [s ->].
      cbn [m_rsplit_last rbind]. destruct (negb (str_eqb _ [])); now eexists.
    - cbn [rbind]. destruct (negb (str_eqb _ [])); now eexists. }
  (* shell *)
  destruct (in_lits item_type
              ["shell"; "bash"; "command"; "command_execution";
               "local_shell_call"]) eqn:Hshell.
  { destruct (in_lits_is_str _ _ Hshell) as [ty Ety].
    change (in_lits item_type shell_types = true) in Hshell.
    rewrite Hshell in Hinput. simpl in Hinput.
    assert (Hc : cmd_like
                   (py_or (get item "command")
                      (py_or (get item "cmd")
                         (py_or (get item "input") (VStr [])))) = true)
      by (repeat apply cmd_like_or; auto).
    rewrite Ety.
    destruct (py_or (get item "command")
                (py_or (get item "cmd") (py_or (get item "input") (VStr []))))
      as [|b|z|f|s|l|d]; simpl in Hc;
      try (apply negb_true_iff in Hc; simpl truthy; rewrite Hc;
           now eexists);
      try (now eexists).
    - destruct (truthy (VStr s)); [|now eexists].
      cbn [py_in rbind]. destruct (contains (lit "-lc") s); cbn [rbind andb];
        [|now eexists].
      destruct (contains [chr_dquote] s); cbn [rbind andb m_find];
        [|now eexists].
      destruct (find (lit "-lc") s >=? 0); now eexists.
    - destruct (truthy (VStr _)); [|now eexists].
      cbn [py_in rbind].
      destruct (contains (lit "-lc") _); cbn [rbind andb]; [|now eexists].
      destruct (contains [chr_dquote] _); cbn [rbind andb m_find];
        [|now eexists].
      destruct (find (lit "-lc") _ >=? 0); now eexists. }
  (* fallback *)
  destruct (negb (str_eqb (find_detail _ item 0) [])).
  { destruct (truthy item_type); now eexists. }
  destruct (str_or_falsy_truthy (py_or item_type (VStr (lit "item"))))
    as [s ->]; [| |now eexists].
  - now apply str_or_falsy_or.
  - now apply py_or_truthy.
Qed.

(** C6 (as amended). On every item mapping whose fields are absent or
    have the type the summarizer reads them as ([type], [name], [tool],
    [summary], [text], [path], [file] and the text of the first content
    element a string; [command], [cmd] and, for the shell types, [input] a
    string or a list; a falsy value counts as absent), and for every
    [max_len], the summarizer returns a string and does not raise. *)
Theorem summary_total_on_typed_items
        (repr_str : str -> str) (item : dict) (max_len : Z) :
  item_typed item = true ->
  exists s, _get_item_summary repr_str item max_len = Ok (VStr s).
Proof. apply summary_typed. Qed.

Lemma summary_total_on_typed_items_witness :
  exists s,
    _get_item_summary repr_plain
      [(lit "type", VStr (lit "tool_call"));
       (lit "name", VStr (lit "read_file"));
       (lit "arguments", VDict [(lit "path", VStr (lit "/a/b/main.go"))])]
      60 = Ok (VStr s).
Proof.
  apply (summary_total_on_typed_items repr_plain _ 60). reflexivity.
Defined.

(** C6 (as stated) fails: on the item of type reasoning whose summary is
    the integer 5 the summarizer calls [len] on the integer and raises
    [TypeError]. *)
Lemma summary_raises_counterexample :
  ~ (forall (repr_str : str -> str) (item : dict),
        exists s, _get_item_summary repr_str item 60 = Ok (VStr s)).
Proof.
  intros H.
  destruct (H repr_plain
              [(lit "type", VStr (lit "reasoning"));
               (lit "summary", VInt 5)]) as [s Hs].
  vm_compute in Hs. discriminate.
Qed.

(** ** The invariant of the runs *)

Lemma scan_snoc (o : list entry) (e : entry) :
  scan (o ++ [e]) = observe (scan o) e.
Proof. unfold scan. now rewrite fold_left_app. Qed.

Section Keeps.

Variable c : bool.

Lemma keeps_ret {A} (a : A) : keeps c (ret a).
Proof. intros w H. exact H. Qed.

Lemma keeps_lift {A} (r : result A) : keeps c (lift r).
Proof. intros w H. exact H. Qed.

Lemma keeps_self : keeps c self.
Proof. intros w H. exact H. Qed.

Lemma keeps_bind {A B} (m : M A) (k : A -> M B) :
  keeps c m -> (forall a, keeps c (k a)) -> keeps c (bind m k).
Proof.
  intros Hm Hk w Hw. unfold bind. specialize (Hm w Hw).
  destruct (m w) as [[a|e] w']; simpl in *; [now apply Hk|assumption].
Qed.

Lemma keeps_when (b : bool) (m : M unit) : keeps c m -> keeps c (when b m).
Proof. intros H. destruct b; [exact H|apply keeps_ret]. Qed.

Lemma keeps_update (f : printer -> printer) :
  (forall p, _item_line_open (f p) = _item_line_open p) ->
  (forall p, _recent_activities (f p) = _recent_activities p) ->
  keeps c (update f).
Proof.
  intros H1 H2 w [[HJ HR] HC]. unfold InvF, Inv, update. simpl.
  rewrite H1, H2. auto.
Qed.

Lemma keeps_write (s : stream) (r : role) (t : str) :
  neutral r = true -> keeps c (write s r t).
Proof.
  intros N w [[HJ HR] HC]. split; [split|]; [|exact HR|exact HC].
  unfold write. simpl. rewrite scan_snoc, HJ.
  destruct r; try discriminate; reflexivity.
Qed.

End Keeps.

Create HintDb keeps.
#[local] Hint Resolve keeps_ret keeps_lift keeps_self : keeps.

(** Rules first, then the case analysis the code makes. *)
Ltac keeps_step :=
  match goal with
  | |- keeps _ (bind _ _) => apply keeps_bind; [|intros ?]
  | |- keeps _ (when _ _) => apply keeps_when
  | |- keeps _ (update _) => apply keeps_update; intros; reflexivity
  | |- keeps _ (write _ _ _) => apply keeps_write; reflexivity
  | |- keeps _ (if ?b then _ else _) => destruct b
  | |- keeps _ (match ?x with _ => _ end) => destruct x
  | |- keeps _ _ => solve [auto with keeps]
  end.

Ltac keeps_auto := repeat keeps_step.

Section Invariant.

Variable repr_str : str -> str.
Variable elapsed_at : nat -> str.
Variable c : bool.

Lemma keeps_format_elapsed : keeps c (_format_elapsed elapsed_at).
Proof. intros w H. exact H. Qed.

Lemma format_status_line_run (w : world) :
  exists line,
    _format_status_line elapsed_at w
    = (Ok line, mkWorld (obj w) (out w) (S (clock w)) (sched w)).
Proof.
  unfold _format_status_line, bind, self, _format_elapsed, ret. now eexists.
Qed.

Lemma keeps_write_status_line : keeps c (_write_status_line elapsed_at).
Proof.
  intros w H. pose proof H as [[HJ HR] HC].
  unfold _write_status_line, bind at 1, self.
  destruct (negb (_is_tty (obj w))); [exact H|].
  destruct (_item_line_open (obj w)) eqn:F; [exact H|].
  unfold bind. destruct (format_status_line_run w) as [line ->].
  split; [split|]; [|exact HR|intros _; exact F].
  unfold write. simpl. now rewrite scan_snoc, HJ, F.
Qed.

Hint Resolve keeps_format_elapsed keeps_write_status_line : keeps.

Lemma keeps_tick : keeps c (tick elapsed_at).
Proof. unfold tick. keeps_auto. Qed.

Lemma keeps_ticks (k : nat) : keeps c (ticks elapsed_at k).
Proof.
  induction k as [|k IH]; simpl; [apply keeps_ret|].
  apply keeps_bind; [apply keeps_tick|intros _; exact IH].
Qed.

Lemma keeps_yield : keeps c (yield elapsed_at).
Proof.
  intros w H. unfold yield. destruct (sched w) as [|k rest]; [exact H|].
  apply keeps_ticks. exact H.
Qed.

Lemma keeps_locked {A} (m : M A) : keeps c m -> keeps c (locked elapsed_at m).
Proof.
  intros H. unfold locked.
  apply keeps_bind; [apply keeps_yield|intros _; exact H].
Qed.

Lemma keeps_flush_line (text : str) (is_error : bool) :
  keeps c (_flush_line elapsed_at text is_error).
Proof. unfold _flush_line. apply keeps_locked. keeps_auto. Qed.

Lemma keeps_set_status (status : str) :
  keeps c (set_status elapsed_at status).
Proof. unfold set_status. apply keeps_locked. keeps_auto. Qed.

End Invariant.

(** ** The history of activities *)

Lemma no_repeat_snoc (l : list str) (a : str) :
  no_repeat l -> (l = [] \/ last l [] <> a) -> no_repeat (l ++ [a]).
Proof.
  induction l as [|x l IH]; intros H D; [exact I|].
  destruct l as [|y l].
  - simpl. split; [|exact I]. destruct D as [D|D]; [discriminate|].
    exact D.
  - destruct H as [Hxy H]. split; [exact Hxy|].
    apply IH; [exact H|]. right.
    destruct D as [D|D]; [discriminate|exact D].
Qed.

Lemma no_repeat_tl (l : list str) : no_repeat l -> no_repeat (tl l).
Proof. destruct l as [|a [|b l]]; simpl; tauto. Qed.

Lemma track_ok (a : str) (ra : list str) :
  recent_ok ra -> recent_ok (track a ra).
Proof.
  intros [HL HN]. unfold track.
  destruct (nonempty a &&
            match ra with
            | [] => true
            | _ => negb (str_eqb (last ra []) a)
            end) eqn:E; [|now split].
  apply andb_prop in E. destruct E as [_ E].
  assert (HN' : no_repeat (ra ++ [a])).
  { apply no_repeat_snoc; [exact HN|].
    destruct ra as [|x ra]; [now left|]. right.
    apply negb_true_iff in E. intros Q. rewrite Q, str_eqb_refl in E.
    discriminate. }
  assert (HL' : py_len (ra ++ [a]) = py_len ra + 1)
    by (rewrite py_len_app; reflexivity).
  destruct (py_len (ra ++ [a]) >? 10) eqn:G.
  - split; [|now apply no_repeat_tl].
    destruct (ra ++ [a]) as [|x t]; unfold py_len in *; simpl in *; lia.
  - split; [|exact HN'].
    rewrite Z.gtb_ltb, Z.ltb_ge in G. exact G.
Qed.

(** Nothing is appended for an empty activity or for the activity that is
    already the last of the history. *)
Lemma track_same (a : str) (ra : list str) :
  a = [] \/ (ra <> [] /\ last ra [] = a) -> track a ra = ra.
Proof.
  intros [->|[N L]]; unfold track; [reflexivity|].
  destruct ra as [|x ra]; [contradiction|].
  rewrite L, str_eqb_refl. simpl. now rewrite andb_false_r.
Qed.

Section Activity.

Variable elapsed_at : nat -> str.

(** The middle of [set_activity] replaces the history by its [track]. *)
Lemma track_block_run (activity : str) (w : world) :
  when (nonempty activity &&
        match _recent_activities (obj w) with
        | [] => true
        | ra => negb (str_eqb (last ra []) activity)
        end)
    (update (fun p => with_recent_activities
                        (_recent_activities p ++ [activity]) p) ;;
     p <- self ;;
     when (py_len (_recent_activities p) >? 10)
       (update (fun p => with_recent_activities
                           (tl (_recent_activities p)) p))) w
  = (Ok tt,
     mkWorld (with_recent_activities
                (track activity (_recent_activities (obj w))) (obj w))
             (out w) (clock w) (sched w)).
Proof.
  destruct w as [p o k sc].
  destruct p as [a1 a2 a3 a4 a5 a6 a7 a8 a9 a10 a11 a12 ra a14].
  unfold track. cbn [obj _recent_activities].
  destruct ra as [|x ra];
    (destruct (nonempty activity); cbn [andb when];
     [|reflexivity]).
  - unfold bind, update, self, when.
    cbn [obj out clock sched _recent_activities with_recent_activities].
    destruct (py_len ([] ++ [activity]) >? 10); reflexivity.
  - destruct (negb (str_eqb (last (x :: ra) []) activity)); [|reflexivity].
    unfold bind, update, self, when.
    cbn [obj out clock sched _recent_activities with_recent_activities].
    destruct (py_len ((x :: ra) ++ [activity]) >? 10); reflexivity.
Qed.

Lemma keeps_set_activity (c : bool) (activity : str) :
  keeps c (set_activity elapsed_at activity).
Proof.
  unfold set_activity. apply keeps_locked.
  apply keeps_bind; [keeps_auto|intros _].
  intros w [[HJ HR] HC]. unfold bind at 1, self. unfold bind at 1.
  rewrite track_block_run.
  pose proof (keeps_write_status_line elapsed_at c) as K.
  match goal with
  | |- InvF c (snd (?k ?w')) =>
      assert (Hk : keeps c k) by keeps_auto; apply Hk
  end.
  split; [split|]; [exact HJ|now apply track_ok|exact HC].
Qed.

End Activity.

(** ** Item lines *)

(** A locked block that reads the flag: run it in both cases of the flag
    and replay the entries it writes. *)
Ltac flag_simpl :=
  cbn [fst snd obj out clock sched _item_line_open _recent_activities
       with_item_line_open with_has_content].

Ltac flag_block :=
  let w := fresh "w" in
  let H := fresh "H" in
  let HJ := fresh "HJ" in
  let HR := fresh "HR" in
  let F := fresh "F" in
  intros w H; pose proof H as [[HJ HR] _];
  unfold close_open_line, when, write, update, self, ret, bind;
  flag_simpl;
  destruct (_item_line_open (obj w)) eqn:F;
  flag_simpl;
  (split; [split|]; flag_simpl;
   [rewrite ?scan_snoc, HJ, ?F; reflexivity|exact HR|discriminate]).

Section ItemLines.

Variable repr_str : str -> str.
Variable elapsed_at : nat -> str.

Lemma keeps_summary_of (c : bool) (item : value) :
  keeps c (summary_of repr_str item).
Proof. destruct item; simpl; auto with keeps. Qed.

Lemma keeps_close_open_line : keeps false close_open_line.
Proof. flag_block. Qed.

Lemma keeps_log_item_started (payload : dict) :
  keeps false (_log_item_started repr_str elapsed_at payload).
Proof.
  unfold _log_item_started.
  apply keeps_bind; [apply keeps_format_elapsed|intros elapsed].
  apply keeps_bind; [apply keeps_summary_of|intros summary].
  apply keeps_locked. flag_block.
Qed.

Lemma keeps_log_item_completed (payload : dict) :
  keeps false (_log_item_completed repr_str elapsed_at payload).
Proof.
  unfold _log_item_completed.
  apply keeps_bind; [apply keeps_format_elapsed|intros elapsed].
  apply keeps_bind; [apply keeps_summary_of|intros summary].
  apply keeps_locked. flag_block.
Qed.

Lemma keeps_log_turn_event (etype : value) :
  keeps false (_log_turn_event elapsed_at etype).
Proof.
  unfold _log_turn_event.
  apply keeps_bind; [apply keeps_format_elapsed|intros elapsed].
  apply keeps_locked. flag_block.
Qed.

Lemma keeps_tool_use_items (content : list value) :
  keeps false (tool_use_items repr_str elapsed_at content).
Proof.
  induction content as [|item content IH]; [apply keeps_ret|].
  destruct item; simpl; try exact IH.
  apply keeps_bind; [|intros _; exact IH].
  destruct (negb _); [apply keeps_ret|].
  apply keeps_bind; [apply keeps_format_elapsed|intros elapsed].
  apply keeps_locked. flag_block.
Qed.

Lemma keeps_log_claude_tool_use (payload : dict) :
  keeps false (_log_claude_tool_use repr_str elapsed_at payload).
Proof.
  unfold _log_claude_tool_use.
  apply keeps_bind; [apply keeps_lift|intros content].
  destruct content; try apply keeps_ret. apply keeps_tool_use_items.
Qed.

Lemma keeps_log_claude_tool_result (payload : dict) :
  keeps false (_log_claude_tool_result elapsed_at payload).
Proof.
  unfold _log_claude_tool_result.
  apply keeps_bind; [apply keeps_lift|intros content].
  destruct content; try apply keeps_ret.
  destruct (negb _); [apply keeps_ret|].
  apply keeps_bind; [apply keeps_format_elapsed|intros elapsed].
  apply keeps_locked. flag_block.
Qed.

Lemma keeps_log_event_brief (c : bool) (etype payload : value)
      (activity : option str) :
  keeps c (_log_event_brief repr_str elapsed_at etype payload activity).
Proof.
  unfold _log_event_brief.
  pose proof (keeps_format_elapsed elapsed_at c).
  keeps_auto.
Qed.

Lemma keeps_flush_complete_lines (c : bool) (fuel : nat) :
  keeps c (flush_complete_lines elapsed_at fuel).
Proof.
  induction fuel as [|fuel IH]; [apply keeps_ret|]. simpl.
  pose proof (keeps_flush_line elapsed_at c).
  keeps_auto.
Qed.

Lemma keeps_update_streaming (c : bool) (text : str) :
  keeps c (_update_streaming elapsed_at text).
Proof.
  unfold _update_streaming.
  pose proof (keeps_flush_complete_lines c).
  pose proof (keeps_yield elapsed_at c).
  keeps_auto.
Qed.

Lemma keeps_on_event (event : dict) :
  keeps false (on_event repr_str elapsed_at event).
Proof.
  unfold on_event.
  pose proof (keeps_yield elapsed_at false).
  pose proof (keeps_set_activity elapsed_at false).
  pose proof (keeps_set_status elapsed_at false).
  pose proof (keeps_flush_line elapsed_at false).
  pose proof (keeps_update_streaming false).
  pose proof (keeps_log_event_brief false).
  pose proof keeps_log_item_started.
  pose proof keeps_log_item_completed.
  pose proof keeps_log_turn_event.
  pose proof keeps_log_claude_tool_use.
  pose proof keeps_log_claude_tool_result.
  keeps_auto.
Qed.

End ItemLines.

(** ** The ticker never raises and only redraws *)

Lemma permanent_snoc (o : list entry) (e : entry) :
  permanent (o ++ [e]) = permanent o ++ (if is_status e then [] else [e]).
Proof.
  unfold permanent. rewrite filter_app. simpl. now destruct (is_status e).
Qed.

Lemma with_spinner_idx_same (p : printer) :
  p = with_spinner_idx (_spinner_idx p) p.
Proof. now destruct p. Qed.

Lemma redrawn_refl (w : world) : redrawn w w.
Proof.
  split; [|reflexivity]. exists (_spinner_idx (obj w)).
  apply with_spinner_idx_same.
Qed.

Lemma redrawn_trans (w1 w2 w3 : world) :
  redrawn w1 w2 -> redrawn w2 w3 -> redrawn w1 w3.
Proof.
  intros [[i Hi] Hp] [[j Hj] Hq]. split.
  - exists j. rewrite Hj, Hi. reflexivity.
  - now rewrite Hq.
Qed.

Section Ticker.

Variable elapsed_at : nat -> str.

Lemma write_status_line_run (w : world) :
  exists w',
    _write_status_line elapsed_at w = (Ok tt, w') /\
    obj w' = obj w /\ permanent (out w') = permanent (out w).
Proof.
  unfold _write_status_line, bind at 1, self.
  destruct (negb (_is_tty (obj w))); [now exists w|].
  destruct (_item_line_open (obj w)); [now exists w|].
  unfold bind. destruct (format_status_line_run elapsed_at w) as [line ->].
  eexists. split; [reflexivity|]. split; [reflexivity|].
  simpl. rewrite permanent_snoc. simpl. apply app_nil_r.
Qed.

(** While the flag is set the status line is not drawn: the call leaves
    the world as it is. *)
Lemma write_status_line_suppressed (w : world) :
  _item_line_open (obj w) = true ->
  _write_status_line elapsed_at w = (Ok tt, w).
Proof.
  intros F. unfold _write_status_line, bind at 1, self. rewrite F.
  now destruct (negb (_is_tty (obj w))).
Qed.

Lemma tick_run (w : world) :
  exists w', tick elapsed_at w = (Ok tt, w') /\ redrawn w w'.
Proof.
  unfold tick, bind at 1, self.
  destruct (_spinner_thread (obj w) && _running (obj w));
    [|exists w; split; [reflexivity|apply redrawn_refl]].
  unfold when, bind, update.
  match goal with
  | |- context [_write_status_line elapsed_at ?w1] =>
      destruct (write_status_line_run w1) as (w' & -> & Ho & Hp)
  end.
  exists w'. split; [reflexivity|]. split.
  - eexists. rewrite Ho. reflexivity.
  - rewrite Hp. reflexivity.
Qed.

Lemma ticks_run (k : nat) (w : world) :
  exists w', ticks elapsed_at k w = (Ok tt, w') /\ redrawn w w'.
Proof.
  revert w. induction k as [|k IH]; intros w.
  - exists w. split; [reflexivity|apply redrawn_refl].
  - simpl. unfold bind. destruct (tick_run w) as (w1 & -> & R1).
    destruct (IH w1) as (w2 & -> & R2).
    exists w2. split; [reflexivity|]. now apply redrawn_trans with w1.
Qed.

Lemma yield_run (w : world) :
  exists w', yield elapsed_at w = (Ok tt, w') /\ redrawn w w'.
Proof.
  unfold yield. destruct (sched w) as [|k rest].
  - exists w. split; [reflexivity|apply redrawn_refl].
  - destruct (ticks_run k (mkWorld (obj w) (out w) (clock w) rest))
      as (w' & E & R).
    exists w'. split; [exact E|]. exact R.
Qed.

End Ticker.

(** ** Runs keep the invariant *)

Section Reach.

Variable repr_str : str -> str.
Variable elapsed_at : nat -> str.

Lemma keeps_write_closing (s : stream) (t : str) :
  keeps true (write s Final t).
Proof.
  intros w [[HJ HR] HC]. pose proof (HC eq_refl) as F.
  split; [split|]; [|exact HR|exact HC].
  unfold write. simpl. now rewrite scan_snoc, HJ, F.
Qed.

Lemma start_inv (label : str) (w : world) :
  InvF true w -> InvF false (snd (start elapsed_at label w)).
Proof.
  intros [[HJ HR] HC]. pose proof (HC eq_refl) as F.
  unfold start, bind at 1, update at 1.
  match goal with
  | |- InvF false (snd (?k ?w')) =>
      assert (Hk : keeps false k)
        by (pose proof (keeps_write_status_line elapsed_at false);
            keeps_auto);
      apply Hk
  end.
  split; [split|]; simpl; [now rewrite HJ, F| |discriminate].
  split; [unfold py_len; simpl; lia|exact I].
Qed.

Lemma done_inv (status elapsed_s : str) (w : world) :
  InvF false w -> InvF true (snd (done elapsed_at status elapsed_s w)).
Proof.
  intros H. unfold done.
  unfold bind at 1, update at 1. unfold bind at 1, update at 1.
  unfold bind at 1, locked, bind at 1.
  match goal with
  | |- context [yield elapsed_at ?w1] =>
      assert (H1 : InvF false w1) by exact H;
      destruct (yield_run elapsed_at w1) as (w2 & E & _);
      pose proof (keeps_yield elapsed_at false w1 H1) as H2;
      rewrite E in *; simpl in H2
  end.
  destruct H2 as [[HJ HR] _].
  match goal with
  | |- InvF true (snd (match close_open_line w2 with _ => _ end)) =>
      assert (Hc : exists w3, close_open_line w2 = (Ok tt, w3) /\
                              InvF true w3)
  end.
  { unfold close_open_line, when, write, update, self, ret, bind.
    flag_simpl. destruct (_item_line_open (obj w2)) eqn:F; flag_simpl;
      (eexists; split; [reflexivity|]);
      (split; [split|]; flag_simpl;
       [rewrite ?scan_snoc, HJ, ?F; reflexivity|exact HR|auto]). }
  destruct Hc as (w3 & -> & H3).
  match goal with
  | |- InvF true (snd (?k ?w')) =>
      assert (Hk : keeps true k)
        by (pose proof (keeps_flush_line elapsed_at true);
            pose proof keeps_write_closing;
            keeps_auto);
      apply Hk
  end.
  exact H3.
Qed.

Lemma reach_inv (ph : phase) (w : world) :
  reach repr_str elapsed_at ph w -> InvF (closed_in ph) w.
Proof.
  induction 1; simpl.
  - split; [split|]; [reflexivity| |reflexivity].
    split; [unfold py_len; simpl; lia|exact I].
  - now apply start_inv.
  - now apply keeps_on_event.
  - now apply keeps_set_status.
  - now apply keeps_set_activity.
  - now apply keeps_tick.
  - now apply done_inv.
Qed.

End Reach.

(** ** The item-line discipline and the history, on every run *)

Lemma observe_none (o : list entry) : fold_left observe o None = None.
Proof. induction o as [|e o IH]; [reflexivity|exact IH]. Qed.

Lemma scan_prefix (o1 o2 : list entry) (b : bool) :
  scan (o1 ++ o2) = Some b -> exists b', scan o1 = Some b'.
Proof.
  unfold scan. rewrite fold_left_app.
  destruct (fold_left observe o1 (Some false)) as [b'|]; [now exists b'|].
  now rewrite observe_none.
Qed.

Section Discipline.

Variable repr_str : str -> str.
Variable elapsed_at : nat -> str.

Lemma ticks_suppressed (k : nat) (w : world) :
  _item_line_open (obj w) = true ->
  out (snd (ticks elapsed_at k w)) = out w.
Proof.
  revert w. induction k as [|k IH]; intros w F; [reflexivity|].
  simpl. unfold bind at 1, tick, bind at 1, self.
  destruct (_spinner_thread (obj w) && _running (obj w)); unfold when.
  - unfold bind at 1, update.
    rewrite write_status_line_suppressed by exact F.
    rewrite IH by exact F. reflexivity.
  - unfold ret. now rewrite IH.
Qed.

(** C4. In every world a run reaches, under every schedule of the ticker:
    the whole output, and so every prefix of it, obeys the item-line
    discipline (no status draw and no item opening while an item line is
    open; every opening is followed by a completion or a forced line feed
    before the next opening and before the final summary), the flag
    [_item_line_open] is set exactly when the output ends in an open item
    line, and while the flag is set neither a status-line draw nor any
    number of ticker turns writes anything. *)
Theorem item_line_discipline (ph : phase) (w : world) :
  reach repr_str elapsed_at ph w ->
  scan (out w) = Some (_item_line_open (obj w)) /\
  (forall o1 o2, out w = o1 ++ o2 -> scan o1 <> None) /\
  (_item_line_open (obj w) = true ->
   _write_status_line elapsed_at w = (Ok tt, w) /\
   forall k, out (snd (ticks elapsed_at k w)) = out w).
Proof.
  intros R. destruct (reach_inv repr_str elapsed_at ph w R) as [[HJ _] _].
  split; [exact HJ|]. split.
  - intros o1 o2 E. rewrite E in HJ.
    destruct (scan_prefix o1 o2 _ HJ) as [b ->]. discriminate.
  - intros F. split.
    + now apply write_status_line_suppressed.
    + intros k. now apply ticks_suppressed.
Qed.

End Discipline.

Lemma item_line_discipline_witness :
  let w :=
    snd (on_event repr_plain clock_fixed ex_started
           (snd (start clock_fixed (lit "build")
                   (fresh true true [1; 0; 2]%nat))))
  in
  _item_line_open (obj w) = true /\
  scan (out w) = Some true /\
  (forall o1 o2, out w = o1 ++ o2 -> scan o1 <> None) /\
  _write_status_line clock_fixed w = (Ok tt, w) /\
  (forall k, out (snd (ticks clock_fixed k w)) = out w).
Proof.
  intro w.
  assert (F : _item_line_open (obj w) = true) by (vm_compute; reflexivity).
  assert (R : reach repr_plain clock_fixed Running w)
    by (apply reach_event; apply reach_start; apply reach_fresh).
  destruct (item_line_discipline repr_plain clock_fixed Running w R)
    as (S & P & Q).
  rewrite F in S. destruct (Q F) as [Q1 Q2].
  repeat split; assumption.
Defined.

(** ** What the locked methods do, up to redraws *)

Section Methods.

Variable elapsed_at : nat -> str.

Lemma when_write_status_line_run (b : bool) (w : world) :
  exists w',
    when b (_write_status_line elapsed_at) w = (Ok tt, w') /\
    obj w' = obj w /\ permanent (out w') = permanent (out w).
Proof.
  destruct b; [apply write_status_line_run|].
  exists w. repeat split; reflexivity.
Qed.

Lemma set_activity_run (activity : str) (w : world) :
  exists w',
    set_activity elapsed_at activity w = (Ok tt, w') /\
    (exists i,
        obj w' = with_spinner_idx i
                   (with_recent_activities
                      (track activity (_recent_activities (obj w)))
                      (with_activity activity (obj w)))) /\
    permanent (out w') = permanent (out w).
Proof.
  unfold set_activity, locked. unfold bind at 1.
  destruct (yield_run elapsed_at w) as (w1 & -> & [[i Hi] Hp]).
  unfold bind at 1, update at 1. unfold bind at 1, self at 1.
  unfold bind at 1. rewrite track_block_run.
  unfold bind at 1, self at 1.
  match goal with
  | |- context [when ?b _ ?w2] =>
      destruct (when_write_status_line_run b w2) as (w' & -> & Ho & Hq)
  end.
  exists w'. split; [reflexivity|]. split.
  - exists i. rewrite Ho. cbn [obj]. rewrite Hi. reflexivity.
  - rewrite Hq. exact Hp.
Qed.

Lemma set_status_run (status : str) (w : world) :
  exists w',
    set_status elapsed_at status w = (Ok tt, w') /\
    (exists i, obj w' = with_spinner_idx i (with_status status (obj w))) /\
    permanent (out w') = permanent (out w).
Proof.
  unfold set_status, locked. unfold bind at 1.
  destruct (yield_run elapsed_at w) as (w1 & -> & [[i Hi] Hp]).
  unfold bind at 1, update at 1. unfold bind at 1, self at 1.
  match goal with
  | |- context [when ?b _ ?w2] =>
      destruct (when_write_status_line_run b w2) as (w' & -> & Ho & Hq)
  end.
  exists w'. split; [reflexivity|]. split.
  - exists i. rewrite Ho. cbn [obj]. rewrite Hi. reflexivity.
  - rewrite Hq. exact Hp.
Qed.

End Methods.

Section History.

Variable repr_str : str -> str.
Variable elapsed_at : nat -> str.

(** C9. In every world a run reaches, after a call of [set_activity] the
    history of recent activities holds at most 10 entries and no two equal
    neighbours; and when the activity is empty, or equal to the last entry
    of the history, the call leaves the history as it was. *)
Theorem recent_activities_bounded_without_repeats
        (ph : phase) (w : world) (activity : str) :
  reach repr_str elapsed_at ph w ->
  let before := _recent_activities (obj w) in
  let after :=
    _recent_activities (obj (snd (set_activity elapsed_at activity w))) in
  py_len after <= 10 /\ no_repeat after /\
  (activity = [] \/ (before <> [] /\ last before [] = activity) ->
   after = before).
Proof.
  intros R before after.
  destruct (reach_inv repr_str elapsed_at ph w R) as [[_ HR] _].
  destruct (set_activity_run elapsed_at activity w) as (w' & E & [i Ho] & _).
  assert (A : after = track activity before).
  { unfold after. rewrite E. cbn [snd]. rewrite Ho. reflexivity. }
  rewrite A. destruct (track_ok activity before HR) as [HL HN].
  split; [exact HL|]. split; [exact HN|]. apply track_same.
Qed.

End History.

Lemma recent_activities_bounded_without_repeats_witness :
  let w :=
    snd (on_event repr_plain clock_fixed ex_started
           (snd (start clock_fixed (lit "build") (fresh true false []))))
  in
  let before := _recent_activities (obj w) in
  let after :=
    _recent_activities
      (obj (snd (set_activity clock_fixed (lit "calling read_file...") w))) in
  before = [lit "calling read_file..."] /\
  py_len after <= 10 /\ no_repeat after /\ after = before.
Proof.
  intros w before after.
  assert (B : before = [lit "calling read_file..."])
    by (vm_compute; reflexivity).
  assert (R : reach repr_plain clock_fixed Running w)
    by (apply reach_event; apply reach_start; apply reach_fresh).
  destruct (recent_activities_bounded_without_repeats
              repr_plain clock_fixed Running w
              (lit "calling read_file...") R) as (L & N & Q).
  split; [exact B|]. split; [exact L|]. split; [exact N|].
  apply Q. right. fold before. rewrite B. split; [discriminate|reflexivity].
Defined.

(** ** Running the handlers *)

Lemma run_ret {A B} (a : A) (k : A -> M B) (w : world) :
  bind (ret a) k w = k a w.
Proof. reflexivity. Qed.

Lemma run_lift {A B} (a : A) (k : A -> M B) (w : world) :
  bind (lift (Ok a)) k w = k a w.
Proof. reflexivity. Qed.

Lemma run_self {B} (k : printer -> M B) (w : world) :
  bind self k w = k (obj w) w.
Proof. reflexivity. Qed.

Lemma run_update {B} (f : printer -> printer) (k : unit -> M B) (w : world) :
  bind (update f) k w
  = k tt (mkWorld (f (obj w)) (out w) (clock w) (sched w)).
Proof. reflexivity. Qed.

Lemma run_write {B} (s : stream) (r : role) (t : str) (k : unit -> M B)
      (w : world) :
  bind (write s r t) k w
  = k tt (mkWorld (obj w) (out w ++ [mkEntry s r t]) (clock w) (sched w)).
Proof. reflexivity. Qed.

Lemma run_format_elapsed {B} (el : nat -> str) (k : str -> M B) (w : world) :
  bind (_format_elapsed el) k w
  = k (el (clock w)) (mkWorld (obj w) (out w) (S (clock w)) (sched w)).
Proof. reflexivity. Qed.

Lemma run_bind {A B C} (m : M A) (k1 : A -> M B) (k2 : B -> M C) (w : world) :
  bind (bind m k1) k2 w = bind m (fun a => bind (k1 a) k2) w.
Proof. unfold bind. now destruct (m w) as [[a|e] w']. Qed.

Lemma run_known {A B} (m : M A) (k : A -> M B) (w w' : world) (a : A) :
  m w = (Ok a, w') -> bind m k w = k a w'.
Proof. intros E. unfold bind. now rewrite E. Qed.

Create Rewrite HintDb mrun.
#[local] Hint Rewrite @run_ret @run_lift @run_self @run_update @run_write
  @run_format_elapsed @run_bind : mrun.

(** Evaluate a closed subterm of the goal. *)
Ltac eval_in_goal t :=
  let v := eval vm_compute in t in change t with v.

(** Run the primitives at the head of a computation. *)
Ltac mrun :=
  repeat (progress (autorewrite with mrun;
                    cbv beta iota;
                    cbn [obj out clock sched fst snd])).

Lemma yield_quiet (elapsed_at : nat -> str) (w : world) :
  sched w = [] -> yield elapsed_at w = (Ok tt, w).
Proof. intros E. unfold yield. now rewrite E. Qed.

Section ToolResult.

Variable elapsed_at : nat -> str.

(** C10. When [message.content] is a list with a tool_result entry and no
    item line is open, [_log_claude_tool_result] returns having written
    nothing: the world differs only by what the ticker did while the
    handler waited for the lock (status redraws and the spinner index), and
    when no tick is scheduled the printer and the output are exactly as
    before; in particular no standalone completed line is written. When
    the list holds no tool_result entry, the handler returns at once and
    leaves the whole world, output and printer, unchanged. *)
Theorem tool_result_without_open_line
        (payload : dict) (content : list value) (w : world) :
  message_content payload = Ok (VList content) ->
  (existsb is_tool_result content = true ->
   _item_line_open (obj w) = false ->
   exists w',
     _log_claude_tool_result elapsed_at payload w = (Ok tt, w') /\
     redrawn w w' /\
     (sched w = [] -> obj w' = obj w /\ out w' = out w)) /\
  (existsb is_tool_result content = false ->
   _log_claude_tool_result elapsed_at payload w = (Ok tt, w)).
Proof.
  intros C. unfold message_content in C. split.
  - intros T F. unfold _log_claude_tool_result. rewrite C. mrun.
    rewrite T. cbn [negb]. unfold locked. mrun.
    match goal with
    | |- context [bind (yield elapsed_at) ?k ?w0] =>
        pose proof (yield_quiet elapsed_at w0) as Q;
        destruct (yield_run elapsed_at w0) as (w1 & E & [[i Hi] Hp]);
        rewrite (run_known _ k _ _ _ E)
    end.
    mrun. rewrite Hi. cbn [obj _item_line_open with_spinner_idx].
    rewrite F. exists w1. split; [reflexivity|]. split.
    + split; [now exists i|exact Hp].
    + intros S0. rewrite (Q S0) in E. injection E as <-. split; reflexivity.
  - intros T. unfold _log_claude_tool_result. rewrite C. mrun.
    rewrite T. reflexivity.
Qed.

End ToolResult.

Lemma tool_result_without_open_line_witness :
  let w := fresh true false [] in
  (exists w',
      _log_claude_tool_result clock_fixed ex_tool_result_payload w
      = (Ok tt, w') /\
      redrawn w w' /\
      (sched w = [] -> obj w' = obj w /\ out w' = out w)) /\
  _log_claude_tool_result clock_fixed
    [(lit "message", VDict [(lit "content", VList [VStr (lit "done")])])] w
  = (Ok tt, w).
Proof.
  intro w. split.
  - apply (tool_result_without_open_line clock_fixed ex_tool_result_payload
             [VDict [(lit "type", VStr (lit "tool_result"))]] w);
      reflexivity.
  - apply (tool_result_without_open_line clock_fixed
             [(lit "message",
               VDict [(lit "content", VList [VStr (lit "done")])])]
             [VStr (lit "done")] w);
      reflexivity.
Defined.

Section ItemEvents.

Variable repr_str : str -> str.
Variable elapsed_at : nat -> str.

Lemma summary_of_item (payload : dict) :
  summary_of repr_str (get_or payload "item" (VDict []))
  = lift (item_summary repr_str payload).
Proof.
  unfold item_summary. now destruct (get_or payload "item" (VDict [])).
Qed.




End ItemEvents.


(** ** Content lines and streaming *)

Section Streaming.

Variable elapsed_at : nat -> str.

Lemma flush_line_run (text : str) (is_error : bool) (w : world) :
  exists w',
    _flush_line elapsed_at text is_error w = (Ok tt, w') /\
    permanent (out w')
    = permanent (out w) ++ flushed (_is_tty (obj w)) is_error text /\
    (exists i,
        obj w' = with_spinner_idx i
                   (if _is_tty (obj w)
                    then with_has_content true (obj w) else obj w)).
Proof.
  unfold _flush_line, locked. mrun.
  match goal with
  | |- context [bind (yield elapsed_at) ?k ?w0] =>
      destruct (yield_run elapsed_at w0) as (w1 & E & [[i Hi] Hp]);
      rewrite (run_known _ k _ _ _ E)
  end.
  mrun. rewrite Hi. cbn [_is_tty with_spinner_idx]. unfold flushed.
  destruct (_is_tty (obj w)).
  - mrun. unfold when.
    destruct (negb (endswith text nl)) eqn:N;
      [apply negb_true_iff in N|apply negb_false_iff in N]; rewrite N;
      mrun;
      match goal with
      | |- context [(if ?b then _write_status_line elapsed_at else ret tt)
                      ?w2] =>
          destruct (when_write_status_line_run elapsed_at b w2)
            as (w' & Ew & Ho & Hq);
          unfold when in Ew; rewrite Ew
      end;
      (exists w'; split; [reflexivity|]);
      rewrite Ho, Hq; cbn [obj out];
      rewrite ?permanent_snoc, Hp; cbn [is_status e_role negb];
      rewrite <- ?app_assoc;
      (split; [reflexivity|]); exists i; rewrite Hi; reflexivity.
  - unfold when.
    destruct (negb (endswith text nl)) eqn:N;
      [apply negb_true_iff in N|apply negb_false_iff in N]; rewrite N;
      mrun; unfold write, ret;
      (eexists; split; [reflexivity|]); cbn [obj out];
      rewrite ?permanent_snoc, Hp; cbn [is_status e_role negb];
      rewrite <- ?app_assoc;
      (split; [reflexivity|]); exists i; exact Hi.
Qed.

Lemma flush_complete_lines_step (fuel : nat) (w : world) :
  flush_complete_lines elapsed_at (S fuel) w
  = match split1 chr_nl (_current_line (obj w)) with
    | None => (Ok tt, w)
    | Some (line, rest) =>
        (update (with_current_line rest) ;;
         when (nonempty line) (_flush_line elapsed_at line false) ;;
         flush_complete_lines elapsed_at fuel) w
    end.
Proof.
  cbn [flush_complete_lines]. mrun.
  now destruct (split1 chr_nl (_current_line (obj w))) as [[line rest]|].
Qed.

(** C7. Starting from an empty buffer, feeding [hello ] and then [world]
    with a line feed to streaming accumulation flushes nothing at the first
    fragment and, at the second, exactly one content line, whose text is
    [hello world] (on a terminal: clear sequence, text and line feed on the
    error stream; otherwise text and line feed on standard output), and
    leaves the buffer empty; the token count grows by two. Status redraws
    aside, nothing else is written. *)
Theorem streaming_hello_world (w : world) :
  _current_line (obj w) = [] ->
  exists w1 w2,
    _update_streaming elapsed_at (lit "hello ") w = (Ok tt, w1) /\
    _update_streaming elapsed_at (lit "world" ++ nl) w1 = (Ok tt, w2) /\
    permanent (out w1) = permanent (out w) /\
    _current_line (obj w1) = lit "hello " /\
    permanent (out w2)
    = permanent (out w) ++
      (if _is_tty (obj w)
       then [mkEntry Stderr Clear clear_line;
             mkEntry Stderr Content (lit "hello world");
             mkEntry Stderr ContentEnd nl]
       else [mkEntry Stdout Content (lit "hello world");
             mkEntry Stdout ContentEnd nl]) /\
    _current_line (obj w2) = [] /\
    _token_count (obj w2) = _token_count (obj w) + 2.
Proof.
  intros B.
  (* the first fragment *)
  assert (E1 : exists w1 i,
             _update_streaming elapsed_at (lit "hello ") w = (Ok tt, w1) /\
             permanent (out w1) = permanent (out w) /\
             obj w1 = with_spinner_idx i
                        (with_token_count (_token_count (obj w) + 1)
                           (with_current_line (lit "hello ") (obj w)))).
  { unfold _update_streaming. mrun.
    match goal with
    | |- context [bind (yield elapsed_at) ?k ?w0] =>
        destruct (yield_run elapsed_at w0) as (wy & Ey & [[i Hi] Hp]);
        pose proof (run_known _ k _ _ _ Ey) as R; rewrite R; clear R
    end.
    cbn [obj out] in Hi, Hp. mrun. rewrite Hi.
    cbn [_current_line _token_count with_current_line with_token_count
         with_spinner_idx].
    rewrite B, flush_complete_lines_step.
    cbn [obj _current_line _token_count with_current_line with_token_count
       with_spinner_idx].
    eval_in_goal (split1 chr_nl ([] ++ lit "hello ")).
    eval_in_goal (count_words false (lit "hello ")).
    eexists. exists i. split; [reflexivity|]. split; [exact Hp|reflexivity]. }
  destruct E1 as (w1 & i1 & E1 & O1 & P1). exists w1.
  (* the second fragment *)
  unfold _update_streaming at 2. mrun.
  match goal with
  | |- context [bind (yield elapsed_at) ?k ?w0] =>
      destruct (yield_run elapsed_at w0) as (wy & Ey & [[i Hi] Hq]);
      pose proof (run_known _ k _ _ _ Ey) as R; rewrite R; clear R
  end.
  cbn [obj out] in Hi, Hq. mrun. rewrite Hi, P1.
  cbn [_current_line _token_count with_current_line with_token_count
       with_spinner_idx].
  eval_in_goal (length (lit "hello " ++ (lit "world" ++ nl))).
  rewrite flush_complete_lines_step.
  cbn [obj _current_line _token_count with_current_line with_token_count
       with_spinner_idx].
  eval_in_goal (split1 chr_nl (lit "hello " ++ (lit "world" ++ nl))).
  eval_in_goal (count_words false (lit "world" ++ nl)).
  mrun.
  match goal with
  | |- context [nonempty ?l] => eval_in_goal (nonempty l)
  end.
  unfold when. cbv iota.
  match goal with
  | |- context [bind (_flush_line elapsed_at ?t ?e) ?k ?w0] =>
      destruct (flush_line_run t e w0) as (w2 & E2 & Hp & [j Hj]);
      pose proof (run_known _ k _ _ _ E2) as R; rewrite R; clear R
  end.
  cbn [obj out _is_tty with_current_line with_token_count with_spinner_idx]
    in Hp, Hj.
  rewrite flush_complete_lines_step, Hj.
  assert (C2 : _current_line (obj w2) = []).
  { rewrite Hj. now destruct (_is_tty (obj w)). }
  rewrite Hj in C2. rewrite C2. cbn [split1].
  exists w2. split; [exact E1|]. split; [reflexivity|].
  split; [exact O1|]. split; [reflexivity|].
  split.
  - rewrite Hp, Hq, O1. unfold flushed.
    match goal with
    | |- context [endswith ?l nl] => eval_in_goal (endswith l nl)
    end.
    now destruct (_is_tty (obj w)).
  - rewrite Hj. split; [exact C2|]. destruct (_is_tty (obj w)); simpl; lia.
Qed.

End Streaming.

Lemma streaming_hello_world_witness :
  let w := fresh true false [] in
  exists w1 w2,
    _update_streaming clock_fixed (lit "hello ") w = (Ok tt, w1) /\
    _update_streaming clock_fixed (lit "world" ++ nl) w1 = (Ok tt, w2) /\
    permanent (out w1) = permanent (out w) /\
    _current_line (obj w1) = lit "hello " /\
    permanent (out w2)
    = permanent (out w) ++
      (if _is_tty (obj w)
       then [mkEntry Stderr Clear clear_line;
             mkEntry Stderr Content (lit "hello world");
             mkEntry Stderr ContentEnd nl]
       else [mkEntry Stdout Content (lit "hello world");
             mkEntry Stdout ContentEnd nl]) /\
    _current_line (obj w2) = [] /\
    _token_count (obj w2) = _token_count (obj w) + 2.
Proof.
  intro w. apply (streaming_hello_world clock_fixed w). reflexivity.
Defined.

(** ** The error event *)

Lemma content_of_permanent (o : list entry) :
  content_entries (permanent o) = content_entries o.
Proof.
  unfold content_entries, permanent.
  induction o as [|e o IH]; [reflexivity|]. simpl.
  destruct e as [st r t]. destruct r; simpl; now rewrite IH.
Qed.

Lemma content_same (o o' : list entry) :
  permanent o' = permanent o -> content_entries o' = content_entries o.
Proof.
  intros H. now rewrite <- (content_of_permanent o'), H, content_of_permanent.
Qed.

Lemma content_entries_app (o o' : list entry) :
  content_entries (o ++ o') = content_entries o ++ content_entries o'.
Proof. apply filter_app. Qed.

Section ErrorEvent.

Variable repr_str : str -> str.
Variable elapsed_at : nat -> str.

(** Off a terminal an error event passes through [_log_event_brief], which
    writes at most a brief line for the activity. *)
Lemma log_event_brief_error (payload : dict) (activity : option str)
      (w : world) :
  exists w',
    _log_event_brief repr_str elapsed_at (VStr (lit "error")) (VDict payload)
      activity w = (Ok tt, w') /\
    obj w' = obj w /\
    content_entries (out w') = content_entries (out w).
Proof.
  unfold _log_event_brief.
  eval_in_goal (hashable (VStr (lit "error"))). cbn [negb].
  repeat match goal with
         | |- context [in_lits (VStr (lit "error")) ?l] =>
             eval_in_goal (in_lits (VStr (lit "error")) l)
         end.
  cbv iota. mrun.
  destruct activity as [[|c a]|].
  - eval_in_goal (m_startswith (VStr (lit "error")) (lit "file.")).
    mrun. cbn [orb]. eexists. repeat split; reflexivity.
  - unfold write. eexists. split; [reflexivity|]. split; [reflexivity|].
    cbn [out]. rewrite content_entries_app. cbn. apply app_nil_r.
  - eval_in_goal (m_startswith (VStr (lit "error")) (lit "file.")).
    mrun. cbn [orb]. eexists. repeat split; reflexivity.
Qed.

Lemma content_flushed (tty is_error : bool) (text : str) :
  content_entries (flushed tty is_error text)
  = [mkEntry (if tty then Stderr else if is_error then Stderr else Stdout)
       Content text].
Proof.
  unfold flushed. destruct tty; cbn; now destruct (endswith text nl).
Qed.

(** C8. An event of kind error whose payload has the message [disk full]
    (and on which the activity extractor returns) is processed without
    raising; it flushes exactly one content line, of text
    [[error] disk full], on the error stream, on a terminal or not; and
    afterwards the status is [error] and the activity is empty. *)
Theorem error_event_flushes_error_line
        (event payload : dict) (activity : option str) (w : world) :
  get event "type" = VStr (lit "error") ->
  get_or event "payload" (VDict []) = VDict payload ->
  get payload "message" = VStr (lit "disk full") ->
  _extract_activity repr_str payload = Ok activity ->
  exists w',
    on_event repr_str elapsed_at event w = (Ok tt, w') /\
    content_entries (out w')
    = content_entries (out w) ++
      [mkEntry Stderr Content (lit "[error] disk full")] /\
    _status (obj w') = lit "error" /\
    _activity (obj w') = [].
Proof.
  intros Ht Hp Hm Ha. unfold on_event. rewrite Ht, Hp. cbv zeta.
  match goal with
  | |- context [bind (yield elapsed_at) ?k ?w0] =>
      destruct (yield_run elapsed_at w0) as (wy & Ey & [_ Hy]);
      pose proof (run_known _ k _ _ _ Ey) as R; rewrite R; clear R
  end.
  apply content_same in Hy.
  mrun. rewrite Ha. mrun.
  (* the activity, when there is one *)
  assert (A : exists wa,
             (match activity with
              | Some (c :: a) => set_activity elapsed_at (c :: a)
              | _ => ret tt
              end)
               (mkWorld (with_event_count (_event_count (obj wy) + 1)
                           (obj wy))
                        (out wy) (clock wy) (sched wy)) = (Ok tt, wa) /\
             content_entries (out wa) = content_entries (out w)).
  { destruct activity as [[|c a]|];
      try (eexists; split; [reflexivity|exact Hy]).
    match goal with
    | |- context [set_activity elapsed_at ?x ?w0] =>
        destruct (set_activity_run elapsed_at x w0) as (wa & E & _ & Hq)
    end.
    exists wa. split; [exact E|].
    rewrite <- Hy. now apply content_same. }
  destruct A as (wa & Ea & Ca).
  rewrite (run_known _ _ _ _ _ Ea). mrun.
  repeat match goal with
         | |- context [eq_lit (VStr (lit "error")) ?l] =>
             eval_in_goal (eq_lit (VStr (lit "error")) l)
         | |- context [in_lits (VStr (lit "error")) ?l] =>
             eval_in_goal (in_lits (VStr (lit "error")) l)
         end.
  cbv iota. eval_in_goal (truthy (VStr (lit "error"))).
  (* the brief log, off a terminal *)
  assert (B : exists wb,
             (if negb (_is_tty (obj wa)) && true
              then _log_event_brief repr_str elapsed_at (VStr (lit "error"))
                     (VDict payload) activity
              else ret tt) wa = (Ok tt, wb) /\
             obj wb = obj wa /\
             content_entries (out wb) = content_entries (out wa)).
  { destruct (negb (_is_tty (obj wa)) && true).
    - apply log_event_brief_error.
    - exists wa. repeat split; reflexivity. }
  destruct B as (wb & Eb & Ob & Cb).
  rewrite (run_known _ _ _ _ _ Eb).
  (* the error line, the status and the activity *)
  cbn [m_get m_get_or]. mrun.
  change (get_or payload "message" VNone) with (get payload "message").
  rewrite Hm. cbv iota. mrun.
  eval_in_goal (truthy (VStr (lit "disk full"))). cbv iota. mrun.
  eval_in_goal (truthy (VStr (lit "disk full"))). cbv iota. cbn [py_str].
  mrun.
  match goal with
  | |- context [bind (_flush_line elapsed_at ?t ?e) ?k ?w0] =>
      destruct (flush_line_run elapsed_at t e w0) as (wc & Ec & Pc & _);
      pose proof (run_known _ k _ _ _ Ec) as R; rewrite R; clear R
  end.
  mrun.
  match goal with
  | |- context [bind (set_status elapsed_at ?t) ?k ?w0] =>
      destruct (set_status_run elapsed_at t w0) as (wd & Ed & [i Hi] & Pd);
      pose proof (run_known _ k _ _ _ Ed) as R; rewrite R; clear R
  end.
  mrun.
  match goal with
  | |- context [bind (set_activity elapsed_at ?t) ?k ?w0] =>
      destruct (set_activity_run elapsed_at t w0) as (we & Ee & [j Hj] & Pe);
      pose proof (run_known _ k _ _ _ Ee) as R; rewrite R; clear R
  end.
  mrun. rewrite Hj. cbn [_activity with_spinner_idx with_recent_activities
                         with_activity].
  eval_in_goal (nonempty []). cbn [negb when].
  exists we. split; [reflexivity|]. split; [|split].
  - rewrite (content_same _ _ Pe), (content_same _ _ Pd).
    rewrite <- (content_of_permanent (out wc)), Pc.
    rewrite content_entries_app, content_of_permanent, content_flushed.
    rewrite Cb, Ca. now destruct (_is_tty (obj wb)).
  - rewrite Hj, Hi. reflexivity.
  - rewrite Hj. reflexivity.
Qed.

End ErrorEvent.

Lemma error_event_flushes_error_line_witness :
  let w := fresh true false [] in
  exists w',
    on_event repr_plain clock_fixed ex_error w = (Ok tt, w') /\
    content_entries (out w')
    = content_entries (out w) ++
      [mkEntry Stderr Content (lit "[error] disk full")] /\
    _status (obj w') = lit "error" /\
    _activity (obj w') = [].
Proof.
  intro w.
  apply (error_event_flushes_error_line repr_plain clock_fixed
           ex_error ex_error_payload None w); reflexivity.
Defined.

(** * Further properties of the code *)

(** ** What the extractor returns *)

Lemma py_len_nonneg {A} (l : list A) : 0 <= py_len l.
Proof. unfold py_len. lia. Qed.

Lemma ellipsize_str_bound (s : str) (n : Z) :
  0 <= n -> py_len (ellipsize_str s n) <= n + 3.
Proof.
  intros H. destruct (Z_gt_le_dec (py_len s) n) as [G|G].
  - destruct (ellipsize_str_spec s n H G) as [L _]. rewrite L.
    change (py_len (lit "...")) with 3. lia.
  - rewrite ellipsize_str_short by exact G. lia.
Qed.

Lemma ellipsize_str_nonempty (s : str) (n : Z) :
  s <> [] -> ellipsize_str s n <> [].
Proof.
  intros N. unfold ellipsize_str. destruct (py_len s >? n); [|exact N].
  intros E. apply app_eq_nil in E. destruct E as [_ E]. discriminate.
Qed.

Lemma extract_phrase_nonempty (repr_str : str -> str) (raw : dict) (a : str) :
  _extract_activity repr_str raw = Ok (Some a) -> a <> [].
Proof.
  unfold _extract_activity. cbv zeta.
  repeat match goal with
         | |- context [if eq_lit ?v ?s then _ else _] => destruct (eq_lit v s)
         | |- context [if in_lits ?v ?l then _ else _] =>
             destruct (in_lits v l)
         | |- context [if truthy ?v then _ else _] => destruct (truthy v)
         | |- context [match get ?r ?k with _ => _ end] => destruct (get r k)
         | |- context [rbind ?m _] => destruct m; cbn [rbind]
         | |- _ => progress cbv beta iota
         end;
    intros H; try discriminate; injection H as <-; intros E;
    try (apply app_eq_nil in E; destruct E as [E _]);
    vm_compute in E; discriminate.
Qed.

(** X1. The activity that [_extract_activity] returns is never the empty
    string: when it returns a phrase at all, the phrase is not empty, so the
    test [if activity] of [on_event] only tells [None] from a phrase. *)
Theorem extract_activity_never_empty
        (repr_str : str -> str) (raw : dict) (a : str) :
  _extract_activity repr_str raw = Ok (Some a) -> a <> [].
Proof. apply extract_phrase_nonempty. Qed.

Lemma extract_activity_never_empty_witness :
  _extract_activity repr_plain ex_started_payload
  = Ok (Some (lit "calling read_file...")) /\
  lit "calling read_file..." <> [].
Proof.
  split; [reflexivity|].
  apply (extract_activity_never_empty repr_plain ex_started_payload).
  reflexivity.
Defined.

(** Evaluate the tests the code makes on a literal event type. *)
Ltac lits_eval :=
  repeat match goal with
         | |- context [eq_lit (VStr (lit ?t)) ?s] =>
             eval_in_goal (eq_lit (VStr (lit t)) s)
         | |- context [in_lits (VStr (lit ?t)) ?l] =>
             eval_in_goal (in_lits (VStr (lit t)) l)
         end;
  cbv beta iota.

Lemma eq_lit_true (v : value) (s : string) :
  eq_lit v s = true -> v = VStr (lit s).
Proof.
  destruct v as [| | | |t| |]; try discriminate.
  simpl. intros H. apply str_eqb_eq in H. now subst.
Qed.

Lemma in_lits_true (v : value) (l : list string) :
  in_lits v l = true -> exists s, In s l /\ v = VStr (lit s).
Proof.
  unfold in_lits. intros H. apply existsb_exists in H.
  destruct H as [s [Hs H]]. exists s. split; [exact Hs|].
  now apply eq_lit_true.
Qed.

(** X2. For an exec.spawn event whose command is not a mapping, an activity
    the extractor returns starts with [running] and is at most 52 characters
    long: the prefix, at most 40 characters of the command (the first three
    words of a command list, joined) and the ellipsis. *)
Theorem spawn_activity_bounded
        (repr_str : str -> str) (raw : dict) (a : str) :
  eq_lit (etype_of raw) "exec.spawn" = true ->
  is_dict (py_or (get raw "command") (py_or (get raw "cmd") (VStr [])))
  = false ->
  _extract_activity repr_str raw = Ok (Some a) ->
  startswith a (lit "running") = true /\ py_len a <= 52.
Proof.
  intros Ht Hd. apply eq_lit_true in Ht. unfold etype_of in Ht.
  unfold _extract_activity. rewrite Ht. cbv zeta. lits_eval.
  destruct (py_or (get raw "command") (py_or (get raw "cmd") (VStr [])))
    as [|b|z|f|s|l|d]; try discriminate; cbn [rbind].
  - cbn. intros H. injection H as <-. split; [reflexivity|]. cbn. lia.
  - destruct b; cbn; intros H; try discriminate.
    injection H as <-. split; [reflexivity|]. cbn. lia.
  - cbn [truthy]. destruct (negb (z =? 0)); cbn; intros H; try discriminate.
    injection H as <-. split; [reflexivity|]. cbn. lia.
  - cbn [truthy]. destruct (float_truthy f); cbn; intros H; try discriminate.
    injection H as <-. split; [reflexivity|]. cbn. lia.
  - destruct (truthy (VStr s)); cbn [ellipsize rbind py_str]; intros H;
      injection H as <-; (split; [reflexivity|]).
    + pose proof (ellipsize_str_bound s 40).
      unfold py_len in *. cbn [length]. lia.
    + cbn. lia.
  - destruct (strs_of (slice_to l 3)) as [parts|e]; cbn [rbind];
      [|discriminate].
    destruct (truthy (VStr _)); cbn [ellipsize rbind py_str]; intros H;
      injection H as <-; (split; [reflexivity|]).
    + pose proof (ellipsize_str_bound (join (lit " ") parts) 40).
      unfold py_len in *. cbn [length]. lia.
    + cbn. lia.
Qed.

Lemma spawn_activity_bounded_witness :
  let raw := [(lit "type", VStr (lit "exec.spawn"));
              (lit "command", VStr (repeat 97%N 100))] in
  exists a,
    _extract_activity repr_plain raw = Ok (Some a) /\
    startswith a (lit "running") = true /\ py_len a <= 52.
Proof.
  intro raw.
  exists (lit "running: " ++ repeat 97%N 40 ++ lit "...").
  split; [reflexivity|].
  apply (spawn_activity_bounded repr_plain raw); reflexivity.
Defined.

(** Where the extractor needs a mapping. [content_block] and [delta] are
    read with a default that stands in for a missing key only: on an event
    of type content_block_start or message_delta that no item marker
    captures, a value that is present and is not a mapping, [None] and the
    empty string included, makes the extractor raise [AttributeError]. *)
Lemma extract_activity_needs_mapping (repr_str : str -> str) (raw : dict) :
  match get raw "item" with
  | VDict item => in_lits (py_or (get item "type") (VStr [])) item_markers
  | _ => false
  end = false ->
  (eq_lit (etype_of raw) "content_block_start" = true ->
   is_dict (get_or raw "content_block" (VDict [])) = false ->
   _extract_activity repr_str raw = Raise AttributeError) /\
  (eq_lit (etype_of raw) "message_delta" = true ->
   is_dict (get_or raw "delta" (VDict [])) = false ->
   _extract_activity repr_str raw = Raise AttributeError).
Proof.
  intros Hi.
  split; intros Ht Hd; apply eq_lit_true in Ht; unfold etype_of in Ht;
    unfold _extract_activity; rewrite Ht; cbv zeta; lits_eval;
    (destruct (get raw "item") as [| | | | | |item]; cbv beta iota;
     [..|unfold item_markers in Hi; lits_off Hi; cbv beta iota]);
    match goal with
    | Hd : is_dict ?v = false |- _ => destruct v; try discriminate Hd
    end;
    reflexivity.
Qed.

Lemma extract_activity_null_block_raises :
  _extract_activity repr_plain
    [(lit "type", VStr (lit "content_block_start"));
     (lit "content_block", VNone)] = Raise AttributeError /\
  _extract_activity repr_plain
    [(lit "type", VStr (lit "message_delta")); (lit "delta", VStr [])]
  = Raise AttributeError.
Proof.
  split.
  - apply (proj1 (extract_activity_needs_mapping repr_plain
                    [(lit "type", VStr (lit "content_block_start"));
                     (lit "content_block", VNone)] eq_refl));
      reflexivity.
  - apply (proj2 (extract_activity_needs_mapping repr_plain
                    [(lit "type", VStr (lit "message_delta"));
                     (lit "delta", VStr [])] eq_refl));
      reflexivity.
Qed.

(** ** Path components *)

Lemma split1_some (sep : char) (s a b : str) :
  split1 sep s = Some (a, b) -> s = a ++ sep :: b /\ ~ In sep a.
Proof.
  revert a b. induction s as [|c s IH]; intros a b; simpl; [discriminate|].
  destruct (N.eqb c sep) eqn:E.
  - apply N.eqb_eq in E. subst c. intros H. injection H as <- <-.
    split; [reflexivity|intros []].
  - destruct (split1 sep s) as [[a' b']|]; [|discriminate].
    intros H. injection H as <- <-.
    destruct (IH a' b' eq_refl) as [-> N]. split; [reflexivity|].
    intros [->|I]; [|now apply N].
    now rewrite N.eqb_refl in E.
Qed.

Lemma split1_none (sep : char) (s : str) :
  split1 sep s = None -> ~ In sep s.
Proof.
  induction s as [|c s IH]; simpl; [intros _ []|].
  destruct (N.eqb c sep) eqn:E; [discriminate|].
  destruct (split1 sep s) as [[a b]|]; [discriminate|].
  intros _ [->|I]; [now rewrite N.eqb_refl in E|now apply IH].
Qed.

(** What follows the last separator holds none, and what precedes it is
    empty or ends with the separator. *)
Lemma rsplit1_last_spec (sep : char) (s : str) :
  exists dir,
    s = dir ++ rsplit1_last sep s /\
    ~ In sep (rsplit1_last sep s) /\
    (dir = [] \/ exists d, dir = d ++ [sep]).
Proof.
  unfold rsplit1_last. destruct (split1 sep (rev s)) as [[a b]|] eqn:E.
  - destruct (split1_some _ _ _ _ E) as [R N].
    exists (rev b ++ [sep]). split; [|split].
    + rewrite <- (rev_involutive s), R, rev_app_distr. reflexivity.
    + intros I. apply N. now apply in_rev.
    + right. now exists (rev b).
  - exists []. split; [reflexivity|]. split; [|now left].
    intros I. apply (split1_none _ _ E). now apply in_rev in I.
Qed.

(** X3. For an event of a file kind whose path is a non-empty string, the
    extractor returns the verb of the kind followed by the last component of
    the path and an ellipsis: the path is a directory part, empty or ending
    with a slash, followed by the name shown, and the name shown holds no
    slash. *)
Theorem file_activity_names_last_component
        (repr_str : str -> str) (raw : dict) (ty : string) (p : str) :
  In ty file_types ->
  etype_of raw = VStr (lit ty) ->
  py_or (get raw "path") (py_or (get raw "file") (VStr [])) = VStr p ->
  p <> [] ->
  exists dir f,
    p = dir ++ f /\ ~ In chr_slash f /\
    (dir = [] \/ exists d, dir = d ++ [chr_slash]) /\
    _extract_activity repr_str raw
    = Ok (Some (file_verb ty ++ f ++ lit "...")).
Proof.
  intros Hty He Hp Hn. unfold etype_of in He.
  destruct (rsplit1_last_spec chr_slash p) as (dir & Ed & Nf & Hd).
  exists dir, (rsplit1_last chr_slash p).
  split; [exact Ed|]. split; [exact Nf|]. split; [exact Hd|].
  assert (T : truthy (VStr p) = true).
  { simpl. destruct (str_eqb p []) eqn:Q; [|reflexivity].
    apply str_eqb_eq in Q. contradiction. }
  unfold _extract_activity. rewrite He, Hp. cbv zeta.
  unfold file_types in Hty. simpl in Hty.
  repeat (destruct Hty as [<-|Hty];
          [lits_eval; rewrite T; reflexivity|]).
  contradiction.
Qed.

Lemma file_activity_names_last_component_witness :
  let raw := [(lit "type", VStr (lit "file.read"));
              (lit "path", VStr (lit "/a/b/main.go"))] in
  exists dir f,
    lit "/a/b/main.go" = dir ++ f /\ ~ In chr_slash f /\
    (dir = [] \/ exists d, dir = d ++ [chr_slash]) /\
    _extract_activity repr_plain raw
    = Ok (Some (file_verb "file.read" ++ f ++ lit "...")).
Proof.
  intro raw.
  apply (file_activity_names_last_component repr_plain raw "file.read"
           (lit "/a/b/main.go")).
  - simpl. auto.
  - reflexivity.
  - reflexivity.
  - discriminate.
Defined.

(** ** How long a summary can be *)

Lemma truncate_str_bound (s : str) (n : Z) :
  0 <= n -> py_len (truncate_str s n) <= n + 3.
Proof. apply ellipsize_str_bound. Qed.

Ltac len_bound :=
  repeat match goal with
         | |- context [truncate_str ?s ?n] =>
             lazymatch goal with
             | _ : py_len (truncate_str s n) <= _ |- _ => fail
             | _ => pose proof (truncate_str_bound s n ltac:(lia))
             end
         end;
  unfold py_len in *; cbn [length app lit map list_ascii_of_string] in *;
  rewrite ?length_app in *; cbn [length] in *; lia.

Ltac summary_done :=
  let H := fresh "H" in
  intros H; injection H as <-; eexists; split; [reflexivity|]; len_bound.

Ltac summary_binds :=
  repeat match goal with
         | |- rbind ?m _ = _ -> _ => destruct m; cbn [rbind]; [|discriminate]
         end.

(** X4. For an item of a reasoning, message, exec or shell type whose
    [summary] field is a string or absent, whatever the summarizer returns
    is a string of at most 63 characters, for every [max_len]: outside the
    tool-call branch the clipping limits are fixed and [max_len] is not
    read. *)
Theorem text_summary_bounded
        (repr_str : str -> str) (item : dict) (max_len : Z) (v : value) :
  in_lits (get_or item "type" (VStr [])) text_types = true ->
  str_or_falsy (get item "summary") = true ->
  _get_item_summary repr_str item max_len = Ok v ->
  exists s, v = VStr s /\ py_len s <= 63.
Proof.
  intros Hty Hs. apply in_lits_true in Hty. destruct Hty as (ty & Hty & E).
  unfold _get_item_summary. rewrite E. cbv zeta.
  unfold text_types in Hty. simpl in Hty.
  assert (Hs' : str_or_falsy (py_or (get item "summary") (VStr [])) = true)
    by (now apply str_or_falsy_or).
  repeat (destruct Hty as [<-|Hty]; [lits_eval|]); [..|contradiction].
  (* reasoning, thinking *)
  1,2: destruct (truthy (py_or (get item "summary") (VStr []))) eqn:T.
  1,3: destruct (str_or_falsy_truthy _ Hs' T) as [s ->];
    cbn [truncate ellipsize rbind py_str];
    change (ellipsize_str s 50) with (truncate_str s 50); summary_done.
  1,2: destruct (truthy (py_or (get item "text") (VStr [])));
    summary_binds; summary_done.
  (* messages, exec and the shell types *)
  all: match goal with
       | |- (if truthy ?t then _ else _) = _ -> _ => destruct (truthy t)
       end;
    summary_binds; summary_done.
Qed.

Lemma text_summary_bounded_witness :
  let item := [(lit "type", VStr (lit "exec"));
               (lit "command", VStr (repeat 97%N 100))] in
  exists s,
    _get_item_summary repr_plain item 5 = Ok (VStr s) /\ py_len s <= 63.
Proof.
  intro item.
  destruct (text_summary_bounded repr_plain item 5
              (VStr (lit "exec: " ++ repeat 97%N 50 ++ lit "..."))
              eq_refl eq_refl eq_refl) as (s & E & L).
  exists s. split; [|exact L]. rewrite <- E. reflexivity.
Defined.

(** X5. On an item of a tool-call type the summarizer never raises,
    whatever the types of the fields: it returns the name, which is never
    falsy, or, when an argument is shown, a string of at most [max_len]
    characters and the ellipsis. *)
Theorem tool_summary_never_raises
        (repr_str : str -> str) (item : dict) (max_len : Z) :
  in_lits (get_or item "type" (VStr []))
    ["tool_call"; "function_call"; "tool_use"] = true ->
  let name := py_or (get item "name")
                (py_or (get item "tool") (VStr (lit "tool"))) in
  truthy name = true /\
  exists v,
    _get_item_summary repr_str item max_len = Ok v /\
    (v = name \/
     exists s, v = VStr s /\ (0 <= max_len -> py_len s <= max_len + 3)).
Proof.
  intros Hty name. split.
  - unfold name. repeat apply py_or_truthy. reflexivity.
  - unfold _get_item_summary. rewrite Hty. cbv zeta. fold name.
    destruct (negb (str_eqb _ [])); eexists; (split; [reflexivity|]).
    + right. eexists. split; [reflexivity|]. apply truncate_str_bound.
    + now left.
Qed.

Lemma tool_summary_never_raises_witness :
  let item := [(lit "type", VStr (lit "tool_use"));
               (lit "name", VInt 7);
               (lit "input", VDict [(lit "cmd", VList [VInt 1; VNone])])] in
  truthy (VInt 7) = true /\
  exists v,
    _get_item_summary repr_plain item 4 = Ok v /\
    (v = VInt 7 \/ exists s, v = VStr s /\ (0 <= 4 -> py_len s <= 4 + 3)).
Proof.
  intro item.
  apply (tool_summary_never_raises repr_plain item 4). reflexivity.
Defined.

(** ** The fallback of the summarizer *)

Lemma nonempty_true (s : str) : negb (str_eqb s []) = true <-> s <> [].
Proof.
  rewrite negb_true_iff. split.
  - intros H E. apply str_eqb_eq in E. congruence.
  - intros H. destruct (str_eqb s []) eqn:E; [|reflexivity].
    apply str_eqb_eq in E. contradiction.
Qed.

Section Fallback.

Variable repr_str : str -> str.

Lemma scan_keys_bound (keys : list string) (d : dict) (r : str) :
  scan_keys repr_str keys d = Some r -> py_len r <= 48.
Proof.
  induction keys as [|k keys IH]; simpl; [discriminate|].
  destruct (get d k) as [| | | |[|c s]|[|x l]|]; try exact IH;
    intros H; injection H as <-; apply truncate_str_bound; lia.
Qed.

Lemma find_detail_levels_bound (levels : nat) (d : dict) :
  py_len (find_detail_levels repr_str levels d) <= 48.
Proof.
  revert d. induction levels as [|levels IH]; intros d; [cbn; lia|].
  cbn [find_detail_levels].
  destruct (scan_keys repr_str _ d) as [r|] eqn:E;
    [now apply scan_keys_bound in E|].
  clear E. induction d as [|[k v] d IHd]; [cbn; lia|].
  destruct v; try exact IHd.
  pose proof (IH d0) as B.
  destruct (find_detail_levels repr_str levels d0); [exact IHd|exact B].
Qed.

(** X6. The detail that [find_detail] digs out of an item is at most 48
    characters long, at every depth, and below the third level of nesting
    it is empty. *)
Theorem find_detail_bounded (d : dict) (depth : nat) :
  py_len (find_detail repr_str d depth) <= 48 /\
  ((2 < depth)%nat -> find_detail repr_str d depth = []).
Proof.
  split; [apply find_detail_levels_bound|].
  intros H. unfold find_detail.
  replace (3 - depth)%nat with 0%nat by lia. reflexivity.
Qed.

(** X7. On an item whose type is none of those the summarizer has a branch
    for, whatever the type of that field, the summarizer never raises: the
    fallback returns a value that is never falsy and whose text is at most
    50 characters longer than the text of the type. *)
Theorem fallback_summary_never_raises (item : dict) (max_len : Z) :
  in_lits (get_or item "type" (VStr [])) summary_types = false ->
  exists v,
    _get_item_summary repr_str item max_len = Ok v /\
    truthy v = true /\
    py_len (py_str repr_str v)
    <= py_len (py_str repr_str (get_or item "type" (VStr []))) + 50.
Proof.
  intros H. unfold _get_item_summary. cbv zeta. lits_off H.
  pose proof (find_detail_levels_bound 3 item) as B.
  change (find_detail_levels repr_str 3 item)
    with (find_detail repr_str item 0) in B.
  pose proof (py_len_nonneg
                (py_str repr_str (get_or item "type" (VStr [])))) as P.
  destruct (negb (str_eqb (find_detail repr_str item 0) [])) eqn:N.
  - destruct (truthy (get_or item "type" (VStr []))) eqn:T;
      eexists; (split; [reflexivity|]); cbn [truthy py_str]; split.
    + apply nonempty_true. intros Q.
      apply app_eq_nil in Q. destruct Q as [_ Q]. discriminate.
    + rewrite !py_len_app. change (py_len (lit ": ")) with 2. lia.
    + exact N.
    + lia.
  - unfold py_or. destruct (truthy (get_or item "type" (VStr []))) eqn:T;
      eexists; (split; [reflexivity|]); (split; [auto|]).
    + lia.
    + cbn. lia.
Qed.

End Fallback.

Lemma fallback_summary_never_raises_witness :
  let item := [(lit "type", VInt 3);
               (lit "call", VDict [(lit "cmd", VStr (lit "make"))])] in
  exists v,
    _get_item_summary repr_plain item 60 = Ok v /\
    truthy v = true /\
    py_len (py_str repr_plain v) <= py_len (py_str repr_plain (VInt 3)) + 50.
Proof.
  intro item.
  apply (fallback_summary_never_raises repr_plain item 60). reflexivity.
Defined.

Lemma find_detail_bounded_witness :
  let d := [(lit "call", VDict [(lit "cmd", VStr (repeat 97%N 60))])] in
  find_detail repr_plain d 0 = repeat 97%N 45 ++ lit "..." /\
  py_len (find_detail repr_plain d 0) <= 48 /\
  find_detail repr_plain d 3 = [].
Proof.
  intro d. split; [reflexivity|]. split.
  - apply (find_detail_bounded repr_plain d 0).
  - apply (find_detail_bounded repr_plain d 3). lia.
Defined.

(** ** Properties that every method preserves *)

Section Holds.

Variable P : world -> Prop.

Lemma holds_ret {A} (a : A) : holds P (ret a).
Proof. intros w H. exact H. Qed.

Lemma holds_lift {A} (r : result A) : holds P (lift r).
Proof. intros w H. exact H. Qed.

Lemma holds_self : holds P self.
Proof. intros w H. exact H. Qed.

Lemma holds_bind {A B} (m : M A) (k : A -> M B) :
  holds P m -> (forall a, holds P (k a)) -> holds P (bind m k).
Proof.
  intros Hm Hk w Hw. unfold bind. specialize (Hm w Hw).
  destruct (m w) as [[a|e] w']; simpl in *; [now apply Hk|assumption].
Qed.

(** Reading the object tells what the property tells about it. *)
Lemma holds_bind_self {B} (K : printer -> Prop) (k : printer -> M B) :
  (forall w, P w -> K (obj w)) ->
  (forall p, K p -> holds P (k p)) ->
  holds P (bind self k).
Proof. intros HK Hk w Hw. unfold bind, self. apply Hk; auto. Qed.

Lemma holds_when (b : bool) (m : M unit) : holds P m -> holds P (when b m).
Proof. intros H. destruct b; [exact H|apply holds_ret]. Qed.

Lemma holds_update (f : printer -> printer) :
  (forall w, P w -> P (mkWorld (f (obj w)) (out w) (clock w) (sched w))) ->
  holds P (update f).
Proof. intros H w Hw. now apply H. Qed.

Lemma holds_write (s : stream) (r : role) (t : str) :
  (forall w, P w ->
             P (mkWorld (obj w) (out w ++ [mkEntry s r t]) (clock w)
                        (sched w))) ->
  holds P (write s r t).
Proof. intros H w Hw. now apply H. Qed.

Variable elapsed_at : nat -> str.
Hypothesis P_env : env_free P.

Lemma holds_format_elapsed : holds P (_format_elapsed elapsed_at).
Proof. intros w H. now apply P_env. Qed.

Lemma holds_format_status_line : holds P (_format_status_line elapsed_at).
Proof.
  intros w H. destruct (format_status_line_run elapsed_at w) as [line ->].
  now apply P_env.
Qed.

Lemma holds_ticks (k : nat) :
  holds P (tick elapsed_at) -> holds P (ticks elapsed_at k).
Proof.
  intros H. induction k as [|k IH]; simpl; [apply holds_ret|].
  apply holds_bind; [exact H|intros _; exact IH].
Qed.

Lemma holds_yield : holds P (tick elapsed_at) -> holds P (yield elapsed_at).
Proof.
  intros H w Hw. unfold yield. destruct (sched w) as [|k rest]; [exact Hw|].
  apply holds_ticks; [exact H|]. now apply P_env.
Qed.

Lemma holds_locked {A} (m : M A) :
  holds P (tick elapsed_at) -> holds P m -> holds P (locked elapsed_at m).
Proof.
  intros Ht Hm. unfold locked.
  apply holds_bind; [now apply holds_yield|intros _; exact Hm].
Qed.

Lemma holds_flush_complete_lines (fuel : nat) :
  (forall rest, holds P (update (with_current_line rest))) ->
  (forall line, holds P (_flush_line elapsed_at line false)) ->
  holds P (flush_complete_lines elapsed_at fuel).
Proof.
  intros Hu Hf. induction fuel as [|fuel IH]; [apply holds_ret|]. simpl.
  apply holds_bind; [apply holds_self|intros p].
  destruct (split1 chr_nl (_current_line p)) as [[line rest]|];
    [|apply holds_ret].
  apply holds_bind; [apply Hu|intros _].
  apply holds_bind; [apply holds_when, Hf|intros _; exact IH].
Qed.

Lemma holds_summary_of (repr_str : str -> str) (item : value) :
  holds P (summary_of repr_str item).
Proof. destruct item; simpl; first [apply holds_ret|apply holds_lift]. Qed.

End Holds.

(** One step of a preservation proof: a fact at hand, a rule, the body of a
    method, or the case analysis the code makes. [kn] handles a read of the
    object, [side] the side condition of an update or a write. *)
Ltac holds_step kn side :=
  match goal with
  | H : holds ?P ?m |- holds ?P ?m => exact H
  | H : forall a, holds ?P _ |- holds ?P _ => apply H
  | H : forall a b, holds ?P _ |- holds ?P _ => apply H
  | H : forall a b c, holds ?P _ |- holds ?P _ => apply H
  | |- holds _ (ret _) => apply holds_ret
  | |- holds _ (lift _) => apply holds_lift
  | |- holds _ (bind self _) => kn
  | |- holds _ self => apply holds_self
  | |- holds _ (bind _ _) => apply holds_bind; [|intros ?]
  | |- holds _ (when _ _) => apply holds_when
  | |- holds _ (update _) => apply holds_update; side
  | |- holds _ (write _ _ _) => apply holds_write; side
  | |- holds _ (_format_elapsed _) => apply holds_format_elapsed
  | |- holds _ (_format_status_line _) => apply holds_format_status_line
  | |- holds _ (locked _ _) => apply holds_locked
  | |- holds _ (yield _) => apply holds_yield
  | |- env_free _ => side
  | |- holds _ (ticks _ _) => apply holds_ticks
  | |- holds _ (flush_complete_lines _ _) =>
      apply holds_flush_complete_lines; [intros ?|intros ?]
  | |- holds _ (summary_of _ _) => apply holds_summary_of
  | |- holds _ (tick _) => unfold tick
  | |- holds _ (_write_status_line _) => unfold _write_status_line
  | |- holds _ (_flush_line _ _ _) => unfold _flush_line
  | |- holds _ (_update_streaming _ _) => unfold _update_streaming
  | |- holds _ (set_status _ _) => unfold set_status
  | |- holds _ (set_activity _ _) => unfold set_activity
  | |- holds _ close_open_line => unfold close_open_line
  | |- holds _ (_log_item_started _ _ _) => unfold _log_item_started
  | |- holds _ (_log_item_completed _ _ _) => unfold _log_item_completed
  | |- holds _ (_log_turn_event _ _) => unfold _log_turn_event
  | |- holds _ (_log_claude_tool_use _ _ _) => unfold _log_claude_tool_use
  | |- holds _ (_log_claude_tool_result _ _) =>
      unfold _log_claude_tool_result
  | |- holds _ (_log_event_brief _ _ _ _ _) => unfold _log_event_brief
  | |- holds _ (if ?b then _ else _) => destruct b
  | |- holds _ (match ?x with _ => _ end) => destruct x
  end.

Ltac holds_auto kn side := repeat holds_step kn side.

(** The loop over the tool uses of a message. *)
Ltac holds_tool_use_items kn side :=
  let content := fresh "content" in
  let item := fresh "item" in
  let IH := fresh "IH" in
  intros content;
  induction content as [|item content IH]; [apply holds_ret|];
  destruct item; cbn [tool_use_items]; try exact IH;
  apply holds_bind; [|intros _; exact IH];
  holds_auto kn side.

(** The methods a run is made of, one goal each. *)
Ltac split_methods :=
  repeat match goal with
         | |- _ /\ _ => split
         end;
  intros;
  try unfold start; try unfold on_event; try unfold done.

(** ** Where the writes go *)

Lemma clip_status_bound (line : str) : py_len (clip_status line) <= 80.
Proof.
  destruct (Z_gt_le_dec (py_len line) 80) as [G|G].
  - destruct (clip_status_spec line G) as [L _]. lia.
  - unfold clip_status. cbv zeta.
    destruct (py_len line >? 80) eqn:E; [|exact G].
    rewrite Z.gtb_ltb, Z.ltb_lt in E. lia.
Qed.

Lemma routed_env (tty : bool) : env_free (routed tty).
Proof. intros w c s H. exact H. Qed.

Lemma startswith_app (p x : str) : startswith (p ++ x) p = true.
Proof.
  induction p as [|c p IH]; [now destruct x|].
  simpl. now rewrite N.eqb_refl, IH.
Qed.

(** The entry a write adds is allowed: by evaluation, after the case
    analysis the text needs. *)
Ltac routed_entry :=
  first
    [ reflexivity
    | rewrite startswith_app; reflexivity
    | match goal with
      | |- context [if ?c then _ else _] => destruct c
      end;
      routed_entry ].

Ltac routed_side :=
  idtac;
  let w := fresh "w" in
  let T := fresh "T" in
  let O := fresh "O" in
  first
    [ apply routed_env
    | intros w [T O]; split;
      [exact T
      |cbn [out]; rewrite ?forallb_app, ?O;
       cbn [forallb entry_ok e_role e_stream e_text is_stderr andb];
       routed_entry] ].

Ltac routed_known tty :=
  idtac;
  let w := fresh "w" in
  let H := fresh "H" in
  let p := fresh "p" in
  let Kp := fresh "Kp" in
  apply (holds_bind_self _ (fun p => _is_tty p = tty));
  [intros w [H _]; exact H
  |intros p Kp; cbv delta [tty_prefix]; cbv beta; rewrite ?Kp;
   cbn [negb andb orb when]; cbv beta iota].

Section Routing.

Variable repr_str : str -> str.
Variable elapsed_at : nat -> str.

Lemma routed_write_status_line (tty : bool) :
  holds (routed tty) (_write_status_line elapsed_at).
Proof.
  intros w [T O]. unfold _write_status_line, bind at 1, self.
  rewrite T. destruct tty; [|split; assumption]. cbn [negb].
  destruct (_item_line_open (obj w)); [split; assumption|].
  unfold bind. destruct (format_status_line_run elapsed_at w) as [line ->].
  split; [exact T|]. cbn [snd write out]. rewrite forallb_app, O.
  cbn [forallb entry_ok e_role e_stream e_text is_stderr andb].
  rewrite andb_true_r. apply Z.leb_le.
  rewrite py_len_app. pose proof (clip_status_bound line).
  change (py_len clear_line) with 4. lia.
Qed.

Lemma routed_tool_use_items (tty : bool) :
  forall content,
    holds (routed tty) (tool_use_items repr_str elapsed_at content).
Proof.
  pose proof (routed_write_status_line tty).
  destruct tty;
    [holds_tool_use_items ltac:(routed_known true) routed_side
    |holds_tool_use_items ltac:(routed_known false) routed_side].
Qed.

Lemma routed_methods (tty : bool) :
  (forall label, holds (routed tty) (start elapsed_at label)) /\
  (forall event, holds (routed tty) (on_event repr_str elapsed_at event)) /\
  (forall status, holds (routed tty) (set_status elapsed_at status)) /\
  (forall activity, holds (routed tty) (set_activity elapsed_at activity)) /\
  holds (routed tty) (tick elapsed_at) /\
  (forall status elapsed_s,
      holds (routed tty) (done elapsed_at status elapsed_s)).
Proof.
  pose proof (routed_write_status_line tty).
  pose proof (routed_tool_use_items tty).
  destruct tty.
  - split_methods; holds_auto ltac:(routed_known true) routed_side.
  - split_methods; holds_auto ltac:(routed_known false) routed_side.
Qed.

End Routing.

Section RoutedRuns.

Variable repr_str : str -> str.
Variable elapsed_at : nat -> str.

Lemma reach_routed (ph : phase) (w : world) :
  reach repr_str elapsed_at ph w -> routed (_is_tty (obj w)) w.
Proof.
  induction 1 as [st tty schedule|w label R IH|w event R IH|ph w status R IH
                 |ph w activity R IH|ph w R IH|w status elapsed_s R IH];
    [split; reflexivity|..];
    destruct (routed_methods repr_str elapsed_at (_is_tty (obj w)))
      as (Hs & He & Ht & Ha & Hk & Hd).
  - destruct (Hs label w IH) as [T O]. split; [reflexivity|now rewrite T].
  - destruct (He event w IH) as [T O]. split; [reflexivity|now rewrite T].
  - destruct (Ht status w IH) as [T O]. split; [reflexivity|now rewrite T].
  - destruct (Ha activity w IH) as [T O]. split; [reflexivity|now rewrite T].
  - destruct (Hk w IH) as [T O]. split; [reflexivity|now rewrite T].
  - destruct (Hd status elapsed_s w IH) as [T O].
    split; [reflexivity|now rewrite T].
Qed.

Lemma reach_entry_ok (ph : phase) (w : world) (e : entry) :
  reach repr_str elapsed_at ph w -> In e (out w) ->
  entry_ok (_is_tty (obj w)) e = true.
Proof.
  intros R I. destruct (reach_routed ph w R) as [_ O].
  rewrite forallb_forall in O. now apply O.
Qed.

(** X8. In every world a run reaches, whatever was written to standard
    output is the text or the closing line feed of a content line, and the
    printer is not on a terminal: status draws, item lines, turn markers,
    the banner, brief lines and the final summary all go to the error
    stream. *)
Theorem standard_output_carries_only_content
        (ph : phase) (w : world) (e : entry) :
  reach repr_str elapsed_at ph w -> In e (out w) ->
  e_stream e = Stdout ->
  _is_tty (obj w) = false /\ (e_role e = Content \/ e_role e = ContentEnd).
Proof.
  intros R I S. pose proof (reach_entry_ok ph w e R I) as E.
  unfold entry_ok in E. rewrite S in E.
  destruct (e_role e), (_is_tty (obj w)); simpl in E;
    try discriminate; auto.
Qed.

(** X9. In every world a run reaches: a status draw or a bare clear
    sequence was written only on a terminal, and a status draw is at most 84
    characters long (the four of the clear sequence and at most 80 columns
    of text); the banner and the brief lines were written only off a
    terminal; and an item line, a standalone completed line or a turn marker
    starts with the clear sequence exactly when the printer is on a
    terminal. *)
Theorem control_sequences_follow_terminal
        (ph : phase) (w : world) (e : entry) :
  reach repr_str elapsed_at ph w -> In e (out w) ->
  (e_role e = Status \/ e_role e = Clear -> _is_tty (obj w) = true) /\
  (e_role e = Status -> py_len (e_text e) <= 84) /\
  (e_role e = Banner \/ e_role e = Brief -> _is_tty (obj w) = false) /\
  (e_role e = ItemOpen \/ e_role e = ItemAlone \/ e_role e = Turn ->
   startswith (e_text e) clear_line = _is_tty (obj w)).
Proof.
  intros R I. pose proof (reach_entry_ok ph w e R I) as E.
  unfold entry_ok in E.
  split; [|split; [|split]].
  - intros [Q|Q]; rewrite Q in E; now destruct (_is_tty (obj w)).
  - intros Q. rewrite Q in E.
    apply andb_prop in E. destruct E as [_ E]. now apply Z.leb_le.
  - intros [Q|Q]; rewrite Q in E; now destruct (_is_tty (obj w)).
  - intros [Q|[Q|Q]]; rewrite Q in E;
      apply andb_prop in E; destruct E as [_ E];
      now apply Bool.eqb_prop in E.
Qed.

End RoutedRuns.

Lemma standard_output_carries_only_content_witness :
  let w :=
    snd (on_event repr_plain clock_fixed ex_text
           (snd (start clock_fixed (lit "build") (fresh true false []))))
  in
  let e := mkEntry Stdout Content (lit "hi") in
  In e (out w) /\
  _is_tty (obj w) = false /\ (e_role e = Content \/ e_role e = ContentEnd).
Proof.
  intros w e.
  assert (I : In e (out w)) by (vm_compute; auto).
  assert (R : reach repr_plain clock_fixed Running w)
    by (apply reach_event; apply reach_start; apply reach_fresh).
  split; [exact I|].
  apply (standard_output_carries_only_content repr_plain clock_fixed
           Running w e R I).
  reflexivity.
Defined.

Lemma control_sequences_follow_terminal_witness :
  let w :=
    snd (on_event repr_plain clock_fixed ex_started
           (snd (start clock_fixed (lit "build")
                   (fresh true true [1; 0; 2]%nat))))
  in
  let e := last (out w) (mkEntry Stdout Final []) in
  e_role e = ItemOpen /\ In e (out w) /\
  (e_role e = Status \/ e_role e = Clear -> _is_tty (obj w) = true) /\
  (e_role e = Status -> py_len (e_text e) <= 84) /\
  (e_role e = Banner \/ e_role e = Brief -> _is_tty (obj w) = false) /\
  (e_role e = ItemOpen \/ e_role e = ItemAlone \/ e_role e = Turn ->
   startswith (e_text e) clear_line = _is_tty (obj w)).
Proof.
  intros w e.
  assert (I : In e (out w)) by (vm_compute; auto 10).
  assert (R : reach repr_plain clock_fixed Running w)
    by (apply reach_event; apply reach_start; apply reach_fresh).
  split; [reflexivity|]. split; [exact I|].
  apply (control_sequences_follow_terminal repr_plain clock_fixed
           Running w e R I).
Defined.

(** ** What an event leaves alone *)

(** Side conditions of properties of the object that an update leaves
    untouched. *)
Ltac frame_side :=
  idtac;
  let H := fresh "H" in
  first [intros ? ? ? H; exact H|intros ? H; exact H].

Ltac frame_known :=
  idtac; apply holds_bind; [apply holds_self|intros ?].

Ltac frame_auto := holds_auto frame_known frame_side.

Section Frame.

Variable repr_str : str -> str.
Variable elapsed_at : nat -> str.

Lemma run_fields_kept (x : bool * str * bool * bool * bool) (n : Z) :
  let P := fun w => _event_count (obj w) = n /\ run_fields (obj w) = x in
  (forall content, holds P (tool_use_items repr_str elapsed_at content)) /\
  (forall status, holds P (set_status elapsed_at status)) /\
  (forall activity, holds P (set_activity elapsed_at activity)) /\
  holds P (tick elapsed_at).
Proof.
  intros P. subst P. split; [|split_methods; frame_auto].
  holds_tool_use_items frame_known frame_side.
Qed.

(** X10. Handling an event, whether it returns or raises, counts the event
    exactly once and leaves the mode, the label, the kind of device and the
    two flags of the ticker as they were: no event stops or restarts the
    printer. *)
Theorem event_counts_once_and_keeps_run_fields (event : dict) (w : world) :
  let w' := snd (on_event repr_str elapsed_at event w) in
  _event_count (obj w') = _event_count (obj w) + 1 /\
  run_fields (obj w') = run_fields (obj w).
Proof.
  intros w'. subst w'. unfold on_event.
  destruct (yield_run elapsed_at w) as (w1 & E & [[i Hi] _]).
  match goal with
  | |- context [bind (yield elapsed_at) ?k w] =>
      pose proof (run_known _ k _ _ _ E) as R; rewrite R; clear R
  end.
  mrun.
  match goal with
  | |- context [snd (?k ?w2)] =>
      assert (Hk : holds (fun w => _event_count (obj w) = _event_count (obj w2)
                                   /\ run_fields (obj w) = run_fields (obj w2))
                     k);
      [|destruct (Hk w2 (conj eq_refl eq_refl)) as [C F]; rewrite C, F]
  end.
  - match goal with
    | |- holds (fun w => _ = ?n /\ _ = ?x) _ =>
        destruct (run_fields_kept x n) as (Hu & Hs & Ha & Ht)
    end.
    frame_auto.
  - cbn [obj]. rewrite Hi. split; reflexivity.
Qed.


Lemma run_fields_of_event (event : dict) (w : world) :
  run_fields (obj (snd (on_event repr_str elapsed_at event w)))
  = run_fields (obj w).
Proof.
  pose proof (run_fields_kept (run_fields (obj w)) 0) as (Hu & Hs & Ha & Ht).
  assert (H : holds (fun w0 => run_fields (obj w0) = run_fields (obj w))
                (on_event repr_str elapsed_at event)).
  { unfold on_event.
    assert (Hu' : forall content,
               holds (fun w0 => run_fields (obj w0) = run_fields (obj w))
                 (tool_use_items repr_str elapsed_at content))
      by (holds_tool_use_items frame_known frame_side).
    clear Hu Hs Ha Ht. frame_auto. }
  now apply H.
Qed.

Lemma run_fields_of_methods (w : world) :
  (forall status,
      run_fields (obj (snd (set_status elapsed_at status w)))
      = run_fields (obj w)) /\
  (forall activity,
      run_fields (obj (snd (set_activity elapsed_at activity w)))
      = run_fields (obj w)) /\
  run_fields (obj (snd (tick elapsed_at w))) = run_fields (obj w).
Proof.
  split; [|split]; intros;
    match goal with
    | |- run_fields (obj (snd (?m w))) = _ =>
        assert (H : holds (fun w0 => run_fields (obj w0) = run_fields (obj w))
                      m) by frame_auto;
        now apply H
    end.
Qed.

Lemma tick_idle (w : world) :
  _running (obj w) = false -> tick elapsed_at w = (Ok tt, w).
Proof.
  intros H. unfold tick. mrun. rewrite H, andb_false_r. reflexivity.
Qed.

Lemma ticks_idle (k : nat) (w : world) :
  _running (obj w) = false -> ticks elapsed_at k w = (Ok tt, w).
Proof.
  intros H. induction k as [|k IH]; [reflexivity|].
  cbn [ticks]. unfold bind. rewrite tick_idle by exact H. exact IH.
Qed.

Lemma reach_run_flags (ph : phase) (w : world) :
  reach repr_str elapsed_at ph w ->
  _running (obj w) = run_flag ph /\
  _spinner_thread (obj w) = run_flag ph && _is_tty (obj w).
Proof.
  induction 1 as [st tty schedule|w label R IH|w event R IH|ph w status R IH
                 |ph w activity R IH|ph w R IH|w status elapsed_s R IH].
  - split; reflexivity.
  - destruct IH as [_ IH]. cbn [run_flag andb] in IH |- *.
    unfold start. mrun. cbn [_is_tty]. destruct (_is_tty (obj w)) eqn:T.
    + match goal with
      | |- context [bind (_write_status_line elapsed_at) ?k ?w0] =>
          destruct (write_status_line_run elapsed_at w0) as (w1 & E & Ho & _);
          pose proof (run_known _ k _ _ _ E) as Q; rewrite Q; clear Q
      end.
      unfold update. cbn [snd obj]. rewrite Ho. cbn. rewrite ?T. now split.
    + unfold write. cbn. rewrite ?T. now split.
  - pose proof (run_fields_of_event event w) as F.
    unfold run_fields in F. injection F as _ _ -> -> ->. exact IH.
  - destruct (run_fields_of_methods w) as (F & _ & _). specialize (F status).
    unfold run_fields in F. injection F as _ _ -> -> ->. exact IH.
  - destruct (run_fields_of_methods w) as (_ & F & _).
    specialize (F activity).
    unfold run_fields in F. injection F as _ _ -> -> ->. exact IH.
  - destruct (run_fields_of_methods w) as (_ & _ & F).
    unfold run_fields in F. injection F as _ _ -> -> ->. exact IH.
  - cbn [run_flag andb]. unfold done. mrun.
    match goal with
    | |- context [snd (?k ?w2)] =>
        assert (Hk : holds (fun w0 => run_fields (obj w0)
                                      = run_fields (obj w2)) k)
          by frame_auto;
        pose proof (Hk w2 eq_refl) as F
    end.
    unfold run_fields in F. injection F as _ _ _ F1 F2.
    split; [exact F1|exact F2].
Qed.

(** X11. In every world a run reaches, the flag [_running] is set exactly
    during a run, and the ticker thread exists exactly during a run on a
    terminal; between runs (before the first [start] and after [done]) no
    number of turns of the ticker changes the printer or writes anything. *)
Theorem ticker_works_only_during_a_run (ph : phase) (w : world) :
  reach repr_str elapsed_at ph w ->
  _running (obj w) = run_flag ph /\
  _spinner_thread (obj w) = run_flag ph && _is_tty (obj w) /\
  (ph = Idle -> forall k, ticks elapsed_at k w = (Ok tt, w)).
Proof.
  intros R. destruct (reach_run_flags ph w R) as [H1 H2].
  split; [exact H1|]. split; [exact H2|].
  intros -> k. now apply ticks_idle.
Qed.

End Frame.

Lemma ticker_works_only_during_a_run_witness :
  let w :=
    snd (done clock_fixed (lit "success") (lit "1.5")
           (snd (on_event repr_plain clock_fixed ex_started
                   (snd (start clock_fixed (lit "build")
                           (fresh true true [1; 0; 2]%nat))))))
  in
  _running (obj w) = false /\
  _spinner_thread (obj w) = false /\
  ticks clock_fixed 3 w = (Ok tt, w).
Proof.
  intro w.
  assert (R : reach repr_plain clock_fixed Idle w)
    by (apply reach_done; apply reach_event; apply reach_start;
        apply reach_fresh).
  destruct (ticker_works_only_during_a_run repr_plain clock_fixed Idle w R)
    as (H1 & H2 & H3).
  split; [exact H1|]. split; [exact H2|]. now apply H3.
Defined.

(** ** The activity and its history *)

Lemma nonempty_cons (c : char) (s : str) : nonempty (c :: s) = true.
Proof. apply nonempty_true. discriminate. Qed.

Lemma last_in {A} (l : list A) (d : A) : l <> [] -> In (last l d) l.
Proof.
  induction l as [|x l IH]; [congruence|]. intros _.
  destruct l as [|y l]; [now left|].
  right. apply IH. discriminate.
Qed.

Lemma track_new (a : str) (ra : list str) :
  a <> [] -> (ra = [] \/ last ra [] <> a) ->
  track a ra = if py_len ra >=? 10 then tl ra ++ [a] else ra ++ [a].
Proof.
  intros Ha Hn. unfold track.
  assert (C : nonempty a &&
              match ra with
              | [] => true
              | _ => negb (str_eqb (last ra []) a)
              end = true).
  { apply andb_true_intro. split; [now apply nonempty_true|].
    destruct ra as [|x ra]; [reflexivity|].
    destruct Hn as [Hn|Hn]; [discriminate|].
    apply negb_true_iff. destruct (str_eqb _ a) eqn:E; [|reflexivity].
    apply str_eqb_eq in E. contradiction. }
  rewrite C. rewrite py_len_app. change (py_len [a]) with 1.
  destruct (py_len ra >=? 10) eqn:G.
  - assert (G' : (py_len ra + 1 >? 10) = true)
      by (rewrite Z.gtb_ltb, Z.ltb_lt; rewrite Z.geb_leb, Z.leb_le in G; lia).
    rewrite G'. destruct ra as [|x ra]; [discriminate|reflexivity].
  - assert (G' : (py_len ra + 1 >? 10) = false)
      by (rewrite Z.gtb_ltb, Z.ltb_ge; rewrite Z.geb_leb, Z.leb_gt in G; lia).
    now rewrite G'.
Qed.

Lemma last_track (a : str) (ra : list str) :
  a <> [] -> last (track a ra) [] = a.
Proof.
  intros Ha.
  destruct (list_eq_dec N.eq_dec (last ra []) a) as [E|E].
  - destruct ra as [|x ra']; [cbn in E; congruence|].
    unfold track. cbv beta iota. rewrite E, str_eqb_refl.
    cbn [negb]. rewrite andb_false_r. exact E.
  - rewrite track_new by auto.
    destruct (py_len ra >=? 10); apply last_last.
Qed.

Section ActivityLink.

Variable repr_str : str -> str.
Variable elapsed_at : nat -> str.

Lemma linked_set_activity (activity : str) :
  holds activity_linked (set_activity elapsed_at activity).
Proof.
  intros w _.
  destruct (set_activity_run elapsed_at activity w) as (w' & E & [i Ho] & _).
  rewrite E. cbn [snd]. unfold activity_linked. rewrite Ho. cbn.
  destruct activity as [|c a]; [now left|].
  right. apply last_track. discriminate.
Qed.

Ltac linked_side :=
  idtac;
  first [frame_side|intros ? ?; left; reflexivity].

Lemma linked_methods :
  (forall label, holds activity_linked (start elapsed_at label)) /\
  (forall event,
      holds activity_linked (on_event repr_str elapsed_at event)) /\
  (forall status, holds activity_linked (set_status elapsed_at status)) /\
  holds activity_linked (tick elapsed_at) /\
  (forall status elapsed_s,
      holds activity_linked (done elapsed_at status elapsed_s)).
Proof.
  pose proof linked_set_activity.
  assert (forall content,
             holds activity_linked
               (tool_use_items repr_str elapsed_at content))
    by (holds_tool_use_items frame_known frame_side).
  split_methods; holds_auto frame_known linked_side.
Qed.

Lemma reach_linked (ph : phase) (w : world) :
  reach repr_str elapsed_at ph w -> activity_linked w.
Proof.
  destruct linked_methods as (Hs & He & Ht & Hk & Hd).
  induction 1; [now left|..]; auto using linked_set_activity.
  - now apply Hs.
  - now apply He.
  - now apply Ht.
  - now apply linked_set_activity.
  - now apply Hd.
Qed.

(** X12. In every world a run reaches, the current activity, when there is
    one, is the newest entry of the history of recent activities. *)
Theorem current_activity_is_newest_in_history (ph : phase) (w : world) :
  reach repr_str elapsed_at ph w ->
  _activity (obj w) <> [] ->
  last (_recent_activities (obj w)) [] = _activity (obj w) /\
  In (_activity (obj w)) (_recent_activities (obj w)).
Proof.
  intros R N. destruct (reach_linked ph w R) as [E|E]; [contradiction|].
  split; [exact E|]. rewrite <- E. apply last_in.
  intros Q. rewrite Q in E. cbn in E. congruence.
Qed.

(** X13. A call of [set_activity] with a non-empty activity that differs
    from the newest entry of the history appends it; when the history
    already holds ten entries (or more), the oldest is dropped. *)
Theorem new_activity_is_appended (activity : str) (w : world) :
  activity <> [] ->
  _recent_activities (obj w) = [] \/
  last (_recent_activities (obj w)) [] <> activity ->
  _recent_activities (obj (snd (set_activity elapsed_at activity w)))
  = if py_len (_recent_activities (obj w)) >=? 10
    then tl (_recent_activities (obj w)) ++ [activity]
    else _recent_activities (obj w) ++ [activity].
Proof.
  intros Ha Hn.
  destruct (set_activity_run elapsed_at activity w) as (w' & E & [i Ho] & _).
  rewrite E. cbn [snd]. rewrite Ho. cbn. now apply track_new.
Qed.

End ActivityLink.

Lemma current_activity_is_newest_in_history_witness :
  let w :=
    snd (on_event repr_plain clock_fixed ex_started
           (snd (start clock_fixed (lit "build") (fresh true false []))))
  in
  _activity (obj w) = lit "calling read_file..." /\
  last (_recent_activities (obj w)) [] = _activity (obj w) /\
  In (_activity (obj w)) (_recent_activities (obj w)).
Proof.
  intro w.
  assert (A : _activity (obj w) = lit "calling read_file...")
    by (vm_compute; reflexivity).
  assert (R : reach repr_plain clock_fixed Running w)
    by (apply reach_event; apply reach_start; apply reach_fresh).
  split; [exact A|].
  apply (current_activity_is_newest_in_history repr_plain clock_fixed
           Running w R).
  rewrite A. discriminate.
Defined.

Lemma new_activity_is_appended_witness :
  let w := fresh true false [] in
  _recent_activities
    (obj (snd (set_activity clock_fixed (lit "thinking...") w)))
  = [lit "thinking..."].
Proof.
  intro w.
  apply (new_activity_is_appended clock_fixed (lit "thinking...") w).
  - discriminate.
  - now left.
Defined.

(** ** An event with an activity leaves the status alone *)

Ltac shown_known a :=
  idtac;
  let w := fresh "w" in
  let H := fresh "H" in
  let p := fresh "p" in
  let Kp := fresh "Kp" in
  apply (holds_bind_self _ (fun p => _activity p = a));
  [intros w [_ H]; exact H
  |intros p Kp; rewrite ?Kp, ?nonempty_cons; cbn [negb when];
   cbv beta iota].

Section ShownActivity.

Variable repr_str : str -> str.
Variable elapsed_at : nat -> str.

(** X14. When the extractor finds an activity in the payload of an event
    that is not of kind error, then after the event, whether its handling
    returns or raises, the activity shown is the one extracted and the
    status is what it was before: the status updates of [on_event] apply
    only while no activity is shown. *)
Theorem recognized_event_keeps_status
        (event pl : dict) (a : str) (w : world) :
  get_or event "payload" (VDict []) = VDict pl ->
  _extract_activity repr_str pl = Ok (Some a) ->
  eq_lit (get event "type") "error" = false ->
  let w' := snd (on_event repr_str elapsed_at event w) in
  _activity (obj w') = a /\ _status (obj w') = _status (obj w).
Proof.
  intros Hp He Hn w'. subst w'.
  pose proof (extract_phrase_nonempty _ _ _ He) as Na.
  destruct a as [|c a]; [congruence|]. clear Na.
  unfold on_event. rewrite Hp, Hn. cbv zeta.
  destruct (yield_run elapsed_at w) as (w1 & E & [[i Hi] _]).
  match goal with
  | |- context [bind (yield elapsed_at) ?k w] =>
      pose proof (run_known _ k _ _ _ E) as R; rewrite R; clear R
  end.
  mrun. rewrite He. mrun.
  match goal with
  | |- context [bind (set_activity elapsed_at ?x) ?k ?w0] =>
      destruct (set_activity_run elapsed_at x w0) as (w2 & E2 & [j Hj] & _);
      pose proof (run_known _ k _ _ _ E2) as R; rewrite R; clear R
  end.
  mrun.
  match goal with
  | |- context [snd (?k ?w0)] =>
      assert (Hk : holds (fun w => _status (obj w) = _status (obj w0) /\
                                   _activity (obj w) = c :: a) k)
  end.
  { assert (forall content,
               holds (fun w => _status (obj w) = _status (obj w2) /\
                               _activity (obj w) = c :: a)
                 (tool_use_items repr_str elapsed_at content))
      by (holds_tool_use_items frame_known frame_side).
    holds_auto ltac:(shown_known (c :: a)) frame_side. }
  assert (A2 : _activity (obj w2) = c :: a) by (rewrite Hj; reflexivity).
  destruct (Hk w2 (conj eq_refl A2)) as [S A].
  split; [exact A|]. rewrite S, Hj. cbn. rewrite Hi. reflexivity.
Qed.

End ShownActivity.

Lemma recognized_event_keeps_status_witness :
  let w := snd (start clock_fixed (lit "build") (fresh true false [])) in
  let w' := snd (on_event repr_plain clock_fixed ex_started w) in
  _activity (obj w') = lit "calling read_file..." /\
  _status (obj w') = _status (obj w).
Proof.
  intro w.
  apply (recognized_event_keeps_status repr_plain clock_fixed
           ex_started ex_started_payload (lit "calling read_file...") w);
    reflexivity.
Defined.

(** ** Splitting into lines *)









(** ** Streaming, for every text *)

Section StreamingRuns.

Variable elapsed_at : nat -> str.





End StreamingRuns.

(** ** Turn markers and tool results *)

Section Markers.

Variable elapsed_at : nat -> str.

Lemma log_turn_event_run (etype : value) (w : world) :
  exists w',
    _log_turn_event elapsed_at etype w = (Ok tt, w') /\
    permanent (out w')
    = permanent (out w) ++
      (if _item_line_open (obj w)
       then [mkEntry Stderr ItemBreak nl] else []) ++
      [mkEntry Stderr Turn
         (tty_prefix (obj w) ++ lit "[" ++ elapsed_at (clock w) ++ lit "] " ++
          (if eq_lit etype "turn.started"
           then glyph_rule4 ++ lit " turn started " ++ glyph_rule4
           else glyph_rule4 ++ lit " turn completed " ++ glyph_rule4) ++
          nl)] /\
    _item_line_open (obj w') = false /\
    _has_content (obj w') = true /\
    exists i,
      obj w' = with_spinner_idx i
                 (with_has_content true
                    (with_item_line_open false (obj w))).
Proof.
  unfold _log_turn_event. mrun. unfold locked. mrun.
  match goal with
  | |- context [bind (yield elapsed_at) ?k ?w0] =>
      destruct (yield_run elapsed_at w0) as (w1 & E & [[i Hi] Hp]);
      rewrite (run_known _ k _ _ _ E)
  end.
  cbn [obj out] in Hi, Hp.
  unfold close_open_line. mrun. rewrite Hi.
  cbn [obj _item_line_open _is_tty with_spinner_idx tty_prefix].
  destruct (_item_line_open (obj w)) eqn:F; unfold when; mrun;
    (eexists; split; [reflexivity|]);
    cbn [obj out]; rewrite ?Hi;
    cbn [_item_line_open _is_tty _has_content with_spinner_idx
         with_item_line_open with_has_content tty_prefix];
    rewrite ?permanent_snoc, Hp; cbn [is_status e_role negb];
    rewrite <- ?app_assoc; rewrite ?F;
    (split; [reflexivity|]); (split; [reflexivity|]);
    (split; [reflexivity|]); exists i; destruct (obj w); cbn in *;
    rewrite ?F; reflexivity.
Qed.

(** X17. A turn event never raises, under every schedule of the ticker: it
    closes an item line left open with a line feed, then writes the marker
    line (turn started for that event type, turn completed for every other)
    with the elapsed time, and leaves no item line open. Status redraws
    aside, nothing else is written. *)
Theorem turn_marker_closes_open_line (etype : value) (w : world) :
  exists w',
    _log_turn_event elapsed_at etype w = (Ok tt, w') /\
    permanent (out w')
    = permanent (out w) ++
      (if _item_line_open (obj w)
       then [mkEntry Stderr ItemBreak nl] else []) ++
      [mkEntry Stderr Turn
         (tty_prefix (obj w) ++ lit "[" ++ elapsed_at (clock w) ++ lit "] " ++
          (if eq_lit etype "turn.started"
           then glyph_rule4 ++ lit " turn started " ++ glyph_rule4
           else glyph_rule4 ++ lit " turn completed " ++ glyph_rule4) ++
          nl)] /\
    _item_line_open (obj w') = false /\
    _has_content (obj w') = true /\
    exists i,
      obj w' = with_spinner_idx i
                 (with_has_content true
                    (with_item_line_open false (obj w))).
Proof. apply log_turn_event_run. Qed.

(** X18. When [message.content] is a list with a tool_result entry and an
    item line is open, [_log_claude_tool_result] completes the line: it
    appends the cross if some mapping of the list carries a truthy
    [is_error], the check mark otherwise, the elapsed time and a line feed,
    and leaves no item line open. Status redraws aside, nothing else is
    written. *)
Theorem tool_result_closes_open_line
        (payload : dict) (content : list value) (w : world) :
  message_content payload = Ok (VList content) ->
  existsb is_tool_result content = true ->
  _item_line_open (obj w) = true ->
  exists w',
    _log_claude_tool_result elapsed_at payload w = (Ok tt, w') /\
    permanent (out w')
    = permanent (out w) ++
      [mkEntry Stderr ItemClose
         ((if existsb is_error_item content
           then glyph_cross else glyph_check) ++
          lit " (" ++ elapsed_at (clock w) ++ lit ")" ++ nl)] /\
    _item_line_open (obj w') = false.
Proof.
  intros C T F. unfold message_content in C.
  unfold _log_claude_tool_result. rewrite C. mrun.
  rewrite T. cbn [negb]. unfold locked. mrun.
  match goal with
  | |- context [bind (yield elapsed_at) ?k ?w0] =>
      destruct (yield_run elapsed_at w0) as (w1 & E & [[i Hi] Hp]);
      rewrite (run_known _ k _ _ _ E)
  end.
  cbn [obj out] in Hi, Hp. mrun. rewrite Hi.
  cbn [obj _item_line_open with_spinner_idx]. rewrite F. unfold when. mrun.
  eexists. split; [reflexivity|]. cbn [obj out]. rewrite Hi.
  cbn [_item_line_open with_item_line_open with_spinner_idx].
  rewrite permanent_snoc, Hp. cbn [is_status e_role negb].
  split; reflexivity.
Qed.

End Markers.

Lemma tool_result_closes_open_line_witness :
  let w :=
    snd (on_event repr_plain clock_fixed ex_started
           (snd (start clock_fixed (lit "build") (fresh true false []))))
  in
  exists w',
    _log_claude_tool_result clock_fixed ex_tool_result_payload w
    = (Ok tt, w') /\
    permanent (out w')
    = permanent (out w) ++
      [mkEntry Stderr ItemClose
         (glyph_check ++ lit " (" ++ clock_fixed (clock w) ++ lit ")" ++ nl)] /\
    _item_line_open (obj w') = false.
Proof.
  intro w.
  apply (tool_result_closes_open_line clock_fixed ex_tool_result_payload
           [VDict [(lit "type", VStr (lit "tool_result"))]] w);
    reflexivity.
Defined.

(** ** The tool uses of a message *)

Lemma role_count_app (f : role -> bool) (o o' : list entry) :
  role_count f (o ++ o') = (role_count f o + role_count f o')%nat.
Proof. unfold role_count. now rewrite filter_app, length_app. Qed.

Lemma role_count_permanent (f : role -> bool) (o : list entry) :
  f Status = false -> role_count f (permanent o) = role_count f o.
Proof.
  intros H. unfold role_count, permanent.
  induction o as [|e o IH]; [reflexivity|].
  cbn [filter]. destruct (is_status e) eqn:S; cbn [negb filter].
  - assert (R : e_role e = Status)
      by (unfold is_status in S; now destruct (e_role e)).
    now rewrite R, H.
  - destruct (f (e_role e)); cbn [length]; now rewrite IH.
Qed.

Lemma role_count_same (f : role -> bool) (o o' : list entry) :
  f Status = false -> permanent o' = permanent o ->
  role_count f o' = role_count f o.
Proof.
  intros H E.
  now rewrite <- (role_count_permanent f o' H), E, role_count_permanent.
Qed.

Section ToolUses.

Variable repr_str : str -> str.
Variable elapsed_at : nat -> str.

Lemma tool_use_items_run (content : list value) (w : world) :
  exists w',
    tool_use_items repr_str elapsed_at content w = (Ok tt, w') /\
    role_count is_open_role (out w')
    = (role_count is_open_role (out w) +
       length (filter is_tool_use content))%nat /\
    role_count is_break_role (out w')
    = (role_count is_break_role (out w) +
       (length (filter is_tool_use content) -
        (if _item_line_open (obj w) then 0 else 1)))%nat /\
    _item_line_open (obj w')
    = existsb is_tool_use content || _item_line_open (obj w).
Proof.
  revert w. induction content as [|item content IH]; intros w.
  - exists w. cbn. rewrite !Nat.add_0_r. repeat split.
  - assert (Skip : is_tool_use item = false ->
                   tool_use_items repr_str elapsed_at (item :: content) w
                   = tool_use_items repr_str elapsed_at content w).
    { destruct item; try reflexivity. cbn [is_tool_use tool_use_items].
      intros ->. reflexivity. }
    destruct (is_tool_use item) eqn:Q.
    + destruct item as [| | | | | |d]; try discriminate.
      cbn [is_tool_use] in Q. cbn [tool_use_items filter existsb is_tool_use].
      rewrite Q. cbn [negb orb length]. mrun. unfold locked. mrun.
      match goal with
      | |- context [bind (yield elapsed_at) ?k ?w0] =>
          destruct (yield_run elapsed_at w0) as (w1 & E & [[i Hi] Hp]);
          pose proof (run_known _ k _ _ _ E) as R; rewrite R; clear R
      end.
      cbn [obj out] in Hi, Hp.
      unfold close_open_line. mrun. rewrite Hi.
      cbn [obj _item_line_open with_spinner_idx].
      pose proof (role_count_same is_open_role _ _ eq_refl Hp) as Co.
      pose proof (role_count_same is_break_role _ _ eq_refl Hp) as Cb.
      destruct (_item_line_open (obj w)) eqn:F; unfold when; mrun;
        match goal with
        | |- context [tool_use_items repr_str elapsed_at content ?w2] =>
            destruct (IH w2) as (w' & E' & Ho & Hb & Hf)
        end;
        exists w'; (split; [exact E'|]);
        rewrite Ho, Hb, Hf; cbn [obj out];
        rewrite !role_count_app, Co, Cb; cbn; rewrite orb_true_r;
        repeat split; lia.
    + rewrite (Skip eq_refl). cbn [filter existsb]. rewrite Q. cbn [orb].
      apply IH.
Qed.

(** X19. When [message.content] is a list, [_log_claude_tool_use] never
    raises, whatever the list holds: it opens one item line for each
    tool_use entry, closes with a forced line feed every item line that was
    open when the next one is opened, and leaves an item line open exactly
    when one was open before or the list holds a tool_use entry. When
    [message.content] is not a list the handler leaves the world as it is,
    and when [message] is not a mapping it raises before writing. *)
Theorem tool_uses_open_one_line_each (payload : dict) (w : world) :
  (forall content,
      message_content payload = Ok (VList content) ->
      exists w',
        _log_claude_tool_use repr_str elapsed_at payload w = (Ok tt, w') /\
        role_count is_open_role (out w')
        = (role_count is_open_role (out w) +
           length (filter is_tool_use content))%nat /\
        role_count is_break_role (out w')
        = (role_count is_break_role (out w) +
           (length (filter is_tool_use content) -
            (if _item_line_open (obj w) then 0 else 1)))%nat /\
        _item_line_open (obj w')
        = existsb is_tool_use content || _item_line_open (obj w)) /\
  (forall v,
      message_content payload = Ok v -> is_list v = false ->
      _log_claude_tool_use repr_str elapsed_at payload w = (Ok tt, w)) /\
  (forall e,
      message_content payload = Raise e ->
      _log_claude_tool_use repr_str elapsed_at payload w = (Raise e, w)).
Proof.
  unfold message_content, _log_claude_tool_use. split; [|split].
  - intros content ->. mrun. apply tool_use_items_run.
  - intros v -> L. mrun. now destruct v.
  - intros e ->. reflexivity.
Qed.

End ToolUses.

Lemma tool_uses_open_one_line_each_witness :
  let w := snd (start clock_fixed (lit "build") (fresh true false [])) in
  (exists w',
      _log_claude_tool_use repr_plain clock_fixed ex_tool_use_payload w
      = (Ok tt, w') /\
      role_count is_open_role (out w') = 2%nat /\
      role_count is_break_role (out w') = 1%nat /\
      _item_line_open (obj w') = true) /\
  _log_claude_tool_use repr_plain clock_fixed
    [(lit "message", VDict [(lit "content", VStr (lit "hi"))])] w
  = (Ok tt, w) /\
  _log_claude_tool_use repr_plain clock_fixed
    [(lit "message", VStr (lit "hi"))] w
  = (Raise AttributeError, w).
Proof.
  intro w. split; [|split].
  - destruct (tool_uses_open_one_line_each repr_plain clock_fixed
                ex_tool_use_payload w) as (H & _ & _).
    destruct (H _ eq_refl) as (w' & E & Ho & Hb & Hf).
    exists w'. split; [exact E|]. split; [exact Ho|]. split; [exact Hb|].
    exact Hf.
  - apply (tool_uses_open_one_line_each repr_plain clock_fixed
             [(lit "message", VDict [(lit "content", VStr (lit "hi"))])] w)
      with (v := VStr (lit "hi")); reflexivity.
  - apply (tool_uses_open_one_line_each repr_plain clock_fixed
             [(lit "message", VStr (lit "hi"))] w).
    reflexivity.
Defined.

(** ** The brief log *)

Lemma in_lits_not_str (v : value) (l : list string) :
  is_str v = false -> in_lits v l = false.
Proof.
  intros H. destruct (in_lits v l) eqn:E; [|reflexivity].
  destruct (in_lits_is_str _ _ E) as [s ->]. discriminate.
Qed.

Section BriefLog.

Variable repr_str : str -> str.
Variable elapsed_at : nat -> str.

(** X20. The brief log of an event: an event type that cannot be hashed (a
    list or a mapping) makes it raise [TypeError] before anything is done;
    for the three noisy types and the six types that have handlers of their
    own it returns at once and leaves the world as it is; for any other
    type and a non-empty activity it writes exactly one line, the elapsed
    time and the activity, on the error stream; and with no activity, a type
    that can be hashed but is not a string makes it raise [AttributeError]
    having written nothing. *)
Theorem brief_log_cases
        (etype payload : value) (activity : option str) (w : world) :
  (hashable etype = false ->
   _log_event_brief repr_str elapsed_at etype payload activity w
   = (Raise TypeError, w)) /\
  (in_lits etype brief_skipped = true ->
   _log_event_brief repr_str elapsed_at etype payload activity w
   = (Ok tt, w)) /\
  (hashable etype = true -> in_lits etype brief_skipped = false ->
   forall c a,
     activity = Some (c :: a) ->
     _log_event_brief repr_str elapsed_at etype payload activity w
     = (Ok tt,
        mkWorld (obj w)
          (out w ++
           [mkEntry Stderr Brief
              (lit "[" ++ elapsed_at (clock w) ++ lit "] " ++ (c :: a) ++
               nl)])
          (S (clock w)) (sched w))) /\
  (hashable etype = true -> is_str etype = false ->
   activity = None \/ activity = Some [] ->
   _log_event_brief repr_str elapsed_at etype payload activity w
   = (Raise AttributeError,
      mkWorld (obj w) (out w) (S (clock w)) (sched w))).
Proof.
  unfold _log_event_brief. split; [|split; [|split]].
  - intros ->. reflexivity.
  - intros H. destruct (in_lits_is_str _ _ H) as [s ->].
    cbn [hashable negb]. unfold in_lits, brief_skipped in *.
    cbn [existsb] in *.
    destruct (eq_lit (VStr s) "message"),
             (eq_lit (VStr s) "content_block_delta"),
             (eq_lit (VStr s) "message_delta"); cbn [orb] in *;
      try reflexivity.
    rewrite H. reflexivity.
  - intros -> H c a ->. cbn [negb]. lits_off H. mrun. reflexivity.
  - intros -> S A. cbn [negb].
    rewrite !(in_lits_not_str etype _ S). mrun.
    assert (R : m_startswith etype (lit "file.") = Raise AttributeError)
      by (destruct etype; try discriminate; reflexivity).
    rewrite R. now destruct A as [->| ->].
Qed.

End BriefLog.

Lemma brief_log_cases_witness :
  let w := snd (start clock_fixed (lit "build") (fresh true false [])) in
  _log_event_brief repr_plain clock_fixed (VList []) (VDict []) None w
  = (Raise TypeError, w) /\
  _log_event_brief repr_plain clock_fixed (VStr (lit "user")) (VDict [])
    (Some (lit "thinking...")) w
  = (Ok tt, w) /\
  _log_event_brief repr_plain clock_fixed (VStr (lit "reasoning")) (VDict [])
    (Some (lit "thinking...")) w
  = (Ok tt,
     mkWorld (obj w)
       (out w ++
        [mkEntry Stderr Brief
           (lit "[" ++ clock_fixed (clock w) ++ lit "] " ++
            lit "thinking..." ++ nl)])
       (S (clock w)) (sched w)) /\
  _log_event_brief repr_plain clock_fixed (VInt 5) (VDict []) None w
  = (Raise AttributeError,
     mkWorld (obj w) (out w) (S (clock w)) (sched w)).
Proof.
  intro w. split; [|split; [|split]].
  - apply (brief_log_cases repr_plain clock_fixed (VList []) (VDict [])
             None w). reflexivity.
  - apply (brief_log_cases repr_plain clock_fixed (VStr (lit "user"))
             (VDict []) (Some (lit "thinking...")) w). reflexivity.
  - apply (brief_log_cases repr_plain clock_fixed (VStr (lit "reasoning"))
             (VDict []) (Some (lit "thinking...")) w
             ) with (c := 116%N) (a := lit "hinking..."); reflexivity.
  - apply (brief_log_cases repr_plain clock_fixed (VInt 5) (VDict [])
             None w); auto.
Defined.

(** ** Content lines *)


Section ContentLines.

Variable elapsed_at : nat -> str.


End ContentLines.

(** ** The end and the beginning of a run *)

Section EndOfRun.

Variable elapsed_at : nat -> str.





End EndOfRun.

Section StartOfRun.

Variable elapsed_at : nat -> str.

(** X23. [start] never raises. It resets the status, the activity, the
    counters, the buffer, the history and the flags of the previous run and
    sets the label; off a terminal it writes exactly the banner line with the
    label on the error stream; on a terminal it draws the first status line
    (first spinner frame, label, [starting...], elapsed time, no counters)
    and starts the ticker. *)
Theorem start_resets_the_run (label : str) (w : world) :
  let tty := _is_tty (obj w) in
  exists w',
    start elapsed_at label w = (Ok tt, w') /\
    obj w'
    = mkPrinter (stream_tokens (obj w)) label (lit "starting...") [] 0 0 0
        true (tty || _spinner_thread (obj w)) tty [] false [] false /\
    out w'
    = out w ++
      [if tty
       then mkEntry Stderr Status
              (clear_line ++
               clip_status
                 (join (lit " ")
                    [nth 0 SPINNER_FRAMES [] ++ lit " " ++ label;
                     lit "starting...";
                     lit "[" ++ elapsed_at (clock w) ++ lit "]"]))
       else mkEntry Stderr Banner (lit "[agent] " ++ label ++ nl)].
Proof.
  intros tty. subst tty. unfold start. mrun. cbn [_is_tty].
  destruct (_is_tty (obj w)) eqn:T.
  - unfold _write_status_line. mrun. cbn [_is_tty _item_line_open negb].
    rewrite ?T. cbn [negb]. unfold _format_status_line. mrun.
    cbn [_spinner_idx _activity _status _token_count _event_count _label].
    eval_in_goal (nonempty []). eval_in_goal (nonempty (lit "starting...")).
    eval_in_goal (0 >? 0). cbv iota.
    unfold write, update, ret. eexists. split; [reflexivity|].
    cbn [obj out]. unfold with_spinner_thread. cbn. rewrite ?T.
    split; reflexivity.
  - unfold write. eexists. split; [reflexivity|]. cbn [obj out].
    rewrite ?T. split; reflexivity.
Qed.

End StartOfRun.

(** ** An error event without a mapping *)

Section ErrorWithoutMapping.

Variable repr_str : str -> str.
Variable elapsed_at : nat -> str.

(** X24. An event of kind error whose payload is not a mapping (a null
    payload, a string, a list) makes [on_event] raise [AttributeError] when
    it looks for the message: the event is counted, but no content line is
    written and the status is left as it was. *)
Theorem error_event_without_mapping_raises
        (event : dict) (v : value) (w : world) :
  get event "type" = VStr (lit "error") ->
  get_or event "payload" (VDict []) = v ->
  is_dict v = false ->
  exists w',
    on_event repr_str elapsed_at event w = (Raise AttributeError, w') /\
    permanent (out w') = permanent (out w) /\
    _event_count (obj w') = _event_count (obj w) + 1 /\
    _status (obj w') = _status (obj w).
Proof.
  intros Ht Hp Hd. unfold on_event. rewrite Ht, Hp. cbv zeta.
  destruct (yield_run elapsed_at w) as (w1 & E & [[i Hi] Hy]).
  match goal with
  | |- context [bind (yield elapsed_at) ?k w] =>
      pose proof (run_known _ k _ _ _ E) as R; rewrite R; clear R
  end.
  mrun.
  assert (G : m_get v "message" = Raise AttributeError)
    by (destruct v; try discriminate; reflexivity).
  assert (B : forall w0,
             _log_event_brief repr_str elapsed_at (VStr (lit "error")) v None
               w0
             = (Ok tt, mkWorld (obj w0) (out w0) (S (clock w0)) (sched w0))).
  { intros w0. unfold _log_event_brief.
    eval_in_goal (hashable (VStr (lit "error"))). cbn [negb].
    lits_eval. mrun.
    eval_in_goal (m_startswith (VStr (lit "error")) (lit "file.")).
    mrun. reflexivity. }
  destruct v; try discriminate; cbv iota; mrun; lits_eval;
    eval_in_goal (truthy (VStr (lit "error"))); rewrite andb_true_r;
    cbn [_is_tty with_event_count];
    (destruct (negb (_is_tty (obj w1))) eqn:T;
     [rewrite (run_known _ _ _ _ _ (B _))|]; mrun);
    rewrite G; unfold lift, bind; cbv beta iota;
    (eexists; split; [reflexivity|]); cbn [obj out];
    rewrite Hi; repeat split; exact Hy.
Qed.

End ErrorWithoutMapping.

Lemma error_event_without_mapping_raises_witness :
  let w := snd (start clock_fixed (lit "build") (fresh true false [])) in
  let event := [(lit "type", VStr (lit "error")); (lit "payload", VNone)] in
  exists w',
    on_event repr_plain clock_fixed event w = (Raise AttributeError, w') /\
    permanent (out w') = permanent (out w) /\
    _event_count (obj w') = _event_count (obj w) + 1 /\
    _status (obj w') = _status (obj w).
Proof.
  intros w event.
  apply (error_event_without_mapping_raises repr_plain clock_fixed event
           VNone w); reflexivity.
Defined.

(** ** Nothing is left pending *)

Section Pending.

Variable repr_str : str -> str.
Variable elapsed_at : nat -> str.







End Pending.


(** ** Events the printer has nothing to show for *)

Section QuietEvents.

Variable repr_str : str -> str.
Variable elapsed_at : nat -> str.

(** X26. On a terminal, an event whose type is none of those [on_event]
    handles, whose payload yields no activity and carries no text, is only
    counted: [on_event] returns, and but for the event count, and for what
    the ticker did meanwhile (status redraws and the spinner index), the
    printer and the output are as before. *)
Theorem unknown_event_is_only_counted (event pl : dict) (w : world) :
  _is_tty (obj w) = true ->
  get_or event "payload" (VDict []) = VDict pl ->
  in_lits (get event "type") handled_types = false ->
  _extract_activity repr_str pl = Ok None ->
  is_text (get pl "text") = false ->
  exists w' i,
    on_event repr_str elapsed_at event w = (Ok tt, w') /\
    obj w'
    = with_spinner_idx i
        (with_event_count (_event_count (obj w) + 1) (obj w)) /\
    permanent (out w') = permanent (out w).
Proof.
  intros T Hp Ht He Hx. unfold on_event. rewrite Hp. cbv zeta.
  destruct (yield_run elapsed_at w) as (w1 & E & [[i Hi] Hy]).
  match goal with
  | |- context [bind (yield elapsed_at) ?k w] =>
      pose proof (run_known _ k _ _ _ E) as R; rewrite R; clear R
  end.
  mrun. rewrite He. mrun. lits_off Ht.
  cbn [_is_tty _activity stream_tokens with_event_count]. rewrite ?Hi.
  cbn [_is_tty _activity stream_tokens with_spinner_idx]. rewrite T.
  cbn [negb andb]. mrun.
  cbn [_is_tty _activity stream_tokens with_event_count]. rewrite ?Hi.
  cbn [_is_tty _activity stream_tokens with_spinner_idx].
  assert (Q : forall b : bool,
             when b
               match get pl "text" with
               | VStr (c :: text) =>
                   _update_streaming elapsed_at (c :: text) ;;
                   p <- self ;;
                   when (negb (nonempty (_activity p)))
                     (set_status elapsed_at (lit "streaming..."))
               | _ => ret tt
               end = ret tt).
  { intros b. destruct (get pl "text") as [| | | |[|c s]| |];
      try discriminate; now destruct b. }
  rewrite Q. mrun. lits_off Ht.
  cbn [_activity with_event_count]. rewrite ?Hi.
  cbn [_activity with_spinner_idx].
  eexists. exists i.
  split; [destruct (negb (nonempty (_activity (obj w)))); reflexivity|].
  cbn [obj out]. split; [|exact Hy].
  now destruct (obj w).
Qed.

End QuietEvents.

Lemma unknown_event_is_only_counted_witness :
  let w := snd (start clock_fixed (lit "build") (fresh true true [])) in
  let event := [(lit "type", VStr (lit "ping"));
                (lit "payload", VDict [(lit "seq", VInt 3)])] in
  exists w' i,
    on_event repr_plain clock_fixed event w = (Ok tt, w') /\
    obj w'
    = with_spinner_idx i
        (with_event_count (_event_count (obj w) + 1) (obj w)) /\
    permanent (out w') = permanent (out w).
Proof.
  intros w event.
  apply (unknown_event_is_only_counted repr_plain clock_fixed event
           [(lit "seq", VInt 3)] w); reflexivity.
Defined.

(** ** The status *)

Section Status.

Variable repr_str : str -> str.
Variable elapsed_at : nat -> str.

(** X27. [set_status] never raises; it changes the status and nothing
    else of the printer (the ticker may have moved the spinner meanwhile)
    and writes nothing but status redraws. And while an activity is shown,
    the text of the status line does not depend on the status: the activity
    takes its place. *)
Theorem status_gives_way_to_activity (status : str) (w : world) :
  (exists w' i,
      set_status elapsed_at status w = (Ok tt, w') /\
      obj w' = with_spinner_idx i (with_status status (obj w)) /\
      permanent (out w') = permanent (out w)) /\
  (_activity (obj w) <> [] ->
   fst (_format_status_line elapsed_at
          (mkWorld (with_status status (obj w)) (out w) (clock w) (sched w)))
   = fst (_format_status_line elapsed_at w)).
Proof.
  split.
  - destruct (set_status_run elapsed_at status w) as (w' & E & [i Ho] & P).
    now exists w', i.
  - intros N. unfold _format_status_line. mrun.
    cbn [_activity _status _label _spinner_idx _token_count _event_count
         with_status].
    apply nonempty_true in N. unfold nonempty. rewrite N. reflexivity.
Qed.




End Status.

Lemma status_gives_way_to_activity_witness :
  let w :=
    snd (on_event repr_plain clock_fixed ex_started
           (snd (start clock_fixed (lit "build") (fresh true true []))))
  in
  (exists w' i,
      set_status clock_fixed (lit "idle") w = (Ok tt, w') /\
      obj w' = with_spinner_idx i (with_status (lit "idle") (obj w)) /\
      permanent (out w') = permanent (out w)) /\
  fst (_format_status_line clock_fixed
         (mkWorld (with_status (lit "idle") (obj w)) (out w) (clock w)
            (sched w)))
  = fst (_format_status_line clock_fixed w).
Proof.
  intro w.
  destruct (status_gives_way_to_activity clock_fixed (lit "idle") w)
    as [H1 H2].
  split; [exact H1|]. apply H2. vm_compute. discriminate.
Defined.


(** ** When the summarizer raises, and when streaming is off *)

Section Quiet.

Variable repr_str : str -> str.
Variable elapsed_at : nat -> str.

(** X29. When the summarizer raises on the item of an item event, the
    handler raises the same exception before it takes the lock: it has read
    the clock once, and the printer and the output are exactly as before; in
    particular no item line is opened or closed. *)
Theorem summary_failure_writes_nothing
        (payload : dict) (e : exn) (w : world) :
  item_summary repr_str payload = Raise e ->
  _log_item_started repr_str elapsed_at payload w
  = (Raise e, mkWorld (obj w) (out w) (S (clock w)) (sched w)) /\
  _log_item_completed repr_str elapsed_at payload w
  = (Raise e, mkWorld (obj w) (out w) (S (clock w)) (sched w)).
Proof.
  intros H. unfold _log_item_started, _log_item_completed.
  rewrite summary_of_item, H. mrun. split; reflexivity.
Qed.

Ltac silent_known :=
  idtac;
  let w := fresh "w" in
  let H := fresh "H" in
  let p := fresh "p" in
  let Kp := fresh "Kp" in
  apply (holds_bind_self _ (fun p => stream_tokens p = false));
  [intros w [H _]; exact H
  |intros p Kp; rewrite ?Kp; cbn [when]].

(** X30. With [stream_tokens] off, handling an event, whether it returns
    or raises, never touches the streaming buffer or the token count: text
    carried by events is neither accumulated nor counted. *)
Theorem streaming_off_leaves_buffer_alone (event : dict) (w : world) :
  stream_tokens (obj w) = false ->
  let w' := snd (on_event repr_str elapsed_at event w) in
  _current_line (obj w') = _current_line (obj w) /\
  _token_count (obj w') = _token_count (obj w).
Proof.
  intros S w'. subst w'.
  assert (H : holds (fun w0 => stream_tokens (obj w0) = false /\
                               _current_line (obj w0) = _current_line (obj w)
                               /\ _token_count (obj w0) = _token_count (obj w))
                (on_event repr_str elapsed_at event)).
  { unfold on_event.
    assert (forall content,
               holds (fun w0 => stream_tokens (obj w0) = false /\
                                _current_line (obj w0)
                                = _current_line (obj w) /\
                                _token_count (obj w0) = _token_count (obj w))
                 (tool_use_items repr_str elapsed_at content))
      by (holds_tool_use_items frame_known frame_side).
    holds_auto silent_known frame_side. }
  destruct (H w (conj S (conj eq_refl eq_refl))) as (_ & C & T).
  split; assumption.
Qed.

End Quiet.

Lemma summary_failure_writes_nothing_witness :
  let w := snd (start clock_fixed (lit "build") (fresh true false [])) in
  let payload := [(lit "item", VDict [(lit "type", VStr (lit "reasoning"));
                                      (lit "summary", VInt 5)])] in
  _log_item_started repr_plain clock_fixed payload w
  = (Raise TypeError, mkWorld (obj w) (out w) (S (clock w)) (sched w)) /\
  _log_item_completed repr_plain clock_fixed payload w
  = (Raise TypeError, mkWorld (obj w) (out w) (S (clock w)) (sched w)).
Proof.
  intros w payload.
  apply (summary_failure_writes_nothing repr_plain clock_fixed payload
           TypeError w).
  reflexivity.
Defined.

Lemma streaming_off_leaves_buffer_alone_witness :
  let w := snd (start clock_fixed (lit "build") (fresh false false [])) in
  let w' := snd (on_event repr_plain clock_fixed ex_text w) in
  _current_line (obj w') = _current_line (obj w) /\
  _token_count (obj w') = _token_count (obj w).
Proof.
  intro w.
  apply (streaming_off_leaves_buffer_alone repr_plain clock_fixed ex_text w).
  reflexivity.
Defined.
